(** * django-webpack-loader: the manifest loader and its configuration

    A shallow embedding of [webpack_loader/config.py] and
    [webpack_loader/loader.py], and the properties of the resolution engine
    that follow from the code; then the callers of the loader
    ([webpack_loader/utils.py], the template tags) and the system check
    ([webpack_loader/apps.py]).

    Conventions.
    - A Python [dict] used as a map is a [gmap]; a [TypedDict] is a record
      whose optional keys are [option] fields.
    - Python exceptions are the constructors of [exn].  A call returns or
      raises; [Unfinished] only marks the point where the model stops
      following the unbounded [while] loop of get_bundle.
    - Everything the process can observe or change lives in [World]: the
      class attribute [WebpackLoader._assets], the manifest file as seen by
      successive reads, and the wall clock.  Stateful code is written in the
      monad [M] over [World].
    - The recursion limit of the interpreter is the [depth] argument of
      get_assets and raise_error_from_stats: the two call each other, and
      CPython ends an unbounded recursion with [RecursionError].
    - get_bundle is a generator; it is modelled run to exhaustion, as
      [list(...)] runs it: the result is the list of yielded chunks, or the
      exception that ended the iteration.
    - [re], [staticfiles_storage] and [settings.DEBUG] are the fields of a
      [Host]; the general statements hold for every host.
    - Floats ([POLL_INTERVAL], [time.time()]) are rationals.
    - utils.py keeps its loaders in the module-level dictionary [LOADERS]:
      its functions run in the monad [U] over [Process], the dictionary
      together with the world.  Where a caller iterates over the generator
      of get_bundle, the generator is modelled with its consumer.

    Layout: the embedding; a concrete host and the manifests of the
    scenarios; general properties; the scenarios evaluated; the same for
    the rest of the loader, the configurations, the callers and the
    check. *)

From Stdlib Require Import ZArith QArith String Ascii List Lia.
From stdpp Require Import base option list strings gmap pretty.

Open Scope string_scope.

(** ** Exceptions *)

(** Modelled from the spec: the module [webpack_loader.exceptions], from
    which loader.py imports [WebpackError], [WebpackLoaderBadStatsError],
    [WebpackLoaderTimeoutError] and [WebpackBundleLookupError], is not among
    the sources.  By the error taxonomy of the specification (section 7)
    they are four classes of their own: none is a [KeyError], so the
    handlers of loader.py do not catch them.  The other constructors are
    the Python built-ins the code can meet. *)
Inductive exn : Type :=
| IOError (msg : string)
| JSONDecodeError (msg : string)
| UnicodeDecodeError (msg : string)
| AttributeError (msg : string)
| KeyError (key : string)
| TypeError (msg : string)
| ReError (msg : string)
| RecursionError
| WebpackError (msg : string)
| WebpackLoaderBadStatsError (msg : string)
| WebpackLoaderTimeoutError (msg : string)
| WebpackBundleLookupError (msg : string).

Inductive outcome (A : Type) : Type :=
| Return (a : A)
| Raise (e : exn)
| Unfinished.

Arguments Return {A} a.
Arguments Raise {A} e.
Arguments Unfinished {A}.

Definition outcome_bind {A B} (o : outcome A) (k : A -> outcome B) : outcome B :=
  match o with
  | Return a => k a
  | Raise e => Raise e
  | Unfinished => Unfinished
  end.

(** The double-quote character, as a string. *)
Definition dquote : string := String (ascii_of_nat 34) EmptyString.

(** [hay] contains [needle] as a contiguous piece. *)
Definition contains (hay needle : string) : Prop :=
  exists pre post, hay = pre +:+ needle +:+ post.

(** The same, decided: [needle] is a prefix of some suffix of [hay]. *)
Fixpoint has_sub (needle hay : string) : bool :=
  String.prefix needle hay ||
  match hay with
  | String _ hay' => has_sub needle hay'
  | EmptyString => false
  end.

(** ** The manifest (loader.py, lines 29-57) *)

Record WebpackBundleAsset : Type := mkAsset {
  a_name : option string;
  a_publicPath : option string;
  a_path : option string;
  a_integrity : option string;
  a_url : option string          (* the key [__url__] *)
}.

(** The manifest is a JSON object with the key [status]; the other keys are
    optional. *)
Record WebpackBundleContents : Type := mkContents {
  status : string;
  m_publicPath : option string;
  m_error : option string;
  m_message : option string;
  m_chunks : option (gmap string (list string));
  m_assets : option (gmap string WebpackBundleAsset)
}.

Definition set_url (u : string) (c : WebpackBundleAsset) : WebpackBundleAsset :=
  {| a_name := a_name c; a_publicPath := a_publicPath c; a_path := a_path c;
     a_integrity := a_integrity c; a_url := Some u |}.

(** [chunk['__url__'] = u] applied to the asset stored under [chunk_name]. *)
Definition memoize (chunk_name u : string) (m : WebpackBundleContents)
  : WebpackBundleContents :=
  {| status := status m; m_publicPath := m_publicPath m; m_error := m_error m;
     m_message := m_message m; m_chunks := m_chunks m;
     m_assets := alter (set_url u) chunk_name <$> m_assets m |}.

(** [assets.get("assets", {})] *)
Definition assets_of (m : WebpackBundleContents) : gmap string WebpackBundleAsset :=
  default ∅ (m_assets m).

Definition is_done (s : string) : bool := String.eqb s "done".
Definition is_pending (s : string) : bool :=
  String.eqb s "initialization" || String.eqb s "compile".

(** ** The world *)

(** What one [open(path, encoding="utf-8")] + [json.load] of the manifest
    path gives.  The decoder and the parser are not modelled: the world says
    whether the file can be read, whether its bytes are UTF-8, whether the
    text is JSON, and what it parses to.  A file that parses holds a
    manifest: a JSON object with the key [status]. *)
Inductive read_result : Type :=
| Unreadable (cause : string)      (* open or read raised IOError(cause) *)
| Undecodable (cause : string)     (* the read raised UnicodeDecodeError(cause) *)
| Malformed (cause : string)       (* json.load raised JSONDecodeError(cause) *)
| Parsed (m : WebpackBundleContents).

Record World : Type := mkWorld {
  class_assets : option (gmap string WebpackBundleContents);
    (* WebpackLoader._assets; None while the attribute is unassigned *)
  disk : nat -> string -> read_result;
    (* what the n-th read of the process finds at a path *)
  nreads : nat;
  clock : Q
}.

Definition M (A : Type) : Type := World -> outcome A * World.

Definition ret {A} (a : A) : M A := fun w => (Return a, w).
Definition raise {A} (e : exn) : M A := fun w => (Raise e, w).
Definition unfinished {A} : M A := fun w => (Unfinished, w).
Definition lift {A} (o : outcome A) : M A := fun w => (o, w).
Definition bind {A B} (c : M A) (k : A -> M B) : M B :=
  fun w => match c w with
           | (Return a, w') => k a w'
           | (Raise e, w') => (Raise e, w')
           | (Unfinished, w') => (Unfinished, w')
           end.

Declare Scope py_scope.
Delimit Scope py_scope with py.
Notation "x <- c ;; k" := (bind c (fun x => k))
  (at level 100, c at next level, right associativity) : py_scope.
Notation "c ;;; k" := (bind c (fun _ => k))
  (at level 100, right associativity) : py_scope.
Open Scope py_scope.

(** [try: body except KeyError: handler] *)
Definition except_KeyError {A} (body handler : M A) : M A :=
  fun w => match body w with
           | (Raise (KeyError _), w') => handler w'
           | r => r
           end.

Definition set_class_assets (c : option (gmap string WebpackBundleContents)) (w : World) : World :=
  {| class_assets := c; disk := disk w; nreads := nreads w; clock := clock w |}.

Definition count_read (w : World) : World :=
  {| class_assets := class_assets w; disk := disk w; nreads := S (nreads w);
     clock := clock w |}.

Definition time_time : M Q := fun w => (Return (clock w), w).
Definition time_sleep (d : Q) : M unit := fun w =>
  (Return tt, {| class_assets := class_assets w; disk := disk w;
                 nreads := nreads w; clock := (clock w + d)%Q |}).

Definition Qltb (a b : Q) : bool := negb (Qle_bool b a).

(** ** The host: what Django and the standard library supply *)

Class Host : Type := {
  Pattern : Type;
  re_compile : string -> outcome Pattern;    (* re.compile, raising re.error *)
  re_match : Pattern -> string -> bool;      (* regex.match(s) is not None *)
  static_url : string -> string;             (* staticfiles_storage.url *)
  DEBUG : bool                               (* settings.DEBUG *)
}.

(** ** A reference matcher for a fragment of Python's [re]

    Patterns of the form [item* $?], where an item is an atom with at most
    one of [*], [+], [?], and an atom is [.], an escaped character that is
    not a letter or a digit, or a plain character.  On this fragment
    [rx_compile] and [rx_match] follow [re.compile] and [regex.match]:
    matching is anchored at the start only, [.] does not match a newline,
    and a final [$] matches at the end or before a last newline.  Any
    other syntax is refused here, though Python accepts much of it, and a
    string is a sequence of bytes, so that on text outside ASCII [.] takes
    one byte where Python takes one character; the scenarios below stay
    inside the fragment and inside ASCII.  The matcher is the [re] of
    [example_host] only: the general statements are over any [Host]. *)

Inductive rx_atom : Type :=
| RxAny                      (* [.]: any character but a newline *)
| RxChar (c : ascii).

Inductive rx_quant : Type := RxOne | RxStar | RxPlus | RxOpt.

Record rx : Type := mkRx {
  rx_items : list (rx_atom * rx_quant);
  rx_dollar : bool           (* the pattern ends with [$] *)
}.

Definition rx_unsupported {A} : outcome A :=
  Raise (ReError "pattern outside the fragment of the reference matcher").

Definition rx_alnum (c : ascii) : bool :=
  let n := nat_of_ascii c in
  ((48 <=? n) && (n <=? 57) || (65 <=? n) && (n <=? 90) || (97 <=? n) && (n <=? 122))%nat.

Definition rx_quant_of (c : ascii) : option rx_quant :=
  if Ascii.eqb c "*" then Some RxStar
  else if Ascii.eqb c "+" then Some RxPlus
  else if Ascii.eqb c "?" then Some RxOpt
  else None.

Definition rx_meta (c : ascii) : bool :=
  existsb (Ascii.eqb c) ["("; ")"; "["; "]"; "{"; "}"; "|"; "^"]%char.

(** [acc] holds the items read so far, last one first; [pos] is the index of
    the next character, for the error messages. *)
Fixpoint rx_parse (s : string) (pos : nat) (acc : list (rx_atom * rx_quant))
  : outcome rx :=
  match s with
  | EmptyString => Return (mkRx (rev acc) false)
  | String c s' =>
      match rx_quant_of c with
      | Some q =>
          match acc with
          | [] => Raise (ReError ("nothing to repeat at position " +:+ pretty pos))
          | (a, RxOne) :: acc' => rx_parse s' (S pos) ((a, q) :: acc')
          | _ => rx_unsupported
          end
      | None =>
          if Ascii.eqb c "$" then
            match s' with
            | EmptyString => Return (mkRx (rev acc) true)
            | _ => rx_unsupported
            end
          else if Ascii.eqb c "\" then
            match s' with
            | EmptyString =>
                Raise (ReError ("bad escape (end of pattern) at position " +:+ pretty pos))
            | String d s'' =>
                if rx_alnum d then rx_unsupported
                else rx_parse s'' (S (S pos)) ((RxChar d, RxOne) :: acc)
            end
          else if rx_meta c then rx_unsupported
          else if Ascii.eqb c "." then rx_parse s' (S pos) ((RxAny, RxOne) :: acc)
          else rx_parse s' (S pos) ((RxChar c, RxOne) :: acc)
      end
  end.

Definition rx_compile (pattern : string) : outcome rx := rx_parse pattern 0 [].

Definition rx_newline : ascii := ascii_of_nat 10.

Definition rx_accepts (a : rx_atom) (c : ascii) : bool :=
  match a with
  | RxAny => negb (Ascii.eqb c rx_newline)
  | RxChar x => Ascii.eqb x c
  end.

(** Zero or more characters accepted by [a], then [k] on the rest. *)
Fixpoint rx_star (a : rx_atom) (k : string -> bool) (s : string) : bool :=
  k s ||
  match s with
  | String c s' => rx_accepts a c && rx_star a k s'
  | EmptyString => false
  end.

Definition rx_step (a : rx_atom) (k : string -> bool) (s : string) : bool :=
  match s with
  | String c s' => rx_accepts a c && k s'
  | EmptyString => false
  end.

(** Does some prefix of [s] match the items (up to the end of [s], or to a
    final newline, when the pattern ends with [$])? *)
Fixpoint rx_run (items : list (rx_atom * rx_quant)) (dollar : bool) (s : string) : bool :=
  match items with
  | [] =>
      if dollar
      then String.eqb s EmptyString || String.eqb s (String rx_newline EmptyString)
      else true
  | (a, q) :: rest =>
      match q with
      | RxOne => rx_step a (rx_run rest dollar) s
      | RxOpt => rx_run rest dollar s || rx_step a (rx_run rest dollar) s
      | RxStar => rx_star a (rx_run rest dollar) s
      | RxPlus => rx_step a (rx_star a (rx_run rest dollar)) s
      end
  end.

(** [regex.match(s) is not None] *)
Definition rx_match (r : rx) (s : string) : bool := rx_run (rx_items r) (rx_dollar r) s.


Section Loader.
Context {H : Host}.

(** ** Configuration (config.py) *)

(** The values a configuration dictionary holds. *)
Inductive pyval : Type :=
| PyNone
| PyBool (b : bool)
| PyInt (z : Z)
| PyFloat (q : Q)
| PyStr (s : string)
| PyList (l : list string)
| PyPatterns (l : list Pattern).

(** The [WebpackConfig] TypedDict ([total=True]), as the loader reads it. *)
Record WebpackConfig : Type := mkConfig {
  CACHE : bool;
  BUNDLE_DIR_NAME : string;
  STATS_FILE : string;
  POLL_INTERVAL : Q;
  TIMEOUT : option Z;
  IGNORE : list string;
  LOADER_CLASS : string;
  ignores : list Pattern
}.

Definition DEFAULT_IGNORE : list string := [".+\.hot-update.js"; ".+\.map"].

Definition DEFAULT_CONFIG : gmap string pyval :=
  <["CACHE" := PyBool (negb DEBUG)]>
  (<["BUNDLE_DIR_NAME" := PyStr "webpack_bundles/"]>
  (<["STATS_FILE" := PyStr "webpack-stats.json"]>
  (<["POLL_INTERVAL" := PyFloat (1 # 10)]>
  (<["TIMEOUT" := PyNone]>
  (<["IGNORE" := PyList DEFAULT_IGNORE]>
  (<["LOADER_CLASS" := PyStr "webpack_loader.loader.WebpackLoader"]>
  (<["ignores" := PyPatterns []]> ∅))))))).

(** [[re.compile(pattern) for pattern in pats]]: left to right, the first
    [re.error] ends the comprehension. *)
Fixpoint compile_all (pats : list string) : outcome (list Pattern) :=
  match pats with
  | [] => Return []
  | p :: rest =>
      outcome_bind (re_compile p) (fun rx =>
      outcome_bind (compile_all rest) (fun rxs => Return (rx :: rxs)))
  end.

(** The comprehension over whatever value [IGNORE] holds: a list of strings
    is what the TypedDict asks for; a string is iterated by character, a
    compiled pattern is returned by [re.compile] as it is, and the other
    values are not iterable. *)
Definition compile_ignores (v : pyval) : outcome (list Pattern) :=
  match v with
  | PyList pats => compile_all pats
  | PyStr s => compile_all (map (fun c => String c EmptyString) (list_ascii_of_string s))
  | PyPatterns rxs => Return rxs
  | PyNone => Raise (TypeError "'NoneType' object is not iterable")
  | PyBool _ => Raise (TypeError "'bool' object is not iterable")
  | PyInt _ => Raise (TypeError "'int' object is not iterable")
  | PyFloat _ => Raise (TypeError "'float' object is not iterable")
  end.

(** [cfg.get('IGNORE', DEFAULT_CONFIG['IGNORE'])] *)
Definition winning_ignore (cfg : gmap string pyval) : pyval :=
  default (PyList DEFAULT_IGNORE) (cfg !! "IGNORE").

(** [{**DEFAULT_CONFIG, **cfg, 'ignores': [...]}]: later entries win, so
    [cfg] is on the left of the left-biased union. *)
Definition process_config (cfg : gmap string pyval) : outcome (gmap string pyval) :=
  outcome_bind (compile_ignores (winning_ignore cfg)) (fun rxs =>
  Return (<["ignores" := PyPatterns rxs]> (cfg ∪ DEFAULT_CONFIG))).

(** Reading a processed dictionary at the TypedDict's types. *)
Definition as_config (d : gmap string pyval) : option WebpackConfig :=
  match d !! "CACHE", d !! "BUNDLE_DIR_NAME", d !! "STATS_FILE", d !! "POLL_INTERVAL",
        d !! "IGNORE", d !! "LOADER_CLASS", d !! "ignores" with
  | Some (PyBool c), Some (PyStr b), Some (PyStr s), Some (PyFloat p),
    Some (PyList i), Some (PyStr l), Some (PyPatterns rxs) =>
      match d !! "TIMEOUT" with
      | Some PyNone => Some (mkConfig c b s p None i l rxs)
      | Some (PyInt t) => Some (mkConfig c b s p (Some t) i l rxs)
      | _ => None
      end
  | _, _, _, _, _, _, _ => None
  end.

(** A processed override, at the TypedDict's types: what [load_config]
    hands to the loader for an entry of [WEBPACK_LOADER]. *)
Definition load_config_of (cfg : gmap string pyval) : option WebpackConfig :=
  match process_config cfg with
  | Return d => as_config d
  | _ => None
  end.

(** ** The loader (loader.py) *)

Record WebpackLoader : Type := mkLoader {
  name : string;
  config : WebpackConfig
}.

(** [cls._assets]: the class body only annotates [_assets], so the attribute
    exists once something has assigned it. *)
Definition global_cache : M (gmap string WebpackBundleContents) := fun w =>
  match class_assets w with
  | Some cache => (Return cache, w)
  | None => (Raise (AttributeError
      "type object 'WebpackLoader' has no attribute '_assets'"), w)
  end.

Definition load_assets (self : WebpackLoader) : M WebpackBundleContents := fun w =>
  let path := STATS_FILE (config self) in
  match disk w (nreads w) path with
  | Parsed m => (Return m, count_read w)
  | Undecodable cause => (Raise (UnicodeDecodeError cause), count_read w)
  | Malformed cause => (Raise (JSONDecodeError cause), count_read w)
  | Unreadable cause =>
      (Raise (IOError ("Error reading " +:+ path +:+ ": " +:+ cause +:+
         ". Are you sure webpack has generated the file and the path is correct?")),
       count_read w)
  end.

(** [cache[self.name] = m]; [cache] is the dictionary [cls._assets] itself. *)
Definition cache_store (self : WebpackLoader) (m : WebpackBundleContents) : M unit :=
  fun w => (Return tt, set_class_assets (insert (name self) m <$> class_assets w) w).

(** [cache[self.name]] *)
Definition cache_fetch (self : WebpackLoader) : M WebpackBundleContents := fun w =>
  match class_assets w ≫= (.!! name self) with
  | Some m => (Return m, w)
  | None => (Raise (KeyError (name self)), w)
  end.

Definition webpack_error (error message : string) : exn :=
  WebpackError ("Error in webpack '" +:+ error +:+ "': " +:+ message).

Definition bad_stats (self : WebpackLoader) (st : string) : exn :=
  WebpackLoaderBadStatsError
    ("Tried to access webpack stats " +:+ dquote +:+ name self +:+ dquote +:+
     ", but it has status " +:+ dquote +:+ st +:+ dquote).

(** Lines 94-107 of get_assets: the manifest from the cache or from the file. *)
Definition fetch_assets (self : WebpackLoader) (replace_cache : bool)
  : M WebpackBundleContents :=
  if CACHE (config self) then
    cache <- global_cache ;;
    (if negb (bool_decide (is_Some (cache !! name self))) || replace_cache
     then (m <- load_assets self ;; cache_store self m)
     else ret tt) ;;;
    cache_fetch self
  else load_assets self.

(** [get_assets] and [raise_error_from_stats] call each other.  [depth] is
    the number of nested activations of the two the interpreter still
    allows: at zero the call raises [RecursionError], as CPython does when
    the recursion limit is reached. *)
Fixpoint get_assets (depth : nat) (self : WebpackLoader)
    (compiled replace_cache : bool) {struct depth} : M WebpackBundleContents :=
  match depth with
  | O => raise RecursionError
  | S depth' =>
      assets <- fetch_assets self replace_cache ;;
      if compiled then
        if negb (is_done (status assets)) then
          raise_error_from_stats depth' self ;;;
          raise (bad_stats self (status assets))
        else ret assets
      else ret assets
  end
with raise_error_from_stats (depth : nat) (self : WebpackLoader) {struct depth} : M unit :=
  match depth with
  | O => raise RecursionError
  | S depth' =>
      assets <- get_assets depth' self true false ;;
      if is_pending (status assets) then
        raise (webpack_error
                 (default "Webpack has not finished compiling" (m_error assets))
                 "Webpack is either not running or still compiling the bundle")
      else if String.eqb (status assets) "error" then
        raise (webpack_error (default "Unknown Error" (m_error assets))
                             (default EmptyString (m_message assets)))
      else ret tt
  end.

Definition lookup_error_asset (chunk_name : string) : exn :=
  WebpackBundleLookupError
    ("The asset name '" +:+ chunk_name +:+ "' could not be found.").

Definition lookup_error_bundle (bundle_name : string) : exn :=
  WebpackBundleLookupError ("Cannot resolve bundle " +:+ bundle_name +:+ ".").

Definition get_chunk_from_name (depth : nat) (self : WebpackLoader)
    (chunk_name : string) : M WebpackBundleAsset :=
  except_KeyError
    (assets <- get_assets depth self true false ;;
     match assets_of assets !! chunk_name with
     | Some chunk => ret chunk
     | None => raise (KeyError chunk_name)
     end)
    (raise (lookup_error_asset chunk_name)).

Definition get_chunk_url (self : WebpackLoader) (chunk : WebpackBundleAsset)
  : outcome string :=
  match a_publicPath chunk with
  | Some public_path => Return public_path
  | None =>
      match a_name chunk with
      | Some n => Return (static_url (BUNDLE_DIR_NAME (config self) +:+ n))
      | None => Raise (KeyError "name")
      end
  end.

(** [chunk['__url__'] = url].  With the cache on, [chunk] is the dictionary
    stored inside the cached manifest (get_chunk_from_name returned it from
    [cache[self.name]]), so the assignment is seen by every later lookup.
    With the cache off it belongs to the manifest just parsed for this
    lookup, which nothing else refers to. *)
Definition store_url (self : WebpackLoader) (chunk_name url : string) : M unit :=
  fun w =>
    if CACHE (config self)
    then (Return tt,
          set_class_assets
            (alter (memoize chunk_name url) (name self) <$> class_assets w) w)
    else (Return tt, w).

Definition ignored (self : WebpackLoader) (chunk_name : string) : bool :=
  existsb (fun regex => re_match regex chunk_name) (ignores (config self)).

(** The body of [for chunk_name in assets['chunks'][bundle_name]], run to
    the end of the list; the result is what the generator yields, in
    order. *)
Fixpoint iter_chunks (depth : nat) (self : WebpackLoader)
    (chunk_names : list string) : M (list WebpackBundleAsset) :=
  match chunk_names with
  | [] => ret []
  | chunk_name :: rest =>
      chunk <- get_chunk_from_name depth self chunk_name ;;
      chunk <-
        (if negb (bool_decide (is_Some (a_url chunk))) && negb (ignored self chunk_name)
         then url <- lift (get_chunk_url self chunk) ;;
              store_url self chunk_name url ;;;
              ret (set_url url chunk)
         else ret chunk) ;;
      yielded <- iter_chunks depth self rest ;;
      ret (if bool_decide (is_Some (a_url chunk)) then chunk :: yielded else yielded)
  end.

(** The [while] loop of get_bundle (lines 173-179).  [iters] bounds the
    number of iterations the model follows; [Unfinished] is returned when
    the bound is met with the loop condition still true. *)
Fixpoint poll (iters depth : nat) (self : WebpackLoader) (timeout : Z)
    (interval_time start_time : Q) (timed_out : bool)
    (assets : WebpackBundleContents) : M (bool * WebpackBundleContents) :=
  if negb timed_out && is_pending (status assets) then
    match iters with
    | O => unfinished
    | S iters' =>
        time_sleep interval_time ;;;
        now <- time_time ;;
        let timed_out :=
          if (0 <? timeout)%Z && Qltb start_time (now - inject_Z timeout)
          then true else timed_out in
        assets <- get_assets depth self true true ;;
        poll iters' depth self timeout interval_time start_time timed_out assets
    end
  else ret (timed_out, assets).

Definition timeout_error (bundle_name : string) (timeout : Z) : exn :=
  WebpackLoaderTimeoutError
    ("Timed Out. Bundle `" +:+ bundle_name +:+ "` took more than " +:+
     pretty timeout +:+ " seconds to compile.").

Definition bad_stats_file : exn :=
  WebpackLoaderBadStatsError
    ("The stats file does not contain valid data. Make sure webpack-bundle-tracker " +:+
     "plugin is enabled and try to run webpack again.").

(** [list(self.get_bundle(bundle_name))]: the generator run to exhaustion,
    as [utils.get_files] does. *)
Definition get_bundle (depth iters : nat) (self : WebpackLoader)
    (bundle_name : string) : M (list WebpackBundleAsset) :=
  let timeout := TIMEOUT (config self) in
  assets <- get_assets depth self true false ;;
  assets <-
    match timeout with
    | Some timeout =>
        let interval_time := POLL_INTERVAL (config self) in
        start_time <- time_time ;;
        polled <- poll iters depth self timeout interval_time start_time false assets ;;
        if fst polled
        then raise (timeout_error bundle_name timeout)
        else ret (snd polled)
    | None => ret assets
    end ;;
  if is_done (status assets) then
    except_KeyError
      (match m_chunks assets ≫= (.!! bundle_name) with
       | Some chunk_names => iter_chunks depth self chunk_names
       | None => raise (KeyError bundle_name)
       end)
      (raise (lookup_error_bundle bundle_name))
  else
    raise_error_from_stats depth self ;;;
    raise bad_stats_file.

(** ** Resolution against a fixed manifest *)

(** What the loop body makes of one chunk name, read off the manifest:
    [Return None] is a chunk that is not yielded. *)
Definition resolve_chunk (self : WebpackLoader) (m : WebpackBundleContents)
    (chunk_name : string) : outcome (option WebpackBundleAsset) :=
  match assets_of m !! chunk_name with
  | None => Raise (lookup_error_asset chunk_name)
  | Some chunk =>
      match a_url chunk with
      | Some _ => Return (Some chunk)
      | None =>
          if ignored self chunk_name then Return None
          else outcome_bind (get_chunk_url self chunk)
                 (fun url => Return (Some (set_url url chunk)))
      end
  end.

Fixpoint resolve_chunks (self : WebpackLoader) (m : WebpackBundleContents)
    (chunk_names : list string) : outcome (list WebpackBundleAsset) :=
  match chunk_names with
  | [] => Return []
  | chunk_name :: rest =>
      outcome_bind (resolve_chunk self m chunk_name) (fun kept =>
      outcome_bind (resolve_chunks self m rest) (fun yielded =>
      Return (match kept with Some chunk => chunk :: yielded | None => yielded end)))
  end.

Definition resolve_bundle (self : WebpackLoader) (m : WebpackBundleContents)
    (bundle_name : string) : outcome (list WebpackBundleAsset) :=
  match m_chunks m ≫= (.!! bundle_name) with
  | None => Raise (lookup_error_bundle bundle_name)
  | Some chunk_names =>
      match resolve_chunks self m chunk_names with
      | Raise (KeyError _) => Raise (lookup_error_bundle bundle_name)
      | r => r
      end
  end.

(** ** A manifest that stays the same *)

(** Every read from now on finds [m] at the loader's manifest path. *)
Definition disk_serves (self : WebpackLoader) (m : WebpackBundleContents)
    (w : World) : Prop :=
  forall n, (nreads w <= n)%nat -> disk w n (STATS_FILE (config self)) = Parsed m.

(** [m'] is [m] with the URL of some chunks memoized: the chunks, the status
    and every asset are those of [m], except that an asset of [m] without a
    URL and not ignored may carry the URL get_chunk_url computes for it. *)
Definition memo_ext (self : WebpackLoader) (m m' : WebpackBundleContents) : Prop :=
  status m' = status m /\ m_chunks m' = m_chunks m /\
  forall chunk_name,
    assets_of m' !! chunk_name = assets_of m !! chunk_name \/
    exists c u,
      assets_of m !! chunk_name = Some c /\ a_url c = None /\
      ignored self chunk_name = false /\ get_chunk_url self c = Return u /\
      assets_of m' !! chunk_name = Some (set_url u c).

(** The loader can only observe [m]: the file holds it, and with the cache on
    the class-level dictionary exists and its entry for the loader, if any,
    is [m] up to memoized URLs. *)
Definition Serves (self : WebpackLoader) (m : WebpackBundleContents)
    (w : World) : Prop :=
  disk_serves self m w /\
  (CACHE (config self) = true ->
   exists cache, class_assets w = Some cache /\
     forall m', cache !! name self = Some m' -> memo_ext self m m').

(** With the cache on, the dictionary has an entry for the loader. *)
Definition Entry (self : WebpackLoader) (w : World) : Prop :=
  CACHE (config self) = true ->
  exists cache, class_assets w = Some cache /\ is_Some (cache !! name self).

(** The plain form of [Serves]: the entry, if any, is [m] itself. *)
Definition Unchanged (self : WebpackLoader) (m : WebpackBundleContents)
    (w : World) : Prop :=
  disk_serves self m w /\
  (CACHE (config self) = true ->
   exists cache, class_assets w = Some cache /\
     (cache !! name self = None \/ cache !! name self = Some m)).

(** ** The resolution step in the words of the specification *)

(** URL resolution (4.5): an explicit public path is returned unchanged;
    otherwise the static-URL service maps [bundle_dir + chunk.name]. *)
Definition spec_chunk_url (self : WebpackLoader) (chunk : WebpackBundleAsset) : string :=
  match a_publicPath chunk with
  | Some public_path => public_path
  | None => static_url (BUNDLE_DIR_NAME (config self) +:+ default EmptyString (a_name chunk))
  end.

(** Resolution, step 5: a chunk whose URL is unset is dropped when its name
    matches an ignore pattern and gets its URL computed otherwise; a chunk
    that has a URL is kept as it is. *)
Definition spec_keep (self : WebpackLoader) (m : WebpackBundleContents)
    (chunk_name : string) : option WebpackBundleAsset :=
  match assets_of m !! chunk_name with
  | None => None
  | Some chunk =>
      match a_url chunk with
      | Some _ => Some chunk
      | None =>
          if ignored self chunk_name then None
          else Some (set_url (spec_chunk_url self chunk) chunk)
      end
  end.

(** The chunk is in the manifest and, if a URL has to be computed for it,
    it has what get_chunk_url reads. *)
Definition resolvable (self : WebpackLoader) (m : WebpackBundleContents)
    (chunk_name : string) : bool :=
  match assets_of m !! chunk_name with
  | None => false
  | Some chunk =>
      bool_decide (is_Some (a_url chunk)) || ignored self chunk_name ||
      bool_decide (is_Some (a_publicPath chunk)) || bool_decide (is_Some (a_name chunk))
  end.

(** A chunk the loop drops: present, without a URL, and ignored. *)
Definition dropped (self : WebpackLoader) (m : WebpackBundleContents)
    (chunk_name : string) : bool :=
  match assets_of m !! chunk_name with
  | None => false
  | Some chunk => negb (bool_decide (is_Some (a_url chunk))) && ignored self chunk_name
  end.

(** Nothing is left to compute for the chunk: it has its URL, or it is
    ignored. *)
Definition settled (self : WebpackLoader) (m : WebpackBundleContents)
    (chunk_name : string) : bool :=
  match assets_of m !! chunk_name with
  | None => false
  | Some chunk => bool_decide (is_Some (a_url chunk)) || ignored self chunk_name
  end.

(** ** Which exceptions a call can raise *)

(** A call that ends, and raises nothing outside [P]. *)
Definition only_raises {A} (P : exn -> Prop) (r : outcome A * World) : Prop :=
  match fst r with
  | Return _ => True
  | Raise e => P e
  | Unfinished => False
  end.

(** The exceptions of the poll loop and of the build-error report. *)
Definition reports_build_or_timeout (e : exn) : Prop :=
  match e with
  | WebpackError _ | WebpackLoaderTimeoutError _ => True
  | _ => False
  end.

Definition quiet (e : exn) : Prop := ~ reports_build_or_timeout e.

Definition raises_timeout {A} (o : outcome A) : bool :=
  match o with Raise (WebpackLoaderTimeoutError _) => true | _ => false end.

Definition raises_webpack_error {A} (o : outcome A) : bool :=
  match o with Raise (WebpackError _) => true | _ => false end.

Definition raises_bad_stats {A} (o : outcome A) : bool :=
  match o with Raise (WebpackLoaderBadStatsError _) => true | _ => false end.

(** The call leaves the clock where it was. *)
Definition keeps_clock {A} (c : M A) : Prop :=
  forall w, clock (snd (c w)) = clock w.

(** The call came to an end within the iteration budget of the model. *)
Definition ends {A} (o : outcome A) : bool :=
  match o with Unfinished => false | _ => true end.

End Loader.

(** ** A concrete host, and the manifests of the scenarios *)

(** The reference matcher for [re], and a static-URL service that prefixes
    [/static/]. *)
Definition example_host (debug : bool) : Host :=
  {| Pattern := rx; re_compile := rx_compile; re_match := rx_match;
     static_url := fun path => "/static/" +:+ path; DEBUG := debug |}.

(** The configuration [process_config] builds on [example_host] from an
    override that sets [TIMEOUT] and [IGNORE]; [CACHE] is [not DEBUG]. *)
Definition example_config (debug : bool) (timeout : option Z)
    (ignore : list string) (rxs : list rx) : @WebpackConfig (example_host debug) :=
  @mkConfig (example_host debug) (negb debug) "webpack_bundles/" "webpack-stats.json"
    (1 # 10) timeout ignore "webpack_loader.loader.WebpackLoader" rxs.

Definition example_loader (debug : bool) (timeout : option Z)
    (ignore : list string) (rxs : list rx) : @WebpackLoader (example_host debug) :=
  @mkLoader (example_host debug) "DEFAULT" (example_config debug timeout ignore rxs).

(** The default ignore patterns, compiled. *)
Definition default_rxs : list rx :=
  Eval vm_compute in
    match @compile_all (example_host true) DEFAULT_IGNORE with
    | Return rxs => rxs
    | _ => []
    end.

(** [.*\.js$], compiled. *)
Definition rx_js : rx :=
  mkRx [(RxAny, RxStar); (RxChar ".", RxOne); (RxChar "j", RxOne); (RxChar "s", RxOne)]
       true.

Definition asset_named (n : string) : WebpackBundleAsset :=
  mkAsset (Some n) None None None None.

Definition manifest_main : WebpackBundleContents :=
  mkContents "done" None None None
    (Some {[ "main" := ["a.js"; "b.css"] ]})
    (Some (<["a.js" := asset_named "a.js"]> {[ "b.css" := asset_named "b.css" ]})).

Definition manifest_compile : WebpackBundleContents :=
  mkContents "compile" None None None None None.

Definition manifest_error : WebpackBundleContents :=
  mkContents "error" None (Some "ModuleError") (Some "boom") None None.

(** A file that never changes. *)
Definition constant_disk (m : WebpackBundleContents) : nat -> string -> read_result :=
  fun _ _ => Parsed m.

(** A file that holds [first] at the first read and [later] from then on. *)
Definition changing_disk (first later : WebpackBundleContents)
  : nat -> string -> read_result :=
  fun n _ => match n with O => Parsed first | S _ => Parsed later end.

(** A file whose content is not JSON. *)
Definition malformed_disk : nat -> string -> read_result :=
  fun _ _ => Malformed "Expecting value: line 1 column 1 (char 0)".

(** A file that can be read but is not UTF-8. *)
Definition undecodable_disk : nat -> string -> read_result :=
  fun _ _ => Undecodable
    "'utf-8' codec can't decode byte 0xff in position 0: invalid start byte".


(** The process right after import: [_assets] has not been assigned. *)
Definition process_start (d : nat -> string -> read_result) : World :=
  mkWorld None d 0 0.

(** The process once [_assets] holds a dictionary. *)
Definition cache_world (cache : gmap string WebpackBundleContents)
    (d : nat -> string -> read_result) : World :=
  mkWorld (Some cache) d 0 0.

(** ** What a call leaves alone, and what it can raise *)

Section Observations.
Context {H : Host}.

(** The cached manifest of a configuration name, if there is one. *)
Definition entry_of (w : World) (config_name : string)
  : option WebpackBundleContents :=
  class_assets w ≫= (.!! config_name).

(** The call leaves the observation [f] of the world as it was. *)
Definition preserves {X A} (f : World -> X) (c : M A) : Prop :=
  forall w, f (snd (c w)) = f w.

(** [f] does not see what reading and caching change: the count of reads
    and, with the cache on, the loader's own entry of the dictionary. *)
Definition Frame {X} (self : WebpackLoader) (f : World -> X) : Prop :=
  (forall w, f (count_read w) = f w) /\
  (CACHE (config self) = true ->
   forall (u : gmap string WebpackBundleContents -> gmap string WebpackBundleContents) w,
     (forall cache k, k <> name self -> u cache !! k = cache !! k) ->
     f (set_class_assets (u <$> class_assets w) w) = f w).

(** [f] does not see the clock move. *)
Definition Sleepless {X} (f : World -> X) : Prop :=
  forall d w, f (snd (time_sleep d w)) = f w.

(** The exceptions a get_bundle call can end with. *)
Definition raisable (self : WebpackLoader) (e : exn) : Prop :=
  match e with
  | IOError _ | UnicodeDecodeError _ | JSONDecodeError _ | RecursionError
  | WebpackBundleLookupError _ => True
  | AttributeError _ => CACHE (config self) = true
  | WebpackLoaderBadStatsError _ =>
      exists st, is_done st = false /\ e = bad_stats self st
  | KeyError _ | TypeError _ | ReError _ | WebpackError _
  | WebpackLoaderTimeoutError _ => False
  end.

(** The same, inside the loop of get_bundle, where a [KeyError] is still on
    its way to the handler. *)
Definition raisable_or_KeyError (self : WebpackLoader) (e : exn) : Prop :=
  match e with
  | KeyError _ => True
  | _ => raisable self e
  end.

End Observations.

(** ** The configurations of the process (config.py, lines 57-73) *)

(** A Python dictionary whose order matters, as the list of its items in
    the order of insertion; the keys of a dictionary are distinct. *)
Fixpoint dict_get {V} (key : string) (d : list (string * V)) : option V :=
  match d with
  | [] => None
  | (k, v) :: rest => if String.eqb k key then Some v else dict_get key rest
  end.

(** [d[key] = v]: an existing key keeps its place. *)
Fixpoint dict_set {V} (key : string) (v : V) (d : list (string * V))
  : list (string * V) :=
  match d with
  | [] => [(key, v)]
  | (k, x) :: rest =>
      if String.eqb k key then (k, v) :: rest else (k, x) :: dict_set key v rest
  end.

Definition dict_keys {V} (d : list (string * V)) : list string := map fst d.

Section Configurations.
Context {H : Host}.

(** [{name: process_config(val) for name, val in entries}], entry by entry
    onto [acc]: the first override that cannot be processed ends the
    comprehension. *)
Fixpoint process_entries (entries : list (string * gmap string pyval))
    (acc : list (string * gmap string pyval))
  : outcome (list (string * gmap string pyval)) :=
  match entries with
  | [] => Return acc
  | (name, val) :: rest =>
      outcome_bind (process_config val) (fun processed =>
      process_entries rest (dict_set name processed acc))
  end.

(** [LOADED_CONFIG], computed when the module is imported, from
    [getattr(settings, 'WEBPACK_LOADER', {'DEFAULT': {}})]; [setting] is
    [None] when the setting is absent. *)
Definition LOADED_CONFIG (setting : option (list (string * gmap string pyval)))
  : outcome (list (string * gmap string pyval)) :=
  process_entries (default [("DEFAULT", ∅)] setting) [].

End Configurations.

(** [load_config(name)]: [LOADED_CONFIG[name]]. *)
Definition load_config {V} (loaded : list (string * V)) (name : string) : outcome V :=
  match dict_get name loaded with
  | Some cfg => Return cfg
  | None => Raise (KeyError name)
  end.

(** [get_all_configs()] *)
Definition get_all_configs {V} (loaded : list (string * V)) : list (string * V) :=
  loaded.

(** ** The callers of the loader (utils.py, templatetags/webpack_loader.py) *)

(** [s.endswith(suffix)] *)
Definition ends_with (suffix s : string) : bool :=
  String.prefix (String.rev suffix) (String.rev s).

(** [sep.join(items)] *)
Fixpoint join (sep : string) (items : list string) : string :=
  match items with
  | [] => EmptyString
  | [x] => x
  | x :: rest => x +:+ sep +:+ join sep rest
  end.

(** What [import_string] gives for a dotted path.  [Imported] stands for
    the class [WebpackLoader]; a class of the site that overrides its
    methods is outside the model. *)
Inductive import_result : Type :=
| Imported
| ImportError (msg : string)
| ImportRaises (e : exn).

(** What Django supplies to the callers. *)
Class Django : Type := {
  escape : string -> string;                  (* django.utils.html.escape *)
  STATIC_URL : string;                        (* settings.STATIC_URL *)
  import_string : string -> import_result     (* django.utils.module_loading *)
}.

(** A string handed to [format_html]: plain text is escaped, [SafeData] is
    taken as it is. *)
Inductive markup : Type :=
| Text (s : string)
| Safe (s : string).

(** What a caller of utils.py can see raised: an exception of [exn], or the
    [ImportError] of get_loader. *)
Inductive thrown : Type :=
| Thrown (e : exn)
| ThrownImportError (msg : string).

Inductive answer (A : Type) : Type :=
| Answer (a : A)
| Raised (t : thrown)
| Cut.

Arguments Answer {A} a.
Arguments Raised {A} t.
Arguments Cut {A}.

(** What a generator has produced when its consumer is done with it: the
    items, or the exception the consumer raised on one of them. *)
Inductive drained (B : Type) : Type :=
| Drained (items : list B)
| Broken (e : exn).

Arguments Drained {B} items.
Arguments Broken {B} e.

Section Callers.
Context {H : Host} {D : Django}.

(** The module-level dictionary [LOADERS] of utils.py, and the world. *)
Record Process : Type := mkProcess {
  LOADERS : gmap string WebpackLoader;
  world : World
}.

Definition U (A : Type) : Type := Process -> answer A * Process.

Definition ubind {A B} (c : U A) (k : A -> U B) : U B :=
  fun p => match c p with
           | (Answer a, p') => k a p'
           | (Raised t, p') => (Raised t, p')
           | (Cut, p') => (Cut, p')
           end.

(** A call of the loader, made from utils.py. *)
Definition run {A} (c : M A) : U A :=
  fun p => match c (world p) with
           | (Return a, w) => (Answer a, mkProcess (LOADERS p) w)
           | (Raise e, w) => (Raised (Thrown e), mkProcess (LOADERS p) w)
           | (Unfinished, w) => (Cut, mkProcess (LOADERS p) w)
           end.

(** [get_loader(config_name)]; [loaded] is [LOADED_CONFIG] at the
    TypedDict's types. *)
Definition get_loader (loaded : list (string * WebpackConfig))
    (config_name : string) : U WebpackLoader :=
  fun p =>
    match LOADERS p !! config_name with
    | Some loader => (Answer loader, p)
    | None =>
        match load_config loaded config_name with
        | Return config =>
            match import_string (LOADER_CLASS config) with
            | Imported =>
                let loader := mkLoader config_name config in
                (Answer loader,
                 mkProcess (<[config_name := loader]> (LOADERS p)) (world p))
            | ImportError msg => (Raised (ThrownImportError msg), p)
            | ImportRaises e => (Raised (Thrown e), p)
            end
        | Raise e => (Raised (Thrown e), p)
        | Unfinished => (Cut, p)
        end
    end.

(** The loop of get_bundle as the generator it is, drained by a consumer
    that may itself raise: [consume chunk] is what the code around the
    iteration does with a yielded chunk, [Return None] when it produces
    nothing for it.  An exception of the consumer ends the iteration where
    it is; it is raised in the consumer, not in the generator, so the
    handlers of get_bundle do not see it. *)
Fixpoint iter_chunks_into {B} (consume : WebpackBundleAsset -> outcome (option B))
    (depth : nat) (self : WebpackLoader) (chunk_names : list string)
  : M (drained B) :=
  match chunk_names with
  | [] => ret (Drained [])
  | chunk_name :: rest =>
      chunk <- get_chunk_from_name depth self chunk_name ;;
      chunk <-
        (if negb (bool_decide (is_Some (a_url chunk))) && negb (ignored self chunk_name)
         then url <- lift (get_chunk_url self chunk) ;;
              store_url self chunk_name url ;;;
              ret (set_url url chunk)
         else ret chunk) ;;
      if bool_decide (is_Some (a_url chunk)) then
        match consume chunk with
        | Return item =>
            later <- iter_chunks_into consume depth self rest ;;
            ret (match later with
                 | Drained items =>
                     Drained (match item with Some b => b :: items | None => items end)
                 | Broken e => Broken e
                 end)
        | Raise e => ret (Broken e)
        | Unfinished => unfinished
        end
      else iter_chunks_into consume depth self rest
  end.

(** get_bundle, drained by [consume]. *)
Definition get_bundle_into {B} (consume : WebpackBundleAsset -> outcome (option B))
    (depth iters : nat) (self : WebpackLoader) (bundle_name : string) : M (list B) :=
  let timeout := TIMEOUT (config self) in
  assets <- get_assets depth self true false ;;
  assets <-
    match timeout with
    | Some timeout =>
        let interval_time := POLL_INTERVAL (config self) in
        start_time <- time_time ;;
        polled <- poll iters depth self timeout interval_time start_time false assets ;;
        if fst polled
        then raise (timeout_error bundle_name timeout)
        else ret (snd polled)
    | None => ret assets
    end ;;
  if is_done (status assets) then
    produced <-
      except_KeyError
        (match m_chunks assets ≫= (.!! bundle_name) with
         | Some chunk_names => iter_chunks_into consume depth self chunk_names
         | None => raise (KeyError bundle_name)
         end)
        (raise (lookup_error_bundle bundle_name)) ;;
    match produced with
    | Drained items => ret items
    | Broken e => raise e
    end
  else
    raise_error_from_stats depth self ;;;
    raise bad_stats_file.

(** [lambda chunk: chunk['name'].endswith(ext)], or no filter at all. *)
Definition keep_extension (extension : option string) (chunk : WebpackBundleAsset)
  : outcome bool :=
  match extension with
  | None => Return true
  | Some extension =>
      let ext := "." +:+ extension in
      match a_name chunk with
      | Some n => Return (ends_with ext n)
      | None => Raise (KeyError "name")
      end
  end.

(** What happens to a chunk the generator yields: the filter of
    [_get_bundle], then the body of the caller's loop. *)
Definition filtered {B} (extension : option string)
    (body : WebpackBundleAsset -> outcome (option B)) (chunk : WebpackBundleAsset)
  : outcome (option B) :=
  outcome_bind (keep_extension extension chunk) (fun keep =>
  if keep then body chunk else Return None).

(** [_get_bundle(bundle_name, extension, config)], with what the caller
    does to each chunk of the iterator it returns. *)
Definition _get_bundle {B} (body : WebpackBundleAsset -> outcome (option B))
    (depth iters : nat) (loaded : list (string * WebpackConfig))
    (bundle_name : string) (extension : option string) (config : string)
  : U (list B) :=
  ubind (get_loader loaded config) (fun loader =>
  run (get_bundle_into (filtered extension body) depth iters loader bundle_name)).

(** [get_files]: [list(_get_bundle(...))]. *)
Definition get_files (depth iters : nat) (loaded : list (string * WebpackConfig))
    (bundle_name : string) (extension : option string) (config : string)
  : U (list WebpackBundleAsset) :=
  _get_bundle (fun chunk => Return (Some chunk)) depth iters loaded
    bundle_name extension config.

(** [conditional_escape] *)
Definition conditional_escape (v : markup) : string :=
  match v with
  | Text s => escape s
  | Safe s => s
  end.

Definition script_tag (url : string) (attrs : markup) : string :=
  "<script type=" +:+ dquote +:+ "text/javascript" +:+ dquote +:+
  " src=" +:+ dquote +:+ escape url +:+ dquote +:+ " " +:+
  conditional_escape attrs +:+ "></script>".

Definition link_tag (url : string) (attrs : markup) : string :=
  "<link type=" +:+ dquote +:+ "text/css" +:+ dquote +:+
  " href=" +:+ dquote +:+ escape url +:+ dquote +:+
  " rel=" +:+ dquote +:+ "stylesheet" +:+ dquote +:+ " " +:+
  conditional_escape attrs +:+ "/>".

Definition is_script (n : string) : bool := ends_with ".js" n || ends_with ".js.gz" n.
Definition is_style (n : string) : bool := ends_with ".css" n || ends_with ".css.gz" n.

(** The body of the loop of get_as_tags. *)
Definition tag_of (attrs : markup) (chunk : WebpackBundleAsset)
  : outcome (option string) :=
  match a_name chunk with
  | None => Raise (KeyError "name")
  | Some n =>
      if is_script n then
        match a_url chunk with
        | Some url => Return (Some (script_tag url attrs))
        | None => Raise (KeyError "__url__")
        end
      else if is_style n then
        match a_url chunk with
        | Some url => Return (Some (link_tag url attrs))
        | None => Raise (KeyError "__url__")
        end
      else Return None
  end.

(** [get_as_tags], run to its end. *)
Definition get_as_tags (depth iters : nat) (loaded : list (string * WebpackConfig))
    (bundle_name : string) (extension : option string) (config : string)
    (attrs : markup) : U (list string) :=
  _get_bundle (tag_of attrs) depth iters loaded bundle_name extension config.

Definition get_static (depth : nat) (loaded : list (string * WebpackConfig))
    (asset_name : string) (config : string) : U string :=
  ubind (get_loader loaded config) (fun loader =>
  ubind (run (get_assets depth loader true false)) (fun assets =>
  fun p => (Answer (default STATIC_URL (m_publicPath assets) +:+ asset_name), p))).

(** [render_bundle]: [format_html_join("\n", "{}", ((tag,) for tag in tags))];
    the tags are [SafeData], the separator is escaped. *)
Definition render_bundle (depth iters : nat) (loaded : list (string * WebpackConfig))
    (bundle_name : string) (extension : option string) (config : string)
    (attrs : markup) : U string :=
  ubind (get_as_tags depth iters loaded bundle_name extension config attrs) (fun tags =>
  fun p => (Answer (join (escape (String (ascii_of_nat 10) EmptyString)) tags), p)).

(** [webpack_static]: [format_html("{}", utils.get_static(...))]. *)
Definition webpack_static (depth : nat) (loaded : list (string * WebpackConfig))
    (asset_name : string) (config : string) : U string :=
  ubind (get_static depth loaded asset_name config) (fun url =>
  fun p => (Answer (escape url), p)).

(** What a consumer makes of a list of chunks, one after the other. *)
Fixpoint drain {B} (consume : WebpackBundleAsset -> outcome (option B))
    (chunks : list WebpackBundleAsset) : outcome (list B) :=
  match chunks with
  | [] => Return []
  | chunk :: rest =>
      outcome_bind (consume chunk) (fun item =>
      outcome_bind (drain consume rest) (fun items =>
      Return (match item with Some b => b :: items | None => items end)))
  end.

(** The chunk passes the extension filter. *)
Definition has_extension (extension : option string) (chunk : WebpackBundleAsset) : bool :=
  match extension with
  | None => true
  | Some extension =>
      match a_name chunk with
      | Some n => ends_with ("." +:+ extension) n
      | None => false
      end
  end.

(** The tag of a chunk that has a name and a URL, if it gets one. *)
Definition tag_for (attrs : markup) (chunk : WebpackBundleAsset) : option string :=
  match a_name chunk, a_url chunk with
  | Some n, Some url =>
      if is_script n then Some (script_tag url attrs)
      else if is_style n then Some (link_tag url attrs)
      else None
  | _, _ => None
  end.

End Callers.

(** [html.escape], which [django.utils.html.escape] applies. *)
Definition html_escape_char (c : ascii) : string :=
  if Ascii.eqb c "&" then "&amp;"
  else if Ascii.eqb c "<" then "&lt;"
  else if Ascii.eqb c ">" then "&gt;"
  else if Ascii.eqb c (ascii_of_nat 34) then "&quot;"
  else if Ascii.eqb c "'" then "&#x27;"
  else String c EmptyString.

Fixpoint html_escape (s : string) : string :=
  match s with
  | EmptyString => EmptyString
  | String c rest => html_escape_char c +:+ html_escape rest
  end.

(** A site whose loader classes all import. *)
Definition example_django : Django :=
  {| escape := html_escape; STATIC_URL := "/static/";
     import_string := fun _ => Imported |}.

(** ** The system check (apps.py) *)

(** [django.core.checks.Error] *)
Record CheckMessage : Type := mkError {
  msg : string;
  hint : string;
  obj : string;
  id : string
}.

Definition make_error (err_str err_code : string) : CheckMessage :=
  {| msg := "Error while parsing WEBPACK_LOADER configuration";
     hint := err_str;
     obj := "django.conf.settings.WEBPACK_LOADER";
     id := "django-webpack-loader." +:+ err_code |}.

(** [except (TypeError, IndexError, ValueError, re.error) as exc]: [str(exc)]
    for an exception of one of these classes.  [JSONDecodeError] and
    [UnicodeDecodeError] are [ValueError]s; [KeyError] is a [LookupError]
    but no [IndexError]; the exceptions of the package derive from
    [Exception] only. *)
Definition caught_by_check (e : exn) : option string :=
  match e with
  | TypeError m | ReError m | JSONDecodeError m | UnicodeDecodeError m => Some m
  | _ => None
  end.

Section Checks.
Context {H : Host} {D : Django}.

Definition type_name (v : pyval) : string :=
  match v with
  | PyNone => "NoneType"
  | PyBool _ => "bool"
  | PyInt _ => "int"
  | PyFloat _ => "float"
  | PyStr _ => "str"
  | PyList _ | PyPatterns _ => "list"
  end.

(** [import_string] starts with [dotted_path.rsplit('.', 1)]. *)
Definition no_rsplit (v : pyval) : exn :=
  AttributeError ("'" +:+ type_name v +:+ "' object has no attribute 'rsplit'").

Definition missing_default : CheckMessage :=
  make_error "Missing DEFAULT configuration" "E002".

Definition cannot_import (path : string) : CheckMessage :=
  make_error ("Could not import LOADER_CLASS " +:+ dquote +:+ path +:+ dquote) "E003".

(** The loop over [configs.items()]: the errors appended so far, and the
    exception that ended the loop, if one did. *)
Fixpoint check_loaders (configs : list (string * gmap string pyval))
    (errors : list CheckMessage) : list CheckMessage * option exn :=
  match configs with
  | [] => (errors, None)
  | (_, config) :: rest =>
      match config !! "LOADER_CLASS" with
      | None => (errors, Some (KeyError "LOADER_CLASS"))
      | Some (PyStr path) =>
          match import_string path with
          | Imported => check_loaders rest errors
          | ImportError _ => check_loaders rest (errors ++ [cannot_import path])%list
          | ImportRaises e => (errors, Some e)
          end
      | Some v => (errors, Some (no_rsplit v))
      end
  end.

(** The body of the [try]: the errors appended, and the exception that left
    the body, if one did.  The import of the configuration module inside the
    [try] computes [LOADED_CONFIG]; [setting] is [settings.WEBPACK_LOADER]. *)
Definition try_body (setting : option (list (string * gmap string pyval)))
  : outcome (list CheckMessage * option exn) :=
  match LOADED_CONFIG setting with
  | Return loaded =>
      let configs := get_all_configs loaded in
      Return (check_loaders configs
                (match dict_get "DEFAULT" configs with
                 | Some _ => []
                 | None => [missing_default]
                 end))
  | Raise e => Return ([], Some e)
  | Unfinished => Unfinished
  end.

(** [webpack_valid_config_check] *)
Definition webpack_valid_config_check
    (setting : option (list (string * gmap string pyval)))
  : outcome (list CheckMessage) :=
  outcome_bind (try_body setting) (fun tried =>
  match snd tried with
  | None => Return (fst tried)
  | Some e =>
      match caught_by_check e with
      | Some text =>
          Return (fst tried ++ [make_error ("Got exception: " +:+ text) "E001"])%list
      | None => Raise e
      end
  end).

(** The error the loop appends for a configuration, when its class is a
    string. *)
Definition import_failure (entry : string * gmap string pyval) : option CheckMessage :=
  match snd entry !! "LOADER_CLASS" with
  | Some (PyStr path) =>
      match import_string path with
      | ImportError _ => Some (cannot_import path)
      | _ => None
      end
  | _ => None
  end.

(** The exception with which the loop leaves at a configuration, if it
    does. *)
Definition import_raises (entry : string * gmap string pyval) : option exn :=
  match snd entry !! "LOADER_CLASS" with
  | None => Some (KeyError "LOADER_CLASS")
  | Some (PyStr path) =>
      match import_string path with
      | ImportRaises e => Some e
      | _ => None
      end
  | Some v => Some (no_rsplit v)
  end.

(** The errors of the check before the loop. *)
Definition default_errors (configs : list (string * gmap string pyval))
  : list CheckMessage :=
  match dict_get "DEFAULT" configs with
  | Some _ => []
  | None => [missing_default]
  end.

(** The class of the configuration is a string, and importing it either
    works or raises [ImportError]. *)
Definition importable_or_not (entry : string * gmap string pyval) : Prop :=
  exists path, snd entry !! "LOADER_CLASS" = Some (PyStr path) /\
    match import_string path with ImportRaises _ => False | _ => True end.

End Checks.
(** ** Scenarios for the callers and the check *)

(** Bundle [main] names a chunk the manifest has no asset for. *)
Definition manifest_ghost : WebpackBundleContents :=
  mkContents "done" None None None
    (Some {[ "main" := ["a.js"; "ghost.js"] ]})
    (Some {[ "a.js" := asset_named "a.js" ]}).

(** An asset with no key at all. *)
Definition manifest_bare : WebpackBundleContents :=
  mkContents "done" None None None
    (Some {[ "main" := ["a.js"; "x"] ]})
    (Some (<["a.js" := asset_named "a.js"]> {[ "x" := mkAsset None None None None None ]})).

(** A manifest with a public path, and an asset that has a public path but
    no name. *)
Definition manifest_cdn : WebpackBundleContents :=
  mkContents "done" (Some "https://cdn.example/") None None
    (Some {[ "main" := ["a.js"; "x"] ]})
    (Some (<["a.js" := asset_named "a.js"]>
             {[ "x" := mkAsset None (Some "https://cdn.example/x.js") None None None ]})).

(** A file that cannot be read. *)
Definition missing_disk : nat -> string -> read_result :=
  fun _ _ => Unreadable "[Errno 2] No such file or directory".

(** The configurations of a site without the setting, in debug mode. *)
Definition example_loaded : list (string * @WebpackConfig (example_host true)) :=
  [("DEFAULT", example_config true None DEFAULT_IGNORE default_rxs)].

(** A process that has not used a loader yet. *)
Definition example_process (m : WebpackBundleContents) : @Process (example_host true) :=
  @mkProcess (example_host true) ∅ (process_start (constant_disk m)).

(** A site on which only the loader of the package can be imported. *)
Definition strict_django : Django :=
  {| escape := html_escape; STATIC_URL := "/static/";
     import_string := fun path =>
       if String.eqb path "webpack_loader.loader.WebpackLoader" then Imported
       else ImportError ("No module named '" +:+ path +:+ "'") |}.

Section Properties.
Context {H : Host}.

(** ** Reasoning about calls *)

Lemma bind_Return {A B} (c : M A) (k : A -> M B) w a w' :
  c w = (Return a, w') -> bind c k w = k a w'.
Proof. intros E. unfold bind. now rewrite E. Qed.

Lemma bind_Raise {A B} (c : M A) (k : A -> M B) w e w' :
  c w = (Raise e, w') -> bind c k w = (Raise e, w').
Proof. intros E. unfold bind. now rewrite E. Qed.

Lemma only_raises_bind {A B} (P : exn -> Prop) (c : M A) (k : A -> M B) w :
  only_raises P (c w) ->
  (forall a w', c w = (Return a, w') -> only_raises P (k a w')) ->
  only_raises P (bind c k w).
Proof.
  unfold only_raises, bind. destruct (c w) as [[a | e |] w']; simpl; intros Hc Hk.
  - now apply Hk.
  - exact Hc.
  - exact Hc.
Qed.

Lemma only_raises_except {A} (P : exn -> Prop) (body handler : M A) w :
  only_raises P (body w) \/ (exists k w', body w = (Raise (KeyError k), w')) ->
  (forall w', only_raises P (handler w')) ->
  only_raises P (except_KeyError body handler w).
Proof.
  unfold except_KeyError. intros [Hb | (k & w' & E)] Hh.
  - destruct (body w) as [[a | e |] w']; try exact Hb.
    destruct e; try exact Hb. apply Hh.
  - rewrite E. apply Hh.
Qed.

Lemma is_done_eq s : is_done s = true <-> s = "done".
Proof. unfold is_done. apply String.eqb_eq. Qed.

Lemma done_not_pending s : is_done s = true -> is_pending s = false.
Proof. intros E. apply is_done_eq in E. now subst s. Qed.

Lemma done_not_error s : is_done s = true -> String.eqb s "error" = false.
Proof. intros E. apply is_done_eq in E. now subst s. Qed.

Lemma load_assets_quiet self w : only_raises quiet (load_assets self w).
Proof.
  unfold load_assets, only_raises.
  destruct (disk w (nreads w) (STATS_FILE (config self))); simpl; auto; intros [].
Qed.

Lemma fetch_assets_quiet self replace_cache w :
  only_raises quiet (fetch_assets self replace_cache w).
Proof.
  unfold fetch_assets. destruct (CACHE (config self)); [| apply load_assets_quiet].
  apply only_raises_bind.
  - unfold global_cache, only_raises. destruct (class_assets w); simpl; auto. intros [].
  - intros cache w1 _. apply only_raises_bind.
    + destruct (negb _ || replace_cache); [| exact I].
      apply only_raises_bind; [apply load_assets_quiet |]. intros; exact I.
    + intros _ w2 _. unfold cache_fetch, only_raises.
      destruct (class_assets w2 ≫= _); simpl; auto. intros [].
Qed.

(** With [compiled] true, [get_assets] hands back only a [done] manifest. *)
Lemma get_assets_compiled_done depth self replace_cache w m w' :
  get_assets depth self true replace_cache w = (Return m, w') ->
  is_done (status m) = true.
Proof.
  destruct depth as [| d]; [discriminate |]. simpl.
  unfold bind at 1.
  destruct (fetch_assets self replace_cache w) as [[assets | e |] w1];
    try discriminate.
  destruct (is_done (status assets)) eqn:Ed; simpl.
  - unfold ret. intros E. injection E as <- <-. exact Ed.
  - unfold bind. destruct (raise_error_from_stats d self w1) as [[[] | e |] w2];
      discriminate.
Qed.

(** Neither function ever raises [WebpackError] (or a timeout): the check in
    [raise_error_from_stats] only sees what [get_assets] returns with
    [compiled] true, and that is a [done] manifest. *)
Lemma get_assets_raise_error_quiet depth :
  (forall self compiled replace_cache w,
     only_raises quiet (get_assets depth self compiled replace_cache w)) /\
  (forall self w, only_raises quiet (raise_error_from_stats depth self w)).
Proof.
  induction depth as [| d [IHg IHr]].
  - split; intros; simpl; intros [].
  - split.
    + intros self compiled replace_cache w. simpl.
      apply only_raises_bind; [apply fetch_assets_quiet |].
      intros assets w1 _. destruct compiled; [| exact I].
      destruct (negb (is_done (status assets))); [| exact I].
      apply only_raises_bind; [apply IHr |]. intros _ w2 _. simpl. intros [].
    + intros self w. simpl.
      apply only_raises_bind; [apply IHg |].
      intros assets w1 E. apply get_assets_compiled_done in E.
      rewrite (done_not_pending _ E), (done_not_error _ E). exact I.
Qed.

Lemma get_assets_quiet depth self compiled replace_cache w :
  only_raises quiet (get_assets depth self compiled replace_cache w).
Proof. apply get_assets_raise_error_quiet. Qed.

Lemma raise_error_from_stats_quiet depth self w :
  only_raises quiet (raise_error_from_stats depth self w).
Proof. apply get_assets_raise_error_quiet. Qed.

Lemma get_chunk_from_name_quiet depth self chunk_name w :
  only_raises quiet (get_chunk_from_name depth self chunk_name w).
Proof.
  unfold get_chunk_from_name. apply only_raises_except.
  - left. apply only_raises_bind; [apply get_assets_quiet |].
    intros assets w1 _. destruct (assets_of assets !! chunk_name); [exact I |].
    simpl. intros [].
  - intros w1. simpl. intros [].
Qed.

Lemma iter_chunks_quiet depth self chunk_names w :
  only_raises quiet (iter_chunks depth self chunk_names w).
Proof.
  revert w. induction chunk_names as [| chunk_name rest IH]; intros w; [exact I |].
  simpl. apply only_raises_bind; [apply get_chunk_from_name_quiet |].
  intros chunk w1 _. apply only_raises_bind.
  - destruct (negb _ && negb _); [| exact I].
    apply only_raises_bind.
    + unfold lift, get_chunk_url, only_raises.
      destruct (a_publicPath chunk); [exact I |].
      destruct (a_name chunk); simpl; auto. intros [].
    + intros url w2 _. apply only_raises_bind; [| intros; exact I].
      unfold store_url. now destruct (CACHE (config self)).
  - intros chunk' w2 _. apply only_raises_bind; [apply IH |]. intros; exact I.
Qed.

(** The loop is not entered with a [done] manifest. *)
Lemma poll_done iters depth self timeout interval_time start_time assets w :
  is_done (status assets) = true ->
  poll iters depth self timeout interval_time start_time false assets w
  = (Return (false, assets), w).
Proof.
  intros Ed. destruct iters; simpl; now rewrite (done_not_pending _ Ed).
Qed.

(** Entered with a manifest still compiling, the loop ends with its first
    iteration: the forced re-read comes back only with a [done] manifest. *)
Lemma poll_once iters depth self timeout interval_time start_time assets w :
  is_pending (status assets) = true ->
  poll (S iters) depth self timeout interval_time start_time false assets w
  = let w1 := snd (time_sleep interval_time w) in
    let timed_out :=
      (0 <? timeout)%Z && Qltb start_time (clock w1 - inject_Z timeout) in
    match get_assets depth self true true w1 with
    | (Return m, w2) => (Return (timed_out, m), w2)
    | (Raise e, w2) => (Raise e, w2)
    | (Unfinished, w2) => (Unfinished, w2)
    end.
Proof.
  intros Ep. cbn [poll]. rewrite Ep. cbn [negb andb].
  unfold bind at 1. cbn [time_sleep snd].
  unfold bind at 1. cbn [time_time].
  unfold bind at 1.
  destruct (get_assets depth self true true _) as [[m | e |] w2] eqn:E; try reflexivity.
  apply get_assets_compiled_done in E.
  destruct iters; cbn [poll]; rewrite (done_not_pending _ E), andb_false_r;
    unfold ret; now destruct (_ && _).
Qed.

(** What the loop would do with the deadline behind it, were it entered:
    one forced read, and [timed_out] set whatever that read returns. *)
Lemma poll_deadline iters depth self timeout interval_time start_time assets w m w2 :
  is_pending (status assets) = true -> (0 < timeout)%Z ->
  Qltb start_time (clock w + interval_time - inject_Z timeout) = true ->
  get_assets depth self true true (snd (time_sleep interval_time w)) = (Return m, w2) ->
  poll (S iters) depth self timeout interval_time start_time false assets w
  = (Return (true, m), w2).
Proof.
  intros Ep Ht Hlate Eg. rewrite poll_once by exact Ep. cbv zeta.
  rewrite Eg. cbn [time_sleep snd clock]. rewrite Hlate.
  now rewrite (proj2 (Z.ltb_lt 0 timeout) Ht).
Qed.

(** get_bundle always ends, whatever the iteration budget, and never with
    [WebpackError] or [WebpackLoaderTimeoutError]. *)
Lemma get_bundle_quiet depth iters self bundle_name w :
  only_raises quiet (get_bundle depth iters self bundle_name w).
Proof.
  unfold get_bundle. apply only_raises_bind; [apply get_assets_quiet |].
  intros assets w1 E. apply get_assets_compiled_done in E.
  apply only_raises_bind.
  - destruct (TIMEOUT (config self)) as [timeout |]; [| exact I].
    apply only_raises_bind; [exact I |]. intros start_time w2 _.
    apply only_raises_bind.
    + rewrite poll_done by exact E. exact I.
    + intros polled w3. rewrite poll_done by exact E. intros [= <- <-]. exact I.
  - intros assets' w2 _. destruct (is_done (status assets')).
    + apply only_raises_except.
      * left. destruct (m_chunks assets' ≫= _); [apply iter_chunks_quiet |].
        simpl. intros [].
      * intros w3. simpl. intros [].
    + apply only_raises_bind; [apply raise_error_from_stats_quiet |].
      intros _ w3 _. simpl. intros [].
Qed.

Lemma memo_ext_refl self m : memo_ext self m m.
Proof. repeat split. intros; now left. Qed.

Lemma Unchanged_Serves self m w : Unchanged self m w -> Serves self m w.
Proof.
  intros [Hd Hc]. split; [exact Hd |]. intros Ec.
  destruct (Hc Ec) as (cache & E & Hm). exists cache. split; [exact E |].
  intros m' Em'. destruct Hm as [Hm | Hm]; rewrite Hm in Em'; [discriminate |].
  injection Em' as <-. apply memo_ext_refl.
Qed.

Lemma assets_of_memoize chunk_name u m :
  assets_of (memoize chunk_name u m) = alter (set_url u) chunk_name (assets_of m).
Proof.
  unfold assets_of, memoize. simpl. destruct (m_assets m); simpl; [reflexivity |].
  apply map_eq. intros k. rewrite lookup_alter. rewrite lookup_empty.
  now destruct (decide (chunk_name = k)).
Qed.

Lemma memo_ext_memoize self m m' chunk_name c u :
  memo_ext self m m' ->
  assets_of m' !! chunk_name = Some c -> a_url c = None ->
  ignored self chunk_name = false -> get_chunk_url self c = Return u ->
  memo_ext self m (memoize chunk_name u m').
Proof.
  intros (Hs & Hc & Ha) Ec Eu Ei Eg. split; [exact Hs |]. split; [exact Hc |].
  intros k. rewrite assets_of_memoize.
  destruct (decide (chunk_name = k)) as [<- | Hne].
  - rewrite lookup_alter_eq, Ec. simpl. right. exists c, u.
    destruct (Ha chunk_name) as [E | (c0 & u0 & _ & _ & _ & _ & E)].
    + rewrite Ec in E. auto.
    + rewrite Ec in E. injection E as ->. discriminate.
  - rewrite lookup_alter_ne by exact Hne. apply Ha.
Qed.

Lemma disk_serves_count_read self m w :
  disk_serves self m w -> disk_serves self m (count_read w).
Proof. intros Hd n Hn. apply Hd. simpl in Hn. lia. Qed.

Lemma fetch_assets_serves self m replace_cache w :
  Serves self m w ->
  exists m' w1,
    fetch_assets self replace_cache w = (Return m', w1) /\
    memo_ext self m m' /\ Serves self m w1 /\
    (if CACHE (config self)
     then exists cache, class_assets w1 = Some cache /\ cache !! name self = Some m'
     else m' = m).
Proof.
  intros [Hd Hc]. unfold fetch_assets.
  assert (Hload : load_assets self w = (Return m, count_read w)).
  { unfold load_assets. now rewrite (Hd (nreads w)) by lia. }
  destruct (CACHE (config self)) eqn:Ec.
  - destruct (Hc eq_refl) as (cache & Ecache & Hm).
    rewrite (bind_Return _ _ w cache w) by (unfold global_cache; now rewrite Ecache).
    destruct (cache !! name self) as [m' |] eqn:Ehit; [destruct replace_cache |].
    + (* hit, but a forced reload *)
      exists m, (set_class_assets (Some (<[name self := m]> cache)) (count_read w)).
      rewrite bool_decide_true by eauto. simpl orb.
      split; [| split; [apply memo_ext_refl | split]].
      * erewrite bind_Return; [| erewrite bind_Return; [| exact Hload]; unfold cache_store;
          simpl; rewrite Ecache; reflexivity].
        unfold cache_fetch. simpl. now rewrite lookup_insert_eq.
      * split; [apply (disk_serves_count_read _ _ _ Hd) |]. intros _.
        eexists. split; [reflexivity |]. intros m2. rewrite lookup_insert_eq.
        intros [= <-]. apply memo_ext_refl.
      * eexists. split; [reflexivity |]. apply lookup_insert_eq.
    + (* hit *)
      exists m', w. rewrite bool_decide_true by eauto. simpl orb.
      split; [| split; [now apply Hm | split]].
      * erewrite bind_Return by reflexivity.
        unfold cache_fetch. rewrite Ecache. simpl. now rewrite Ehit.
      * split; [exact Hd |]. intros _. exists cache. split; [exact Ecache |].
        intros m2 E2. apply Hm. congruence.
      * exists cache. auto.
    + (* miss *)
      exists m, (set_class_assets (Some (<[name self := m]> cache)) (count_read w)).
      rewrite bool_decide_false by (intros [? ?]; discriminate). simpl orb.
      split; [| split; [apply memo_ext_refl | split]].
      * erewrite bind_Return; [| erewrite bind_Return; [| exact Hload]; unfold cache_store;
          simpl; rewrite Ecache; reflexivity].
        unfold cache_fetch. simpl. now rewrite lookup_insert_eq.
      * split; [apply (disk_serves_count_read _ _ _ Hd) |]. intros _.
        eexists. split; [reflexivity |]. intros m2. rewrite lookup_insert_eq.
        intros [= <-]. apply memo_ext_refl.
      * eexists. split; [reflexivity |]. apply lookup_insert_eq.
  - exists m, (count_read w). split; [exact Hload |].
    split; [apply memo_ext_refl |]. split; [| reflexivity].
    split; [apply (disk_serves_count_read _ _ _ Hd) |]. intros; congruence.
Qed.

Lemma get_assets_serves_done depth self m compiled replace_cache w :
  Serves self m w -> is_done (status m) = true ->
  exists m' w1,
    get_assets (S depth) self compiled replace_cache w = (Return m', w1) /\
    memo_ext self m m' /\ Serves self m w1 /\
    (if CACHE (config self)
     then exists cache, class_assets w1 = Some cache /\ cache !! name self = Some m'
     else m' = m).
Proof.
  intros Hs Ed.
  destruct (fetch_assets_serves self m replace_cache w Hs) as (m' & w1 & E & Hx & Hs1 & Hc).
  exists m', w1. split; [| auto]. simpl. rewrite (bind_Return _ _ _ _ _ E).
  destruct Hx as (Est & _). rewrite Est, Ed. simpl. now destruct compiled.
Qed.

(** A manifest that is not [done] and does not change sends [get_assets]
    and [raise_error_from_stats] into each other until the interpreter
    gives up. *)
Lemma get_assets_raise_error_stuck self m depth :
  is_done (status m) = false ->
  forall w, Serves self m w ->
    (forall replace_cache,
       fst (get_assets depth self true replace_cache w) = Raise RecursionError) /\
    fst (raise_error_from_stats depth self w) = Raise RecursionError.
Proof.
  intros Ed. induction depth as [| d IH]; intros w Hs; [split; reflexivity |].
  split.
  - intros replace_cache. simpl.
    destruct (fetch_assets_serves self m replace_cache w Hs) as (m' & w1 & E & Hx & Hs1 & _).
    rewrite (bind_Return _ _ _ _ _ E). destruct Hx as (Est & _). rewrite Est, Ed.
    simpl. destruct (IH w1 Hs1) as [_ Er]. unfold bind.
    destruct (raise_error_from_stats d self w1) as [[[] | e |] w2]; simpl in Er;
      try discriminate. now injection Er as ->.
  - simpl. destruct (IH w Hs) as [Eg _]. specialize (Eg false). unfold bind.
    destruct (get_assets d self true false w) as [[a | e |] w2]; simpl in Eg;
      try discriminate. now injection Eg as ->.
Qed.

Lemma get_bundle_stuck self m depth iters bundle_name w :
  is_done (status m) = false -> Serves self m w ->
  fst (get_bundle depth iters self bundle_name w) = Raise RecursionError.
Proof.
  intros Ed Hs. unfold get_bundle.
  destruct (get_assets_raise_error_stuck self m depth Ed w Hs) as [Eg _].
  specialize (Eg false). unfold bind at 1.
  destruct (get_assets depth self true false w) as [[a | e |] w2]; simpl in Eg;
    try discriminate. now injection Eg as ->.
Qed.

Lemma get_chunk_from_name_serves depth self m chunk_name w :
  Serves self m w -> is_done (status m) = true ->
  exists m' w1,
    get_chunk_from_name (S depth) self chunk_name w
    = (match assets_of m' !! chunk_name with
       | Some chunk => Return chunk
       | None => Raise (lookup_error_asset chunk_name)
       end, w1) /\
    memo_ext self m m' /\ Serves self m w1 /\
    (if CACHE (config self)
     then exists cache, class_assets w1 = Some cache /\ cache !! name self = Some m'
     else m' = m).
Proof.
  intros Hs Ed.
  destruct (get_assets_serves_done depth self m true false w Hs Ed)
    as (m' & w1 & E & Hrest).
  exists m', w1. split; [| exact Hrest].
  unfold get_chunk_from_name, except_KeyError. rewrite (bind_Return _ _ _ _ _ E).
  now destruct (assets_of m' !! chunk_name).
Qed.

Lemma store_url_serves self m m' chunk_name c u w :
  Serves self m w -> memo_ext self m m' ->
  (if CACHE (config self)
   then exists cache, class_assets w = Some cache /\ cache !! name self = Some m'
   else m' = m) ->
  assets_of m' !! chunk_name = Some c -> a_url c = None ->
  ignored self chunk_name = false -> get_chunk_url self c = Return u ->
  exists w1, store_url self chunk_name u w = (Return tt, w1) /\
             Serves self m w1 /\ Entry self w1.
Proof.
  intros [Hd Hc] Hx Hcache Ec Eu Ei Eg. unfold store_url, Entry.
  destruct (CACHE (config self)) eqn:Ecache.
  - eexists. split; [reflexivity |].
    destruct Hcache as (cache & E1 & E2). simpl. rewrite E1. simpl. split.
    + split; [exact Hd |]. intros _.
      eexists. split; [reflexivity |]. intros m2. rewrite lookup_alter_eq, E2. simpl.
      intros [= <-]. now apply (memo_ext_memoize self m m' chunk_name c u).
    + intros _. eexists. split; [reflexivity |]. rewrite lookup_alter_eq, E2. simpl. eauto.
  - exists w. split; [reflexivity |]. split; [| intros; congruence].
    split; [exact Hd |]. intros; congruence.
Qed.

Lemma cached_Entry self (m m' : WebpackBundleContents) w :
  (if CACHE (config self)
   then exists cache, class_assets w = Some cache /\ cache !! name self = Some m'
   else m' = m) ->
  Entry self w.
Proof.
  intros Hc Ec. rewrite Ec in Hc. destruct Hc as (cache & E1 & E2).
  exists cache. rewrite E2. eauto.
Qed.

(** The loop of get_bundle computes [resolve_chunks] of the manifest it
    started from, whatever it memoizes on the way. *)
Lemma iter_chunks_serves depth self m chunk_names :
  is_done (status m) = true ->
  forall w, Serves self m w -> Entry self w ->
    exists w', iter_chunks (S depth) self chunk_names w
               = (resolve_chunks self m chunk_names, w') /\
               Serves self m w' /\ Entry self w'.
Proof.
  intros Ed. induction chunk_names as [| chunk_name rest IH]; intros w Hs He.
  - exists w. split; [reflexivity | auto].
  - destruct (get_chunk_from_name_serves depth self m chunk_name w Hs Ed)
      as (m' & w1 & E & Hx & Hs1 & Hcache).
    pose proof (cached_Entry _ _ _ _ Hcache) as He1.
    cbn [iter_chunks resolve_chunks]. unfold resolve_chunk.
    pose proof Hx as (_ & _ & Ha).
    destruct (Ha chunk_name) as [Esame | (c & u & Ec & Eu & Ei & Eg & Ec')].
    + rewrite Esame in E. destruct (assets_of m !! chunk_name) as [c |] eqn:Ec.
      2:{ exists w1. rewrite (bind_Raise _ _ _ _ _ E). auto. }
      rewrite (bind_Return _ _ _ _ _ E).
      destruct (a_url c) as [u0 |] eqn:Eu.
      * rewrite bool_decide_true by eauto. cbn [negb andb].
        erewrite bind_Return by reflexivity.
        destruct (IH w1 Hs1 He1) as (w' & Erest & Hs'). exists w'. split; [| exact Hs'].
        unfold bind. rewrite Erest. cbn [outcome_bind].
        destruct (resolve_chunks self m rest); try reflexivity.
        unfold ret. now rewrite Eu, bool_decide_true by eauto.
      * rewrite bool_decide_false by (intros [? ?]; discriminate). cbn [negb andb].
        destruct (ignored self chunk_name) eqn:Ei; cbn [negb].
        -- erewrite bind_Return by reflexivity.
           destruct (IH w1 Hs1 He1) as (w' & Erest & Hs'). exists w'. split; [| exact Hs'].
           unfold bind. rewrite Erest. cbn [outcome_bind].
           destruct (resolve_chunks self m rest); try reflexivity.
           unfold ret. now rewrite Eu, bool_decide_false by (intros [? ?]; discriminate).
        -- destruct (get_chunk_url self c) as [u | e |] eqn:Eg.
           ++ destruct (store_url_serves self m m' chunk_name c u w1 Hs1 Hx Hcache Esame Eu Ei Eg)
                as (w2 & Estore & Hs2 & He2).
              destruct (IH w2 Hs2 He2) as (w' & Erest & Hs'). exists w'. split; [| exact Hs'].
              erewrite bind_Return;
                [| erewrite bind_Return by reflexivity;
                   erewrite bind_Return by exact Estore; reflexivity].
              unfold bind. rewrite Erest. cbn [outcome_bind].
              destruct (resolve_chunks self m rest); reflexivity.
           ++ exists w1. split; [| auto]. cbn [outcome_bind].
              erewrite bind_Raise; [reflexivity |].
              erewrite bind_Raise; reflexivity.
           ++ unfold get_chunk_url in Eg. destruct (a_publicPath c); [discriminate |].
              destruct (a_name c); discriminate.
    + rewrite Ec' in E. rewrite (bind_Return _ _ _ _ _ E), Ec, Eu, Ei, Eg.
      cbn [outcome_bind set_url a_url].
      rewrite bool_decide_true by eauto. cbn [negb andb].
      erewrite bind_Return by reflexivity.
      destruct (IH w1 Hs1 He1) as (w' & Erest & Hs'). exists w'. split; [| exact Hs'].
      unfold bind. rewrite Erest.
      destruct (resolve_chunks self m rest); reflexivity.
Qed.

(** get_bundle computes [resolve_bundle] of the manifest it is served, and
    leaves a world that still serves it. *)
Lemma get_bundle_serves depth iters self m bundle_name w :
  is_done (status m) = true -> Serves self m w ->
  exists w', get_bundle (S depth) iters self bundle_name w
             = (resolve_bundle self m bundle_name, w') /\
             Serves self m w' /\ Entry self w'.
Proof.
  intros Ed Hs.
  destruct (get_assets_serves_done depth self m true false w Hs Ed)
    as (m' & w1 & E & (Est & Ech & _) & Hs1 & He1%cached_Entry).
  assert (Ed' : is_done (status m') = true) by now rewrite Est.
  unfold get_bundle. rewrite (bind_Return _ _ _ _ _ E).
  assert (Epoll : forall k : WebpackBundleContents -> M (list WebpackBundleAsset),
    bind (match TIMEOUT (config self) with
          | Some timeout =>
              start_time <- time_time ;;
              polled <- poll iters (S depth) self timeout
                          (POLL_INTERVAL (config self)) start_time false m' ;;
              if fst polled then raise (timeout_error bundle_name timeout)
              else ret (snd polled)
          | None => ret m'
          end) k w1 = k m' w1).
  { intros k. destruct (TIMEOUT (config self)) as [timeout |]; [| reflexivity].
    apply bind_Return. erewrite bind_Return by reflexivity.
    erewrite bind_Return by (apply poll_done; exact Ed'). reflexivity. }
  rewrite Epoll, Ed'. unfold except_KeyError, resolve_bundle. rewrite Ech.
  destruct (m_chunks m ≫= _) as [chunk_names |].
  - destruct (iter_chunks_serves depth self m chunk_names Ed w1 Hs1 He1) as (w' & Ei & Hs').
    exists w'. split; [| exact Hs']. rewrite Ei.
    destruct (resolve_chunks self m chunk_names) as [l | e |]; try reflexivity.
    now destruct e.
  - exists w1. split; [reflexivity | auto].
Qed.

(** ** Reading the manifest *)

Lemma append_assoc (a b c : string) : (a +:+ b) +:+ c = a +:+ (b +:+ c).
Proof.
  induction a as [| x a IH]; [reflexivity |].
  change (String x ((a +:+ b) +:+ c) = String x (a +:+ (b +:+ c))).
  now rewrite IH.
Qed.

(** C2 (amended): an unreadable manifest makes load_assets raise [IOError]
    with a message that includes the manifest path and the cause; a file
    that can be read but whose bytes are not UTF-8, or whose text is not
    JSON, makes it raise the decoder's [UnicodeDecodeError] or the parser's
    [JSONDecodeError], passed on unchanged; and these are the only ways it
    ends: a manifest is returned only when the file was read and parsed, and
    it is the one the file holds, never a default one; an [IOError] is
    raised only for a file that cannot be read. *)
Theorem load_assets_by_read (self : WebpackLoader) (w : World) :
  let path := STATS_FILE (config self) in
  let found := disk w (nreads w) path in
  let result := fst (load_assets self w) in
  (forall cause, found = Unreadable cause ->
     exists msg, result = Raise (IOError msg) /\ contains msg path /\ contains msg cause) /\
  (forall cause, found = Undecodable cause -> result = Raise (UnicodeDecodeError cause)) /\
  (forall cause, found = Malformed cause -> result = Raise (JSONDecodeError cause)) /\
  (forall m, result = Return m <-> found = Parsed m) /\
  (forall msg, result = Raise (IOError msg) -> exists cause, found = Unreadable cause) /\
  result <> Unfinished.
Proof.
  cbv zeta. unfold load_assets.
  destruct (disk w (nreads w) (STATS_FILE (config self))) as [cause | cause | cause | m];
    cbn [fst]; repeat split; try discriminate; try (intros ? [= <-]; reflexivity);
    try (intros [= <-]; reflexivity); eauto.
  intros c [= <-]. eexists. split; [reflexivity |]. split.
  - exists "Error reading ". eexists. reflexivity.
  - exists ("Error reading " +:+ STATS_FILE (config self) +:+ ": "). eexists.
    now rewrite !append_assoc.
Qed.

(** ** Merging a configuration *)

Lemma lookup_process_config_other (cfg : gmap string pyval) (key : string) :
  (cfg ∪ DEFAULT_CONFIG) !! key
  = match cfg !! key with Some v => Some v | None => DEFAULT_CONFIG !! key end.
Proof.
  destruct (cfg !! key) as [v |] eqn:E.
  - now apply lookup_union_Some_l.
  - now rewrite lookup_union_r.
Qed.

(** C9 (amended): whenever every pattern of the winning ignore list
    compiles, process_config returns a dictionary in which each key of the
    override has the override's value, each other key has the default's
    value, so that no default key is missing, and [ignores] is the list
    compiled from the ignore list that won the merge. *)
Theorem process_config_merge (cfg : gmap string pyval) (rxs : list Pattern) :
  compile_ignores (winning_ignore cfg) = Return rxs ->
  exists merged,
    process_config cfg = Return merged /\
    merged !! "ignores" = Some (PyPatterns rxs) /\
    merged !! "IGNORE" = Some (winning_ignore cfg) /\
    (forall key, key <> "ignores" ->
       merged !! key
       = match cfg !! key with Some v => Some v | None => DEFAULT_CONFIG !! key end) /\
    (forall key, is_Some (DEFAULT_CONFIG !! key) -> is_Some (merged !! key)).
Proof.
  intros Ec. unfold process_config. rewrite Ec. cbn [outcome_bind].
  eexists. split; [reflexivity |]. split; [apply lookup_insert_eq |].
  assert (Hother : forall key, key <> "ignores" ->
    (<["ignores" := PyPatterns rxs]> (cfg ∪ DEFAULT_CONFIG) : gmap string pyval) !! key
    = match cfg !! key with Some v => Some v | None => DEFAULT_CONFIG !! key end).
  { intros key Hk. rewrite lookup_insert_ne by congruence.
    apply lookup_process_config_other. }
  split; [| split; [exact Hother |]].
  - rewrite Hother by discriminate. unfold winning_ignore.
    destruct (cfg !! "IGNORE"); reflexivity.
  - intros key Hk. destruct (decide (key = "ignores")) as [-> | Hne].
    + rewrite lookup_insert_eq. eauto.
    + rewrite Hother by exact Hne. destruct (cfg !! key); eauto.
Qed.

(** ** The cache *)

(** As long as nothing has assigned [WebpackLoader._assets], a loader with
    [CACHE] on cannot get at its manifest. *)
Lemma get_assets_unassigned depth self compiled replace_cache w :
  CACHE (config self) = true -> class_assets w = None ->
  get_assets (S depth) self compiled replace_cache w
  = (Raise (AttributeError "type object 'WebpackLoader' has no attribute '_assets'"), w).
Proof.
  intros Ec Ea. cbn [get_assets]. apply bind_Raise.
  unfold fetch_assets. rewrite Ec. apply bind_Raise.
  unfold global_cache. now rewrite Ea.
Qed.

Lemma get_assets_hit depth self compiled w cache m :
  CACHE (config self) = true -> class_assets w = Some cache ->
  cache !! name self = Some m ->
  compiled = false \/ is_done (status m) = true ->
  get_assets (S depth) self compiled false w = (Return m, w).
Proof.
  intros Ec Ea Ehit Hret. cbn [get_assets].
  erewrite bind_Return.
  - destruct Hret as [-> | ->]; [reflexivity |]. now destruct compiled.
  - unfold fetch_assets. rewrite Ec.
    erewrite bind_Return by (unfold global_cache; rewrite Ea; reflexivity).
    rewrite Ehit, bool_decide_true by eauto. cbn [negb orb].
    erewrite bind_Return by reflexivity.
    unfold cache_fetch. rewrite Ea. cbn. now rewrite Ehit.
Qed.

(** The cache protocol, once [WebpackLoader._assets] holds a dictionary:
    with [CACHE] on, a get_assets call that finds no entry for the loader's name, or is told
    to replace it, reads the manifest once and stores it under that name; a
    call that finds an entry and is not told to replace it uses the entry
    and reads nothing; with [CACHE] off every call reads the manifest and
    leaves the dictionary alone.  In each case the manifest is returned
    when [compiled] is false or its status is [done]. *)
Theorem get_assets_cache_protocol (depth : nat) (self : WebpackLoader)
    (compiled replace_cache : bool) (w : World) (m : WebpackBundleContents)
    (cache : gmap string WebpackBundleContents) :
  compiled = false \/ is_done (status m) = true ->
  (CACHE (config self) = true -> class_assets w = Some cache ->
   cache !! name self = None \/ replace_cache = true ->
   disk w (nreads w) (STATS_FILE (config self)) = Parsed m ->
   get_assets (S depth) self compiled replace_cache w
   = (Return m, set_class_assets (Some (<[name self := m]> cache)) (count_read w))) /\
  (CACHE (config self) = true -> class_assets w = Some cache ->
   cache !! name self = Some m ->
   get_assets (S depth) self compiled false w = (Return m, w)) /\
  (CACHE (config self) = false ->
   disk w (nreads w) (STATS_FILE (config self)) = Parsed m ->
   get_assets (S depth) self compiled replace_cache w = (Return m, count_read w)).
Proof.
  intros Hret.
  assert (Hcheck : forall w' : World,
    (if compiled
     then if negb (is_done (status m))
          then raise_error_from_stats depth self ;;; raise (bad_stats self (status m))
          else ret m
     else ret m) w' = (Return m, w')).
  { intros w'. destruct Hret as [-> | ->]; [reflexivity |]. now destruct compiled. }
  assert (Hload : disk w (nreads w) (STATS_FILE (config self)) = Parsed m ->
                  load_assets self w = (Return m, count_read w)).
  { intros E. unfold load_assets. now rewrite E. }
  split; [| split].
  - intros Ec Ea Hmiss Ed. cbn [get_assets].
    erewrite bind_Return; [apply Hcheck |].
    unfold fetch_assets. rewrite Ec.
    erewrite bind_Return by (unfold global_cache; rewrite Ea; reflexivity).
    assert (negb (bool_decide (is_Some (cache !! name self))) || replace_cache = true) as ->.
    { destruct Hmiss as [E | ->]; [| apply orb_true_r].
      rewrite E, bool_decide_false by (intros [? ?]; discriminate). reflexivity. }
    erewrite bind_Return;
      [| erewrite bind_Return by (apply Hload, Ed); unfold cache_store; cbn;
         rewrite Ea; reflexivity].
    unfold cache_fetch. cbn. now rewrite lookup_insert_eq.
  - intros Ec Ea Ehit. now apply (get_assets_hit depth self compiled w cache m).
  - intros Ec Ed. cbn [get_assets].
    erewrite bind_Return; [apply Hcheck |].
    unfold fetch_assets. rewrite Ec. apply Hload, Ed.
Qed.

(** ** Resolving a bundle of a [done] manifest *)

Lemma get_chunk_url_spec self chunk :
  bool_decide (is_Some (a_publicPath chunk)) || bool_decide (is_Some (a_name chunk)) = true ->
  get_chunk_url self chunk = Return (spec_chunk_url self chunk).
Proof.
  unfold get_chunk_url, spec_chunk_url.
  destruct (a_publicPath chunk); [reflexivity |].
  destruct (a_name chunk); [reflexivity |].
  rewrite !bool_decide_false by (intros [? ?]; discriminate). discriminate.
Qed.

Lemma resolve_chunk_keep self m chunk_name :
  resolvable self m chunk_name = true ->
  resolve_chunk self m chunk_name = Return (spec_keep self m chunk_name).
Proof.
  unfold resolvable, resolve_chunk, spec_keep.
  destruct (assets_of m !! chunk_name) as [chunk |]; [| discriminate].
  destruct (a_url chunk) as [u |]; [reflexivity |].
  rewrite bool_decide_false by (intros [? ?]; discriminate).
  destruct (ignored self chunk_name); [reflexivity |]. cbn [orb]. intros Hr.
  now rewrite get_chunk_url_spec.
Qed.

Lemma resolve_chunks_keep self m chunk_names :
  forallb (resolvable self m) chunk_names = true ->
  resolve_chunks self m chunk_names = Return (omap (spec_keep self m) chunk_names).
Proof.
  induction chunk_names as [| chunk_name rest IH]; [reflexivity |].
  cbn [forallb resolve_chunks omap list_omap]. intros [Hr Hrest]%andb_true_iff.
  rewrite (resolve_chunk_keep _ _ _ Hr), (IH Hrest). cbn [outcome_bind].
  now destruct (spec_keep self m chunk_name).
Qed.

Lemma spec_keep_has_url self m chunk_name chunk :
  spec_keep self m chunk_name = Some chunk -> is_Some (a_url chunk).
Proof.
  unfold spec_keep. destruct (assets_of m !! chunk_name) as [c |]; [| discriminate].
  destruct (a_url c) as [u |] eqn:Eu.
  - intros [= <-]. rewrite Eu. eauto.
  - destruct (ignored self chunk_name); [discriminate |]. intros [= <-]. simpl. eauto.
Qed.

Lemma spec_keep_dropped self m chunk_name :
  resolvable self m chunk_name = true ->
  (spec_keep self m chunk_name = None <-> dropped self m chunk_name = true).
Proof.
  unfold resolvable, spec_keep, dropped.
  destruct (assets_of m !! chunk_name) as [c |]; [| discriminate]. intros _.
  destruct (a_url c) as [u |].
  - rewrite bool_decide_true by eauto. cbn. split; discriminate.
  - rewrite bool_decide_false by (intros [? ?]; discriminate). cbn.
    destruct (ignored self chunk_name); split; auto; discriminate.
Qed.

(** C6: for a [done] manifest that stays the same and a bundle whose chunks
    can all be resolved, get_bundle yields, in the order of the manifest's
    list and with its repetitions, one chunk for every name except those of
    chunks without URL that match an ignore pattern; every yielded chunk
    has its URL; and a dropped chunk is left in the cached manifest as it
    was, without URL. *)
Theorem get_bundle_keeps_resolved (depth iters : nat) (self : WebpackLoader)
    (m : WebpackBundleContents) (bundle_name : string) (chunk_names : list string)
    (w : World) :
  is_done (status m) = true -> Unchanged self m w ->
  m_chunks m ≫= (.!! bundle_name) = Some chunk_names ->
  forallb (resolvable self m) chunk_names = true ->
  fst (get_bundle (S depth) iters self bundle_name w)
  = Return (omap (spec_keep self m) chunk_names) /\
  Forall (fun chunk => is_Some (a_url chunk)) (omap (spec_keep self m) chunk_names) /\
  Forall (fun chunk_name =>
            spec_keep self m chunk_name = None <-> dropped self m chunk_name = true)
         chunk_names /\
  (CACHE (config self) = true ->
   exists cache m',
     class_assets (snd (get_bundle (S depth) iters self bundle_name w)) = Some cache /\
     cache !! name self = Some m' /\
     forall chunk_name, dropped self m chunk_name = true ->
       assets_of m' !! chunk_name = assets_of m !! chunk_name).
Proof.
  intros Ed Hu Ech Hres.
  destruct (get_bundle_serves depth iters self m bundle_name w Ed (Unchanged_Serves _ _ _ Hu))
    as (w' & E & [_ Hcache] & He').
  rewrite E. cbn [fst snd]. unfold resolve_bundle. rewrite Ech.
  rewrite (resolve_chunks_keep _ _ _ Hres).
  split; [reflexivity |]. split; [| split].
  - apply Forall_forall. intros chunk [chunk_name [_ Hk]]%list_elem_of_omap.
    apply (spec_keep_has_url _ _ _ _ Hk).
  - apply Forall_forall. intros chunk_name Hin. apply spec_keep_dropped.
    rewrite forallb_forall in Hres. apply Hres. now apply list_elem_of_In.
  - intros Ec. destruct (Hcache Ec) as (cache & Ea & Hx).
    destruct (He' Ec) as (cache' & Ea' & [m' Em']).
    assert (cache' = cache) as -> by congruence.
    exists cache, m'. split; [exact Ea |]. split; [exact Em' |].
    intros chunk_name Hdrop. destruct (Hx m' Em') as (_ & _ & Ha).
    destruct (Ha chunk_name) as [Esame | (c & u & Ec' & Eu & Ei & _)]; [exact Esame |].
    unfold dropped in Hdrop. rewrite Ec', Ei, andb_false_r in Hdrop. discriminate.
Qed.

(** *** The second resolution *)

(** Once get_assets has returned, get_bundle is the loop over the chunk
    names of the manifest it got. *)
Lemma get_bundle_after_fetch depth iters self bundle_name w m w1 :
  get_assets (S depth) self true false w = (Return m, w1) ->
  get_bundle (S depth) iters self bundle_name w
  = except_KeyError
      (match m_chunks m ≫= (.!! bundle_name) with
       | Some chunk_names => iter_chunks (S depth) self chunk_names
       | None => raise (KeyError bundle_name)
       end)
      (raise (lookup_error_bundle bundle_name)) w1.
Proof.
  intros E. pose proof (get_assets_compiled_done _ _ _ _ _ _ E) as Ed.
  unfold get_bundle. rewrite (bind_Return _ _ _ _ _ E).
  erewrite bind_Return; [now rewrite Ed |].
  destruct (TIMEOUT (config self)) as [timeout |]; [| reflexivity].
  erewrite bind_Return by reflexivity.
  erewrite bind_Return by (apply poll_done; exact Ed). reflexivity.
Qed.

Lemma settled_memoize self m chunk_name u k :
  settled self m k = true -> settled self (memoize chunk_name u m) k = true.
Proof.
  unfold settled. rewrite assets_of_memoize.
  destruct (decide (chunk_name = k)) as [<- | Hne].
  - rewrite lookup_alter_eq. destruct (assets_of m !! chunk_name); [| discriminate].
    intros _. reflexivity.
  - now rewrite lookup_alter_ne by exact Hne.
Qed.

(** With the cache on, a loop that runs to its end leaves every chunk it
    visited settled in the cached manifest. *)
Lemma iter_chunks_settles depth self chunk_names :
  CACHE (config self) = true ->
  forall w cache m yielded w',
    class_assets w = Some cache -> cache !! name self = Some m ->
    is_done (status m) = true ->
    iter_chunks (S depth) self chunk_names w = (Return yielded, w') ->
    exists cache' m',
      class_assets w' = Some cache' /\ cache' !! name self = Some m' /\
      status m' = status m /\ m_chunks m' = m_chunks m /\
      (forall k, settled self m k = true -> settled self m' k = true) /\
      forallb (settled self m') chunk_names = true.
Proof.
  intros Ec. induction chunk_names as [| chunk_name rest IH];
    intros w cache m yielded w' Ea Em Ed E.
  - injection E as _ <-. exists cache, m. repeat split; auto.
  - cbn [iter_chunks] in E.
    assert (Eg : get_chunk_from_name (S depth) self chunk_name w
                 = (match assets_of m !! chunk_name with
                    | Some chunk => Return chunk
                    | None => Raise (lookup_error_asset chunk_name)
                    end, w)).
    { unfold get_chunk_from_name, except_KeyError.
      rewrite (bind_Return _ _ _ _ _
                 (get_assets_hit depth self true w cache m Ec Ea Em (or_intror Ed))).
      now destruct (assets_of m !! chunk_name). }
    destruct (assets_of m !! chunk_name) as [c |] eqn:Elook;
      [| rewrite (bind_Raise _ _ _ _ _ Eg) in E; discriminate].
    rewrite (bind_Return _ _ _ _ _ Eg) in E.
    destruct (negb (bool_decide (is_Some (a_url c))) && negb (ignored self chunk_name))
      eqn:Ecompute.
    + destruct (get_chunk_url self c) as [u | e |] eqn:Eurl;
        [| unfold bind, lift in E; discriminate..].
      set (w2 := set_class_assets
                   (alter (memoize chunk_name u) (name self) <$> class_assets w) w).
      assert (Estore : (url <- lift (Return u) ;;
                        store_url self chunk_name url ;;; ret (set_url url c)) w
                       = (Return (set_url u c), w2)).
      { unfold bind, lift, store_url, ret. now rewrite Ec. }
      rewrite (bind_Return _ _ _ _ _ Estore) in E.
      unfold bind in E.
      destruct (iter_chunks (S depth) self rest w2) as [[rest_yielded | e |] w3] eqn:Erest;
        try discriminate.
      injection E as _ <-.
      destruct (IH w2 (alter (memoize chunk_name u) (name self) cache)
                  (memoize chunk_name u m) rest_yielded w3)
        as (cache' & m' & Ea' & Em' & Est & Ech & Hmono & Hall).
      * subst w2. cbn. now rewrite Ea.
      * now rewrite lookup_alter_eq, Em.
      * exact Ed.
      * exact Erest.
      * exists cache', m'. split; [exact Ea' |]. split; [exact Em' |].
        split; [exact Est |]. split; [exact Ech |]. split.
        -- intros k Hk. apply Hmono. now apply settled_memoize.
        -- cbn [forallb]. rewrite Hall, andb_true_r. apply Hmono.
           unfold settled. rewrite assets_of_memoize, lookup_alter_eq, Elook.
           reflexivity.
    + rewrite (bind_Return _ _ w c w) in E by reflexivity.
      unfold bind in E.
      destruct (iter_chunks (S depth) self rest w) as [[rest_yielded | e |] w3] eqn:Erest;
        try discriminate.
      injection E as _ <-.
      destruct (IH w cache m rest_yielded w3 Ea Em Ed Erest)
        as (cache' & m' & Ea' & Em' & Est & Ech & Hmono & Hall).
      exists cache', m'. split; [exact Ea' |]. split; [exact Em' |].
      split; [exact Est |]. split; [exact Ech |]. split; [exact Hmono |].
      cbn [forallb]. rewrite Hall, andb_true_r. apply Hmono.
      unfold settled. rewrite Elook.
      destruct (bool_decide (is_Some (a_url c))); [reflexivity |].
      destruct (ignored self chunk_name); [reflexivity | discriminate].
Qed.

(** With the cache on, a loop over settled chunks finds every URL in place:
    it reads nothing, stores nothing, and cannot fail. *)
Lemma iter_chunks_settled depth self chunk_names w cache m :
  CACHE (config self) = true ->
  class_assets w = Some cache -> cache !! name self = Some m ->
  is_done (status m) = true ->
  forallb (settled self m) chunk_names = true ->
  exists yielded, iter_chunks (S depth) self chunk_names w = (Return yielded, w).
Proof.
  intros Ec Ea Em Ed. induction chunk_names as [| chunk_name rest IH].
  - intros _. exists []. reflexivity.
  - cbn [forallb]. intros [Hs Hrest]%andb_true_iff.
    destruct (IH Hrest) as (rest_yielded & Erest).
    unfold settled in Hs. destruct (assets_of m !! chunk_name) as [c |] eqn:Elook;
      [| discriminate].
    assert (Eg : get_chunk_from_name (S depth) self chunk_name w = (Return c, w)).
    { unfold get_chunk_from_name, except_KeyError.
      rewrite (bind_Return _ _ _ _ _
                 (get_assets_hit depth self true w cache m Ec Ea Em (or_intror Ed))).
      now rewrite Elook. }
    eexists. cbn [iter_chunks]. rewrite (bind_Return _ _ _ _ _ Eg).
    assert (negb (bool_decide (is_Some (a_url c))) && negb (ignored self chunk_name)
            = false) as ->.
    { destruct (bool_decide (is_Some (a_url c))); [reflexivity |].
      cbn in Hs. now rewrite Hs. }
    erewrite bind_Return by reflexivity.
    erewrite bind_Return by exact Erest. reflexivity.
Qed.

(** C8: against a [done] manifest that stays the same, a second get_bundle
    for the same bundle, run in the world the first one left, gives what
    the first gave: the same chunks with the same URLs in the same order.
    With the cache on, after a first resolution that ran to its end, the
    second finds every URL memoized: it leaves the world as it found it. *)
Theorem get_bundle_twice (depth depth' iters iters' : nat) (self : WebpackLoader)
    (m : WebpackBundleContents) (bundle_name : string) (w : World) :
  is_done (status m) = true -> Unchanged self m w ->
  fst (get_bundle (S depth') iters' self bundle_name
         (snd (get_bundle (S depth) iters self bundle_name w)))
  = fst (get_bundle (S depth) iters self bundle_name w) /\
  (CACHE (config self) = true ->
   forall yielded,
     fst (get_bundle (S depth) iters self bundle_name w) = Return yielded ->
     snd (get_bundle (S depth') iters' self bundle_name
            (snd (get_bundle (S depth) iters self bundle_name w)))
     = snd (get_bundle (S depth) iters self bundle_name w)).
Proof.
  intros Ed Hu. pose proof (Unchanged_Serves _ _ _ Hu) as Hs. split.
  - destruct (get_bundle_serves depth iters self m bundle_name w Ed Hs)
      as (w1 & E1 & Hs1 & _).
    rewrite E1. cbn [fst snd].
    destruct (get_bundle_serves depth' iters' self m bundle_name w1 Ed Hs1)
      as (w2 & E2 & _).
    now rewrite E2.
  - intros Ec yielded.
    destruct (get_assets_serves_done depth self m true false w Hs Ed)
      as (m1 & w1 & Eg & (Est & Ech & _) & _ & Hcache).
    rewrite Ec in Hcache. destruct Hcache as (cache1 & Ea1 & Em1).
    assert (Ed1 : is_done (status m1) = true) by now rewrite Est.
    rewrite (get_bundle_after_fetch _ _ _ _ _ _ _ Eg).
    destruct (m_chunks m1 ≫= _) as [chunk_names |] eqn:Enames; [| discriminate].
    destruct (iter_chunks (S depth) self chunk_names w1) as [[l | e |] w2] eqn:Eiter.
    2:{ unfold except_KeyError. rewrite Eiter. destruct e; discriminate. }
    2:{ unfold except_KeyError. rewrite Eiter. discriminate. }
    assert (Ex : except_KeyError (iter_chunks (S depth) self chunk_names)
                   (raise (lookup_error_bundle bundle_name)) w1 = (Return l, w2))
      by (unfold except_KeyError; now rewrite Eiter).
    rewrite Ex. cbn [fst snd]. intros _.
    destruct (iter_chunks_settles depth self chunk_names Ec w1 cache1 m1 l w2
                Ea1 Em1 Ed1 Eiter)
      as (cache2 & m2 & Ea2 & Em2 & Est2 & Ech2 & _ & Hall).
    assert (Ed2 : is_done (status m2) = true) by now rewrite Est2.
    rewrite (get_bundle_after_fetch _ _ _ _ _ _ _
               (get_assets_hit depth' self true w2 cache2 m2 Ec Ea2 Em2 (or_intror Ed2))).
    rewrite Ech2, Enames. unfold except_KeyError.
    destruct (iter_chunks_settled depth' self chunk_names w2 cache2 m2 Ec Ea2 Em2 Ed2 Hall)
      as (l2 & E2).
    now rewrite E2.
Qed.

(** ** The poll loop and the error reports *)

Lemma quiet_flags {A} (r : outcome A * World) :
  only_raises quiet r ->
  raises_timeout (fst r) = false /\ raises_webpack_error (fst r) = false /\
  ends (fst r) = true.
Proof.
  unfold only_raises, quiet. destruct (fst r) as [a | e |]; cbn; auto.
  intros Hq. destruct e; cbn in *; auto; exfalso; apply Hq; exact I.
Qed.

(** get_bundle never raises [WebpackLoaderTimeoutError].  The loop that
    would set [timed_out] runs only while the manifest is [initialization]
    or [compile], and the manifest get_bundle holds when it reaches the loop
    comes from [get_assets] with [compiled] true, which returns [done]
    manifests only; whatever the budget of iterations, the call ends. *)
Theorem get_bundle_never_times_out (depth iters : nat) (self : WebpackLoader)
    (bundle_name : string) (w : World) :
  raises_timeout (fst (get_bundle depth iters self bundle_name w)) = false /\
  ends (fst (get_bundle depth iters self bundle_name w)) = true.
Proof.
  destruct (quiet_flags _ (get_bundle_quiet depth iters self bundle_name w))
    as (Ht & _ & He).
  now split.
Qed.

(** Nothing but [time.sleep] moves the clock, and the recursion between
    get_assets and raise_error_from_stats never sleeps. *)
Lemma keeps_clock_bind {A B} (c : M A) (k : A -> M B) :
  keeps_clock c -> (forall a, keeps_clock (k a)) -> keeps_clock (bind c k).
Proof.
  intros Hc Hk w. unfold bind. specialize (Hc w).
  destruct (c w) as [[a | e |] w1]; cbn in Hc |- *; try exact Hc.
  now rewrite Hk.
Qed.

Lemma load_assets_clock self : keeps_clock (load_assets self).
Proof.
  intros w. unfold load_assets.
  now destruct (disk w (nreads w) (STATS_FILE (config self))).
Qed.

Lemma fetch_assets_clock self replace_cache :
  keeps_clock (fetch_assets self replace_cache).
Proof.
  unfold fetch_assets. destruct (CACHE (config self)); [| apply load_assets_clock].
  apply keeps_clock_bind.
  - intros w. unfold global_cache. now destruct (class_assets w).
  - intros cache. apply keeps_clock_bind.
    + destruct (negb _ || replace_cache); [| intros w; reflexivity].
      apply keeps_clock_bind; [apply load_assets_clock |]. intros m w. reflexivity.
    + intros _ w. unfold cache_fetch. now destruct (class_assets w ≫= _).
Qed.

Lemma get_assets_raise_error_clock depth :
  (forall self compiled replace_cache,
     keeps_clock (get_assets depth self compiled replace_cache)) /\
  (forall self, keeps_clock (raise_error_from_stats depth self)).
Proof.
  induction depth as [| d [IHg IHr]]; [split; intros; intros w; reflexivity |]. split.
  - intros self compiled replace_cache. cbn [get_assets].
    apply keeps_clock_bind; [apply fetch_assets_clock |]. intros assets.
    destruct compiled; [| intros w; reflexivity].
    destruct (negb (is_done (status assets))); [| intros w; reflexivity].
    apply keeps_clock_bind; [apply IHr |]. intros _ w. reflexivity.
  - intros self. cbn [raise_error_from_stats].
    apply keeps_clock_bind; [apply IHg |]. intros assets.
    destruct (is_pending (status assets)); [intros w; reflexivity |].
    destruct (String.eqb (status assets) "error"); intros w; reflexivity.
Qed.

(** A manifest that is not [done] and stays so stops get_bundle in the first
    get_assets, with [RecursionError] and before any sleep. *)
Lemma get_bundle_stuck_at_once self m depth iters bundle_name w :
  is_done (status m) = false -> Serves self m w ->
  fst (get_bundle depth iters self bundle_name w) = Raise RecursionError /\
  clock (snd (get_bundle depth iters self bundle_name w)) = clock w.
Proof.
  intros Ed Hs. split; [now apply (get_bundle_stuck self m) |].
  destruct (get_assets_raise_error_stuck self m depth Ed w Hs) as [Eg _].
  specialize (Eg false).
  pose proof (proj1 (get_assets_raise_error_clock depth) self true false w) as Ec.
  cbv beta in Ec.
  unfold get_bundle. unfold bind at 1.
  destruct (get_assets depth self true false w) as [[a | e |] w2]; cbn in Eg, Ec |- *;
    try discriminate. exact Ec.
Qed.

End Properties.

(** ** The host and the configurations of the scenarios *)

Example rx_compile_js : rx_compile ".*\.js$" = Return rx_js.
Proof. reflexivity. Qed.

Example rx_match_js :
  rx_match rx_js "a.js" = true /\ rx_match rx_js "b.css" = false /\
  rx_match rx_js "a.js.map" = false.
Proof. repeat split. Qed.

Example rx_default_ignore :
  @compile_all (example_host true) DEFAULT_IGNORE = Return default_rxs /\
  map (fun rx => rx_match rx "main.js.map") default_rxs = [false; true] /\
  map (fun rx => rx_match rx "0.abc.hot-update.js") default_rxs = [true; false] /\
  map (fun rx => rx_match rx "main.js") default_rxs = [false; false].
Proof. repeat split. Qed.

Example default_ignore_entry (debug : bool) :
  @DEFAULT_CONFIG (example_host debug) !! "IGNORE" = Some (PyList DEFAULT_IGNORE).
Proof. destruct debug; reflexivity. Qed.

(** The configurations used below are the ones process_config builds. *)
Example load_config_default (debug : bool) :
  @load_config_of (example_host debug) ∅
  = Some (example_config debug None DEFAULT_IGNORE default_rxs).
Proof. destruct debug; vm_compute; reflexivity. Qed.

Example load_config_timeout :
  @load_config_of (example_host true) {[ "TIMEOUT" := PyInt 1 ]}
  = Some (example_config true (Some 1%Z) DEFAULT_IGNORE default_rxs).
Proof. vm_compute. reflexivity. Qed.

Example load_config_no_ignore (debug : bool) :
  @load_config_of (example_host debug) {[ "IGNORE" := PyList [] ]}
  = Some (example_config debug None [] []).
Proof. destruct debug; vm_compute; reflexivity. Qed.

Example load_config_ignore_js :
  @load_config_of (example_host true) {[ "IGNORE" := PyList [".*\.js$"] ]}
  = Some (example_config true None [".*\.js$"] [rx_js]).
Proof. vm_compute. reflexivity. Qed.

(** ** The scenarios *)



(** The second scenario: with the ignore pattern [.*\.js$] only [b.css] is
    yielded. *)
Lemma get_bundle_keeps_resolved_witness :
  fst (get_bundle 1 0 (example_loader true None [".*\.js$"] [rx_js]) "main"
         (process_start (constant_disk manifest_main)))
  = Return [set_url "/static/webpack_bundles/b.css" (asset_named "b.css")].
Proof.
  refine (proj1 (get_bundle_keeps_resolved 0 0
            (example_loader true None [".*\.js$"] [rx_js]) manifest_main "main"
            ["a.js"; "b.css"] (process_start (constant_disk manifest_main)) _ _ _ _)).
  - reflexivity.
  - split; [intros n _; reflexivity | discriminate].
  - reflexivity.
  - reflexivity.
Defined.

Lemma get_bundle_twice_witness :
  fst (get_bundle 1 0 (example_loader false None [] []) "main"
         (snd (get_bundle 1 0 (example_loader false None [] []) "main"
                 (cache_world ∅ (constant_disk manifest_main)))))
  = fst (get_bundle 1 0 (example_loader false None [] []) "main"
           (cache_world ∅ (constant_disk manifest_main))).
Proof.
  refine (proj1 (get_bundle_twice 0 0 0 0 (example_loader false None [] []) manifest_main
                   "main" (cache_world ∅ (constant_disk manifest_main)) _ _)).
  - reflexivity.
  - split; [intros n _; reflexivity |].
    intros _. exists ∅. split; [reflexivity | left; reflexivity].
Defined.


Lemma contains_has_sub (hay needle : string) :
  contains hay needle -> has_sub needle hay = true.
Proof.
  intros (pre & post & ->). induction pre as [| x pre IH].
  - assert (Hp : forall a b, String.prefix a (a +:+ b) = true).
    { induction a as [| y a IHa]; intros b; [now destruct b |].
      change (String.prefix (String y a) (String y (a +:+ b)) = true).
      cbn [String.prefix]. destruct (ascii_dec y y); [apply IHa | congruence]. }
    change (has_sub needle (needle +:+ post) = true).
    destruct (needle +:+ post) eqn:E; cbn [has_sub]; rewrite <- E, Hp; reflexivity.
  - change (has_sub needle (String x (pre +:+ needle +:+ post)) = true).
    cbn [has_sub]. rewrite IH. apply orb_true_r.
Qed.

(** C2, as stated, fails on content that is not JSON: what load_assets
    raises is the parser's [JSONDecodeError], not the [IOError] of the
    unreadable case, and its message does not name the manifest path. *)
Lemma load_assets_malformed_counterexample :
  let self := example_loader true None DEFAULT_IGNORE default_rxs in
  let w := process_start malformed_disk in
  fst (load_assets self w)
  = Raise (JSONDecodeError "Expecting value: line 1 column 1 (char 0)") /\
  (forall msg, fst (load_assets self w) <> Raise (IOError msg)) /\
  ~ contains "Expecting value: line 1 column 1 (char 0)" (STATS_FILE (config self)).
Proof.
  split; [reflexivity |]. split; [discriminate |].
  intros Hc. apply contains_has_sub in Hc. vm_compute in Hc. discriminate.
Qed.

(** A stats file that is not UTF-8: the [UnicodeDecodeError] of the read
    is no [IOError], so load_assets passes it on, and get_bundle with it. *)
Example load_assets_undecodable :
  let self := example_loader true None DEFAULT_IGNORE default_rxs in
  let w := process_start undecodable_disk in
  fst (load_assets self w)
  = Raise (UnicodeDecodeError
             "'utf-8' codec can't decode byte 0xff in position 0: invalid start byte") /\
  fst (get_bundle 1 0 self "main" w)
  = Raise (UnicodeDecodeError
             "'utf-8' codec can't decode byte 0xff in position 0: invalid start byte").
Proof. split; reflexivity. Qed.

(** A cached manifest that is not [done]: after a first call has stored
    it, a call with the default [compiled] and [replace_cache] false does
    not return it, at any recursion limit. *)
Lemma get_assets_cached_pending_counterexample :
  let self := example_loader false None DEFAULT_IGNORE default_rxs in
  let first := get_assets 1 self false false (cache_world ∅ (constant_disk manifest_compile)) in
  fst first = Return manifest_compile /\
  class_assets (snd first) = Some {[ "DEFAULT" := manifest_compile ]} /\
  forall depth, fst (get_assets depth self true false (snd first)) = Raise RecursionError.
Proof.
  split; [reflexivity |]. split; [reflexivity |]. intros depth.
  apply (get_assets_raise_error_stuck
           (example_loader false None DEFAULT_IGNORE default_rxs) manifest_compile depth);
    [reflexivity |].
  split; [intros n _; reflexivity |]. intros _.
  exists {[ "DEFAULT" := manifest_compile ]}. split; [reflexivity |].
  intros m'. cbn [name example_loader]. rewrite lookup_singleton_eq.
  intros [= <-]. apply memo_ext_refl.
Qed.

Lemma get_assets_cache_protocol_witness :
  let self := example_loader false None DEFAULT_IGNORE default_rxs in
  let w := cache_world ∅ (constant_disk manifest_main) in
  let w' := set_class_assets (Some {[ "DEFAULT" := manifest_main ]}) (count_read w) in
  get_assets 1 self true false w = (Return manifest_main, w') /\
  get_assets 1 self true false w' = (Return manifest_main, w') /\
  get_assets 1 self true true w'
  = (Return manifest_main,
     set_class_assets
       (Some (<["DEFAULT" := manifest_main]> {[ "DEFAULT" := manifest_main ]}))
       (count_read w')).
Proof.
  pose (self := example_loader false None DEFAULT_IGNORE default_rxs).
  pose (w := cache_world ∅ (constant_disk manifest_main)).
  pose (w' := set_class_assets (Some {[ "DEFAULT" := manifest_main ]}) (count_read w)).
  split; [| split].
  - refine (proj1 (get_assets_cache_protocol 0 self true false w manifest_main ∅ _) _ _ _ _);
      try reflexivity; [right; reflexivity | left; reflexivity].
  - refine (proj1 (proj2 (get_assets_cache_protocol 0 self true false w' manifest_main
                            {[ "DEFAULT" := manifest_main ]} _)) _ _ _);
      try reflexivity. right; reflexivity.
  - refine (proj1 (get_assets_cache_protocol 0 self true true w' manifest_main
                            {[ "DEFAULT" := manifest_main ]} _) _ _ _ _);
      try reflexivity; right; reflexivity.
Defined.

(** C9, as stated, fails on an override whose ignore list holds a pattern
    that is not a regular expression: [re.compile] raises and no
    configuration is produced. *)
Lemma process_config_counterexample :
  @process_config (example_host true) {[ "IGNORE" := PyList ["*"] ]}
  = Raise (ReError "nothing to repeat at position 0").
Proof. reflexivity. Qed.

Lemma process_config_merge_witness :
  exists merged : gmap string (@pyval (example_host true)),
    process_config
      (<["TIMEOUT" := PyInt 1]> {[ "IGNORE" := PyList [".*\.js$"] ]}) = Return merged /\
    merged !! "ignores" = Some (@PyPatterns (example_host true) [rx_js]) /\
    merged !! "TIMEOUT" = Some (PyInt 1) /\
    merged !! "BUNDLE_DIR_NAME" = Some (PyStr "webpack_bundles/").
Proof.
  destruct (@process_config_merge (example_host true)
              (<["TIMEOUT" := PyInt 1]> {[ "IGNORE" := PyList [".*\.js$"] ]}) [rx_js])
    as (merged & E & Hi & _ & Hk & _); [reflexivity |].
  exists merged. split; [exact E |]. split; [exact Hi |]. split.
  - rewrite Hk by discriminate. reflexivity.
  - rewrite Hk by discriminate. reflexivity.
Defined.

(** ** The cache of a process that has just started *)

(** C3, on the code: the default configuration outside debug mode ([CACHE]
    on), a stats file that holds a [done] manifest, a process that has just
    started.  The first get_assets call does not read the file and stores
    nothing: it raises [AttributeError], because [WebpackLoader._assets],
    which global_cache returns, is only annotated in the class body (line
    67) and nothing assigns it.  The process is left as it was, so every
    later call, whatever its arguments, ends the same way. *)
Theorem get_assets_cache_missing (depth : nat) (compiled replace_cache : bool) :
  let self := example_loader false None DEFAULT_IGNORE default_rxs in
  let w := process_start (constant_disk manifest_main) in
  let first := get_assets (S depth) self true false w in
  fst first
  = Raise (AttributeError "type object 'WebpackLoader' has no attribute '_assets'") /\
  nreads (snd first) = 0%nat /\ class_assets (snd first) = None /\
  fst (get_assets (S depth) self compiled replace_cache (snd first))
  = Raise (AttributeError "type object 'WebpackLoader' has no attribute '_assets'").
Proof.
  cbv zeta.
  rewrite (get_assets_unassigned depth (example_loader false None DEFAULT_IGNORE default_rxs)
             true false) by reflexivity.
  cbn [fst snd]. rewrite get_assets_unassigned by reflexivity. repeat split.
Qed.

(** ** Manifests that are not [done] *)

Lemma constant_disk_Serves {H : Host} (self : WebpackLoader)
    (m : WebpackBundleContents) :
  CACHE (config self) = false -> Serves self m (process_start (constant_disk m)).
Proof.
  intros Ec. split; [intros n _; reflexivity |]. intros Ec'. congruence.
Qed.

(** C1, on the code: with polling off (the default configuration in debug
    mode) and a manifest that stays at [compile], get_bundle does not reach
    either of its bad-manifest reports; the first get_assets recurses to
    the interpreter's limit. *)
Theorem get_bundle_compile_no_poll (depth iters : nat) :
  let result :=
    fst (get_bundle depth iters (example_loader true None DEFAULT_IGNORE default_rxs)
           "main" (process_start (constant_disk manifest_compile))) in
  result = Raise RecursionError /\ raises_bad_stats result = false.
Proof.
  cbv zeta. rewrite (get_bundle_stuck _ manifest_compile); [split; reflexivity | reflexivity |].
  now apply constant_disk_Serves.
Qed.

(** C4, on the code: with [TIMEOUT] 1 and a manifest that stays at
    [compile], get_bundle ends with [RecursionError] in the get_assets call
    that precedes the loop; the clock has not moved. *)
Theorem get_bundle_compile_timeout (depth iters : nat) :
  let self := example_loader true (Some 1%Z) DEFAULT_IGNORE default_rxs in
  let w := process_start (constant_disk manifest_compile) in
  fst (get_bundle depth iters self "main" w) = Raise RecursionError /\
  raises_timeout (fst (get_bundle depth iters self "main" w)) = false /\
  clock (snd (get_bundle depth iters self "main" w)) = clock w.
Proof.
  cbv zeta.
  destruct (get_bundle_stuck_at_once
              (example_loader true (Some 1%Z) DEFAULT_IGNORE default_rxs)
              manifest_compile depth iters "main"
              (process_start (constant_disk manifest_compile))) as [E Ec];
    [reflexivity | now apply constant_disk_Serves |].
  rewrite E. repeat split. exact Ec.
Qed.

(** C7, on the code: a manifest with status [error], error [ModuleError] and
    message [boom] does not make get_bundle raise [WebpackError]; the call
    ends with [RecursionError]. *)
Theorem get_bundle_error_manifest (depth iters : nat) :
  let result :=
    fst (get_bundle depth iters (example_loader true None DEFAULT_IGNORE default_rxs)
           "main" (process_start (constant_disk manifest_error))) in
  result = Raise RecursionError /\ raises_webpack_error result = false.
Proof.
  cbv zeta. rewrite (get_bundle_stuck _ manifest_error); [split; reflexivity | reflexivity |].
  now apply constant_disk_Serves.
Qed.

(** With [TIMEOUT] 1, a manifest at [compile] when get_bundle starts and
    [done] at the next read: the nested get_assets returns, so the outer
    one reports the status it saw; no sleep, no second forced read, no
    timeout. *)
Example get_bundle_completes_late :
  let self := example_loader true (Some 1%Z) DEFAULT_IGNORE default_rxs in
  let result := get_bundle 3 5 self "main"
                  (process_start (changing_disk manifest_compile manifest_main)) in
  fst result = Raise (bad_stats self "compile") /\
  nreads (snd result) = 2%nat /\ clock (snd result) = 0%Q.
Proof. repeat split. Qed.


(** The same holds of [WebpackError]: no call of get_bundle raises it. *)
Lemma get_bundle_never_webpack_error {H : Host} (depth iters : nat)
    (self : WebpackLoader) (bundle_name : string) (w : World) :
  raises_webpack_error (fst (get_bundle depth iters self bundle_name w)) = false.
Proof.
  now destruct (quiet_flags _ (get_bundle_quiet depth iters self bundle_name w))
    as (_ & Hw & _).
Qed.

(** * More of the loader *)

Section LoaderFacts.
Context {H : Host}.

(** ** Lookups that fail *)

Lemma resolve_chunks_first_failure self m before chunk_name after e :
  forallb (resolvable self m) before = true ->
  resolve_chunk self m chunk_name = Raise e ->
  resolve_chunks self m (before ++ chunk_name :: after)%list = Raise e.
Proof.
  intros Hb Ec. induction before as [| b before IH]; cbn [app resolve_chunks].
  - now rewrite Ec.
  - cbn [forallb] in Hb. apply andb_true_iff in Hb as [Hr Hrest].
    rewrite (resolve_chunk_keep _ _ _ Hr), (IH Hrest). reflexivity.
Qed.

(** X1: for a [done] manifest that stays the same, a bundle name that the
    manifest's [chunks] map does not hold, or a manifest without a [chunks]
    map, makes get_bundle raise [WebpackBundleLookupError] with the message
    [Cannot resolve bundle <name>.]. *)
Theorem get_bundle_unknown_bundle (depth iters : nat) (self : WebpackLoader)
    (m : WebpackBundleContents) (bundle_name : string) (w : World) :
  is_done (status m) = true -> Unchanged self m w ->
  m_chunks m ≫= (.!! bundle_name) = None ->
  fst (get_bundle (S depth) iters self bundle_name w)
  = Raise (WebpackBundleLookupError ("Cannot resolve bundle " +:+ bundle_name +:+ ".")).
Proof.
  intros Ed Hu Ech.
  destruct (get_bundle_serves depth iters self m bundle_name w Ed (Unchanged_Serves _ _ _ Hu))
    as (w' & E & _).
  rewrite E. cbn [fst]. unfold resolve_bundle. now rewrite Ech.
Qed.

(** X2: when the first chunk name of the bundle that cannot be resolved is
    missing from the manifest's [assets] map (or the manifest has no such
    map), get_bundle raises [WebpackBundleLookupError] naming that chunk,
    whatever follows it in the list. *)
Theorem get_bundle_missing_asset (depth iters : nat) (self : WebpackLoader)
    (m : WebpackBundleContents) (bundle_name chunk_name : string)
    (before after : list string) (w : World) :
  is_done (status m) = true -> Unchanged self m w ->
  m_chunks m ≫= (.!! bundle_name) = Some (before ++ chunk_name :: after)%list ->
  forallb (resolvable self m) before = true ->
  assets_of m !! chunk_name = None ->
  fst (get_bundle (S depth) iters self bundle_name w)
  = Raise (WebpackBundleLookupError
             ("The asset name '" +:+ chunk_name +:+ "' could not be found.")).
Proof.
  intros Ed Hu Ech Hb Ea.
  destruct (get_bundle_serves depth iters self m bundle_name w Ed (Unchanged_Serves _ _ _ Hu))
    as (w' & E & _).
  rewrite E. cbn [fst]. unfold resolve_bundle. rewrite Ech.
  rewrite (resolve_chunks_first_failure self m before chunk_name after
             (lookup_error_asset chunk_name) Hb); [reflexivity |].
  unfold resolve_chunk. now rewrite Ea.
Qed.

(** X3: a chunk that needs a URL (none memoized, not ignored) but has
    neither [publicPath] nor [name] makes get_chunk_url fail on
    [chunk["name"]]; the handler of get_bundle turns that [KeyError] into
    [Cannot resolve bundle <name>.], although the bundle was found. *)
Theorem get_bundle_nameless_chunk (depth iters : nat) (self : WebpackLoader)
    (m : WebpackBundleContents) (bundle_name chunk_name : string)
    (before after : list string) (chunk : WebpackBundleAsset) (w : World) :
  is_done (status m) = true -> Unchanged self m w ->
  m_chunks m ≫= (.!! bundle_name) = Some (before ++ chunk_name :: after)%list ->
  forallb (resolvable self m) before = true ->
  assets_of m !! chunk_name = Some chunk ->
  a_url chunk = None -> a_publicPath chunk = None -> a_name chunk = None ->
  ignored self chunk_name = false ->
  fst (get_bundle (S depth) iters self bundle_name w)
  = Raise (WebpackBundleLookupError ("Cannot resolve bundle " +:+ bundle_name +:+ ".")).
Proof.
  intros Ed Hu Ech Hb Ea Eu Ep En Ei.
  destruct (get_bundle_serves depth iters self m bundle_name w Ed (Unchanged_Serves _ _ _ Hu))
    as (w' & E & _).
  rewrite E. cbn [fst]. unfold resolve_bundle. rewrite Ech.
  rewrite (resolve_chunks_first_failure self m before chunk_name after
             (KeyError "name") Hb); [reflexivity |].
  unfold resolve_chunk, get_chunk_url. now rewrite Ea, Eu, Ei, Ep, En.
Qed.


(** ** How often the manifest is read *)

Lemma get_assets_uncached depth self compiled replace_cache w m :
  CACHE (config self) = false ->
  disk w (nreads w) (STATS_FILE (config self)) = Parsed m ->
  compiled = false \/ is_done (status m) = true ->
  get_assets (S depth) self compiled replace_cache w = (Return m, count_read w).
Proof.
  intros Ec Ed Hret. cbn [get_assets]. erewrite bind_Return.
  - destruct Hret as [-> | ->]; [reflexivity |]. now destruct compiled.
  - unfold fetch_assets, load_assets. now rewrite Ec, Ed.
Qed.

Lemma iter_chunks_uncached_reads depth self m chunk_names :
  CACHE (config self) = false -> is_done (status m) = true ->
  forall w yielded w',
    disk_serves self m w ->
    iter_chunks (S depth) self chunk_names w = (Return yielded, w') ->
    nreads w' = (nreads w + length chunk_names)%nat.
Proof.
  intros Ec Ed. induction chunk_names as [| chunk_name rest IH];
    intros w yielded w' Hd E.
  - injection E as _ <-. cbn. lia.
  - cbn [iter_chunks] in E.
    assert (Eg : get_chunk_from_name (S depth) self chunk_name w
                 = (match assets_of m !! chunk_name with
                    | Some chunk => Return chunk
                    | None => Raise (lookup_error_asset chunk_name)
                    end, count_read w)).
    { unfold get_chunk_from_name, except_KeyError.
      rewrite (bind_Return _ _ _ _ _
                 (get_assets_uncached depth self true false w m Ec
                    (Hd (nreads w) (le_n _)) (or_intror Ed))).
      now destruct (assets_of m !! chunk_name). }
    destruct (assets_of m !! chunk_name) as [c |];
      [| rewrite (bind_Raise _ _ _ _ _ Eg) in E; discriminate].
    rewrite (bind_Return _ _ _ _ _ Eg) in E.
    assert (Estep : exists c',
      bind (if negb (bool_decide (is_Some (a_url c))) && negb (ignored self chunk_name)
            then url <- lift (get_chunk_url self c) ;;
                 store_url self chunk_name url ;;; ret (set_url url c)
            else ret c)
           (fun chunk => yielded <- iter_chunks (S depth) self rest ;;
              ret (if bool_decide (is_Some (a_url chunk))
                   then chunk :: yielded else yielded)) (count_read w)
      = (yielded <- iter_chunks (S depth) self rest ;;
         ret (if bool_decide (is_Some (a_url c'))
              then c' :: yielded else yielded)) (count_read w)).
    { destruct (negb _ && negb _); [| exists c; reflexivity].
      destruct (get_chunk_url self c) as [u | e |] eqn:Eu.
      - exists (set_url u c). unfold bind at 1 2 3, lift, store_url, ret. now rewrite Ec.
      - exfalso. unfold bind, lift in E. discriminate.
      - exfalso. unfold bind, lift in E. discriminate. }
    destruct Estep as (c' & Estep). rewrite Estep in E. unfold bind in E.
    destruct (iter_chunks (S depth) self rest (count_read w))
      as [[rest_yielded | e |] w2] eqn:Erest; try discriminate.
    injection E as _ <-.
    rewrite (IH (count_read w) rest_yielded w2 (disk_serves_count_read _ _ _ Hd) Erest).
    cbn. lia.
Qed.

(** X4: with [CACHE] off, a get_bundle that runs to its end has read the
    manifest file once for itself and once more for every chunk name of the
    bundle. *)
Theorem get_bundle_uncached_reads (depth iters : nat) (self : WebpackLoader)
    (m : WebpackBundleContents) (bundle_name : string) (chunk_names : list string)
    (yielded : list WebpackBundleAsset) (w : World) :
  CACHE (config self) = false -> is_done (status m) = true ->
  disk_serves self m w ->
  m_chunks m ≫= (.!! bundle_name) = Some chunk_names ->
  fst (get_bundle (S depth) iters self bundle_name w) = Return yielded ->
  nreads (snd (get_bundle (S depth) iters self bundle_name w))
  = (nreads w + 1 + length chunk_names)%nat.
Proof.
  intros Ec Ed Hd Ech.
  rewrite (get_bundle_after_fetch depth iters self bundle_name w m (count_read w)
             (get_assets_uncached depth self true false w m Ec
                (Hd (nreads w) (le_n _)) (or_intror Ed))).
  unfold except_KeyError. rewrite Ech.
  destruct (iter_chunks (S depth) self chunk_names (count_read w))
    as [[l | e |] w2] eqn:Ei; cbn [fst snd].
  - intros _.
    rewrite (iter_chunks_uncached_reads depth self m chunk_names Ec Ed
               (count_read w) l w2 (disk_serves_count_read _ _ _ Hd) Ei).
    cbn. lia.
  - destruct e; discriminate.
  - discriminate.
Qed.

Lemma iter_chunks_cached_reads depth self chunk_names :
  CACHE (config self) = true ->
  forall w cache m,
    class_assets w = Some cache -> cache !! name self = Some m ->
    is_done (status m) = true ->
    nreads (snd (iter_chunks (S depth) self chunk_names w)) = nreads w.
Proof.
  intros Ec. induction chunk_names as [| chunk_name rest IH];
    intros w cache m Ea Em Ed; [reflexivity |].
  cbn [iter_chunks].
  assert (Eg : get_chunk_from_name (S depth) self chunk_name w
               = (match assets_of m !! chunk_name with
                  | Some chunk => Return chunk
                  | None => Raise (lookup_error_asset chunk_name)
                  end, w)).
  { unfold get_chunk_from_name, except_KeyError.
    rewrite (bind_Return _ _ _ _ _
               (get_assets_hit depth self true w cache m Ec Ea Em (or_intror Ed))).
    now destruct (assets_of m !! chunk_name). }
  destruct (assets_of m !! chunk_name) as [c |];
    [| now rewrite (bind_Raise _ _ _ _ _ Eg)].
  rewrite (bind_Return _ _ _ _ _ Eg).
  destruct (negb (bool_decide (is_Some (a_url c))) && negb (ignored self chunk_name)).
  - destruct (get_chunk_url self c) as [u | e |] eqn:Eu; [| reflexivity..].
    set (w2 := set_class_assets
                 (alter (memoize chunk_name u) (name self) <$> class_assets w) w).
    assert (Estore : (url <- lift (Return u) ;;
                      store_url self chunk_name url ;;; ret (set_url url c)) w
                     = (Return (set_url u c), w2)).
    { unfold bind, lift, store_url, ret. now rewrite Ec. }
    rewrite (bind_Return _ _ _ _ _ Estore). unfold bind.
    pose proof (IH w2 (alter (memoize chunk_name u) (name self) cache)
                  (memoize chunk_name u m)) as Hrest.
    destruct (iter_chunks (S depth) self rest w2) as [[l | e |] w3]; cbn in Hrest |- *;
      apply Hrest; subst w2; cbn; rewrite ?Ea, ?lookup_alter_eq, ?Em; auto.
  - rewrite (bind_Return _ _ w c w) by reflexivity. unfold bind.
    pose proof (IH w cache m Ea Em Ed) as Hrest.
    destruct (iter_chunks (S depth) self rest w) as [[l | e |] w3]; exact Hrest.
Qed.

(** X5: with [CACHE] on and a [done] manifest in the cache under the
    loader's name, get_bundle does not read the manifest file at all,
    however it ends. *)
Theorem get_bundle_cached_reads_nothing (depth iters : nat) (self : WebpackLoader)
    (m : WebpackBundleContents) (cache : gmap string WebpackBundleContents)
    (bundle_name : string) (w : World) :
  CACHE (config self) = true -> class_assets w = Some cache ->
  cache !! name self = Some m -> is_done (status m) = true ->
  nreads (snd (get_bundle (S depth) iters self bundle_name w)) = nreads w.
Proof.
  intros Ec Ea Em Ed.
  rewrite (get_bundle_after_fetch depth iters self bundle_name w m w
             (get_assets_hit depth self true w cache m Ec Ea Em (or_intror Ed))).
  unfold except_KeyError.
  destruct (m_chunks m ≫= _) as [chunk_names |]; [| reflexivity].
  pose proof (iter_chunks_cached_reads depth self chunk_names Ec w cache m Ea Em Ed) as Hi.
  destruct (iter_chunks (S depth) self chunk_names w) as [[l | e |] w2]; cbn in Hi |- *;
    try exact Hi.
  now destruct e.
Qed.

(** ** A load that fails *)

(** X6: with [CACHE] on, when the read that get_assets makes (no entry yet,
    or a forced reload) fails, the exception of load_assets goes through
    and the cache dictionary is left exactly as it was: a forced reload that
    fails does not lose the entry it was to replace. *)
Theorem get_assets_failed_load_keeps_cache (depth : nat) (self : WebpackLoader)
    (compiled replace_cache : bool) (w : World)
    (cache : gmap string WebpackBundleContents) :
  CACHE (config self) = true -> class_assets w = Some cache ->
  cache !! name self = None \/ replace_cache = true ->
  (forall m, disk w (nreads w) (STATS_FILE (config self)) <> Parsed m) ->
  exists e,
    fst (load_assets self w) = Raise e /\
    get_assets (S depth) self compiled replace_cache w = (Raise e, count_read w) /\
    class_assets (snd (get_assets (S depth) self compiled replace_cache w)) = Some cache.
Proof.
  intros Ec Ea Hmiss Hbad.
  assert (Hload : exists e, load_assets self w = (Raise e, count_read w)).
  { unfold load_assets.
    destruct (disk w (nreads w) (STATS_FILE (config self))) as [c | c | c | m]; eauto.
    now destruct (Hbad m). }
  destruct Hload as (e & Hload).
  assert (Eg : get_assets (S depth) self compiled replace_cache w
               = (Raise e, count_read w)).
  { cbn [get_assets]. apply bind_Raise. unfold fetch_assets. rewrite Ec.
    erewrite bind_Return by (unfold global_cache; rewrite Ea; reflexivity).
    assert (negb (bool_decide (is_Some (cache !! name self))) || replace_cache = true) as ->.
    { destruct Hmiss as [E | ->]; [| apply orb_true_r].
      rewrite E, bool_decide_false by (intros [? ?]; discriminate). reflexivity. }
    apply bind_Raise. now apply bind_Raise. }
  exists e. rewrite Eg, Hload. auto.
Qed.


(** ** What a call leaves alone *)

Lemma preserves_bind {X A B} (f : World -> X) (c : M A) (k : A -> M B) :
  preserves f c -> (forall a, preserves f (k a)) -> preserves f (bind c k).
Proof.
  intros Hc Hk w. unfold bind. specialize (Hc w).
  destruct (c w) as [[a | e |] w1]; cbn in Hc |- *; try exact Hc.
  now rewrite Hk.
Qed.

Lemma preserves_except {X A} (f : World -> X) (body handler : M A) :
  preserves f body -> preserves f handler ->
  preserves f (except_KeyError body handler).
Proof.
  intros Hb Hh w. unfold except_KeyError. specialize (Hb w).
  destruct (body w) as [[a | e |] w1]; cbn in Hb |- *; try exact Hb.
  destruct e; try exact Hb. now rewrite Hh.
Qed.

Lemma preserves_pure {X A} (f : World -> X) (o : outcome A) : preserves f (lift o).
Proof. intros w. reflexivity. Qed.

Section Framed.
Context {X : Type} (self : WebpackLoader) (f : World -> X) (Hf : Frame self f).

Lemma load_assets_framed : preserves f (load_assets self).
Proof.
  intros w. unfold load_assets. destruct Hf as (Hr & _).
  destruct (disk w (nreads w) (STATS_FILE (config self))); apply Hr.
Qed.

Lemma fetch_assets_framed replace_cache : preserves f (fetch_assets self replace_cache).
Proof.
  unfold fetch_assets. destruct (CACHE (config self)) eqn:Ec; [| apply load_assets_framed].
  apply preserves_bind.
  - intros w. unfold global_cache. now destruct (class_assets w).
  - intros cache. apply preserves_bind.
    + destruct (negb _ || replace_cache); [| intros w; reflexivity].
      apply preserves_bind; [apply load_assets_framed |].
      intros m w. unfold cache_store. cbn [snd].
      destruct Hf as (_ & Hc). apply (Hc Ec (insert (name self) m)).
      intros c k Hk. now apply lookup_insert_ne.
    + intros _ w. unfold cache_fetch. now destruct (class_assets w ≫= _).
Qed.

Lemma get_assets_raise_error_framed depth :
  (forall compiled replace_cache,
     preserves f (get_assets depth self compiled replace_cache)) /\
  preserves f (raise_error_from_stats depth self).
Proof.
  induction depth as [| d [IHg IHr]]; [split; repeat intro; reflexivity |]. split.
  - intros compiled replace_cache. cbn [get_assets].
    apply preserves_bind; [apply fetch_assets_framed |]. intros assets.
    destruct compiled; [| intros w; reflexivity].
    destruct (negb (is_done (status assets))); [| intros w; reflexivity].
    apply preserves_bind; [apply IHr |]. intros _ w. reflexivity.
  - cbn [raise_error_from_stats].
    apply preserves_bind; [apply IHg |]. intros assets.
    destruct (is_pending (status assets)); [intros w; reflexivity |].
    destruct (String.eqb (status assets) "error"); intros w; reflexivity.
Qed.

Lemma get_assets_framed depth compiled replace_cache :
  preserves f (get_assets depth self compiled replace_cache).
Proof. apply get_assets_raise_error_framed. Qed.

Lemma get_chunk_from_name_framed depth chunk_name :
  preserves f (get_chunk_from_name depth self chunk_name).
Proof.
  unfold get_chunk_from_name. apply preserves_except; [| intros w; reflexivity].
  apply preserves_bind; [apply get_assets_framed |]. intros assets.
  destruct (assets_of assets !! chunk_name); intros ?; reflexivity.
Qed.

Lemma store_url_framed chunk_name url : preserves f (store_url self chunk_name url).
Proof.
  intros w. unfold store_url. destruct (CACHE (config self)) eqn:Ec; [| reflexivity].
  cbn [snd]. destruct Hf as (_ & Hc).
  apply (Hc Ec (alter (memoize chunk_name url) (name self))).
  intros c k Hk. now apply lookup_alter_ne.
Qed.

Lemma iter_chunks_framed depth chunk_names :
  preserves f (iter_chunks depth self chunk_names).
Proof.
  induction chunk_names as [| chunk_name rest IH]; [intros w; reflexivity |].
  cbn [iter_chunks]. apply preserves_bind; [apply get_chunk_from_name_framed |].
  intros chunk. apply preserves_bind.
  - destruct (negb _ && negb _); [| intros w; reflexivity].
    apply preserves_bind; [apply preserves_pure |]. intros url.
    apply preserves_bind; [apply store_url_framed |]. intros _ w. reflexivity.
  - intros chunk'. apply preserves_bind; [apply IH |]. intros l w. reflexivity.
Qed.

Context (Hs : Sleepless f).

Lemma poll_framed iters depth timeout interval_time start_time :
  forall timed_out assets,
    preserves f (poll iters depth self timeout interval_time start_time timed_out assets).
Proof.
  induction iters as [| i IH]; intros timed_out assets; cbn [poll];
    destruct (negb timed_out && is_pending (status assets));
    try (intros w; reflexivity).
  apply preserves_bind.
  - intros w. apply Hs.
  - intros _. apply preserves_bind; [intros w; reflexivity |]. intros now.
    apply preserves_bind; [apply get_assets_framed |]. intros assets'. apply IH.
Qed.

Lemma get_bundle_framed depth iters bundle_name :
  preserves f (get_bundle depth iters self bundle_name).
Proof.
  unfold get_bundle. apply preserves_bind; [apply get_assets_framed |]. intros assets.
  apply preserves_bind.
  - destruct (TIMEOUT (config self)) as [timeout |]; [| intros w; reflexivity].
    apply preserves_bind; [intros w; reflexivity |]. intros start_time.
    apply preserves_bind; [apply poll_framed |]. intros polled.
    destruct (fst polled); intros w; reflexivity.
  - intros assets'. destruct (is_done (status assets')).
    + apply preserves_except; [| intros w; reflexivity].
      destruct (m_chunks assets' ≫= _); [apply iter_chunks_framed | intros w; reflexivity].
    + apply preserves_bind; [apply get_assets_raise_error_framed |].
      intros _ w. reflexivity.
Qed.

End Framed.

Lemma entry_of_Frame self other : other <> name self -> Frame self (fun w => entry_of w other).
Proof.
  intros Hne. split; [reflexivity |].
  intros _ u w Hu. unfold entry_of, set_class_assets. cbn.
  destruct (class_assets w) as [cache |]; [| reflexivity]. cbn. now apply Hu.
Qed.

Lemma class_assets_Frame self : CACHE (config self) = false -> Frame self class_assets.
Proof.
  intros Ec. split; [reflexivity |]. intros Ec'. congruence.
Qed.

(** X7: the cache is keyed by configuration name, and a loader only ever
    writes under its own: whatever get_assets or get_bundle do and however
    they end, the cached manifest of every other name is what it was. *)
Theorem loader_keeps_other_entries (depth iters : nat) (self : WebpackLoader)
    (compiled replace_cache : bool) (bundle_name other : string) (w : World) :
  other <> name self ->
  entry_of (snd (get_assets depth self compiled replace_cache w)) other = entry_of w other /\
  entry_of (snd (get_bundle depth iters self bundle_name w)) other = entry_of w other.
Proof.
  intros Hne. pose proof (entry_of_Frame self other Hne) as Hf. split.
  - apply (get_assets_framed self _ Hf).
  - apply (get_bundle_framed self _ Hf). intros d w'. reflexivity.
Qed.

(** X8: with [CACHE] off the loader does not touch the class-level cache:
    after get_assets or get_bundle, however they end, [_assets] is what it
    was (unassigned if it was unassigned). *)
Theorem loader_bypasses_cache (depth iters : nat) (self : WebpackLoader)
    (compiled replace_cache : bool) (bundle_name : string) (w : World) :
  CACHE (config self) = false ->
  class_assets (snd (get_assets depth self compiled replace_cache w)) = class_assets w /\
  class_assets (snd (get_bundle depth iters self bundle_name w)) = class_assets w.
Proof.
  intros Ec. pose proof (class_assets_Frame self Ec) as Hf. split.
  - apply (get_assets_framed self _ Hf).
  - apply (get_bundle_framed self _ Hf). intros d w'. reflexivity.
Qed.


Lemma clock_Frame self : Frame self clock.
Proof. split; [reflexivity |]. intros _ u w _. reflexivity. Qed.

(** X9: get_bundle never waits.  Whatever the configuration ([TIMEOUT] set
    or not), the manifest and the outcome, the clock after the call is the
    clock before it: the only [time.sleep] is in the poll loop, which is
    reached with a [done] manifest only. *)
Theorem get_bundle_never_sleeps (depth iters : nat) (self : WebpackLoader)
    (bundle_name : string) (w : World) :
  clock (snd (get_bundle depth iters self bundle_name w)) = clock w.
Proof.
  pose proof (get_assets_framed self clock (clock_Frame self) depth true false w) as Eg.
  destruct (get_assets depth self true false w) as [[m | e |] w1] eqn:E; cbn [snd] in Eg.
  - destruct depth as [| d]; [discriminate |].
    rewrite (get_bundle_after_fetch _ _ _ _ _ _ _ E). rewrite <- Eg.
    apply (preserves_except clock); [| intros ?; reflexivity].
    destruct (m_chunks m ≫= _); [| intros ?; reflexivity].
    apply (iter_chunks_framed self clock (clock_Frame self)).
  - unfold get_bundle. now rewrite (bind_Raise _ _ _ _ _ E).
  - unfold get_bundle, bind. now rewrite E.
Qed.

(** ** What get_assets hands back *)

(** X10: a get_assets call with [compiled] true that returns, returns a
    manifest whose status is [done]; and the check changes nothing: the
    manifest and the world are those the cache or the file gave. *)
Theorem get_assets_returns_done_only (depth : nat) (self : WebpackLoader)
    (replace_cache : bool) (w w' : World) (m : WebpackBundleContents) :
  get_assets depth self true replace_cache w = (Return m, w') ->
  status m = "done" /\ fetch_assets self replace_cache w = (Return m, w').
Proof.
  intros E. split; [apply is_done_eq, (get_assets_compiled_done _ _ _ _ _ _ E) |].
  pose proof (get_assets_compiled_done _ _ _ _ _ _ E) as Ed.
  destruct depth as [| d]; [discriminate |]. cbn [get_assets] in E. unfold bind at 1 in E.
  destruct (fetch_assets self replace_cache w) as [[a | e |] w1]; try discriminate.
  destruct (is_done (status a)) eqn:Ea; cbn [negb] in E.
  - now injection E as <- <-.
  - unfold bind in E. destruct (raise_error_from_stats d self w1) as [[[] | e |] w2];
      discriminate.
Qed.

(** X11: with [CACHE] on and [WebpackLoader._assets] never assigned,
    get_assets and get_bundle raise [AttributeError] before anything is
    read: the world is left as it was. *)
Theorem loader_unassigned_cache (depth iters : nat) (self : WebpackLoader)
    (compiled replace_cache : bool) (bundle_name : string) (w : World) :
  CACHE (config self) = true -> class_assets w = None ->
  get_assets (S depth) self compiled replace_cache w
  = (Raise (AttributeError "type object 'WebpackLoader' has no attribute '_assets'"), w) /\
  get_bundle (S depth) iters self bundle_name w
  = (Raise (AttributeError "type object 'WebpackLoader' has no attribute '_assets'"), w).
Proof.
  intros Ec Ea. split; [now apply get_assets_unassigned |].
  unfold get_bundle. apply bind_Raise. now apply get_assets_unassigned.
Qed.

(** ** The exceptions of get_bundle *)

Lemma only_raises_weaken {A} (P Q : exn -> Prop) (r : outcome A * World) :
  (forall e, P e -> Q e) -> only_raises P r -> only_raises Q r.
Proof. unfold only_raises. destruct (fst r); auto. Qed.

Lemma only_raises_handled {A} self (body handler : M A) w :
  only_raises (raisable_or_KeyError self) (body w) ->
  (forall w', only_raises (raisable self) (handler w')) ->
  only_raises (raisable self) (except_KeyError body handler w).
Proof.
  unfold except_KeyError. intros Hb Hh.
  destruct (body w) as [[a | e |] w'] eqn:E; try exact Hb.
  destruct e; try exact Hb. apply Hh.
Qed.

Lemma raisable_weaker self e : raisable self e -> raisable_or_KeyError self e.
Proof. destruct e; cbn; auto. Qed.

Lemma fetch_assets_raisable self replace_cache w :
  only_raises (raisable self) (fetch_assets self replace_cache w).
Proof.
  unfold fetch_assets, only_raises.
  destruct (CACHE (config self)) eqn:Ec.
  - unfold bind at 1, global_cache. destruct (class_assets w) as [cache |] eqn:Ea;
      [| exact Ec].
    destruct (negb (bool_decide (is_Some (cache !! name self))) || replace_cache) eqn:Eb.
    + unfold bind, load_assets, cache_store, cache_fetch.
      destruct (disk w (nreads w) (STATS_FILE (config self))); cbn; try exact I.
      rewrite Ea. cbn. now rewrite lookup_insert_eq.
    + apply orb_false_iff in Eb as [Eb _]. apply negb_false_iff in Eb.
      apply bool_decide_eq_true in Eb as [m Em].
      unfold bind, ret, cache_fetch. rewrite Ea. cbn. now rewrite Em.
  - unfold load_assets. now destruct (disk w (nreads w) (STATS_FILE (config self))).
Qed.

Lemma get_assets_raise_error_raisable self depth :
  (forall compiled replace_cache w,
     only_raises (raisable self) (get_assets depth self compiled replace_cache w)) /\
  (forall w, only_raises (raisable self) (raise_error_from_stats depth self w)).
Proof.
  induction depth as [| d [IHg IHr]]; [split; intros; exact I |]. split.
  - intros compiled replace_cache w. cbn [get_assets].
    apply only_raises_bind; [apply fetch_assets_raisable |].
    intros assets w1 _. destruct compiled; [| exact I].
    destruct (is_done (status assets)) eqn:Ed; [exact I |]. cbn [negb].
    apply only_raises_bind; [apply IHr |]. intros _ w2 _.
    unfold only_raises, raise, bad_stats. cbn. exists (status assets). auto.
  - intros w. cbn [raise_error_from_stats].
    apply only_raises_bind; [apply IHg |].
    intros assets w1 E. apply get_assets_compiled_done in E.
    rewrite (done_not_pending _ E), (done_not_error _ E). exact I.
Qed.

Lemma iter_chunks_raisable self depth chunk_names w :
  only_raises (raisable_or_KeyError self) (iter_chunks depth self chunk_names w).
Proof.
  revert w. induction chunk_names as [| chunk_name rest IH]; intros w; [exact I |].
  cbn [iter_chunks]. apply only_raises_bind.
  - apply (only_raises_weaken (raisable self)); [apply raisable_weaker |].
    unfold get_chunk_from_name. apply only_raises_handled; [| intros w'; exact I].
    apply only_raises_bind.
    + apply (only_raises_weaken (raisable self)); [apply raisable_weaker |].
      apply get_assets_raise_error_raisable.
    + intros assets w1 _. now destruct (assets_of assets !! chunk_name).
  - intros chunk w1 _. apply only_raises_bind.
    + destruct (negb _ && negb _); [| exact I]. apply only_raises_bind.
      * unfold lift, get_chunk_url, only_raises.
        destruct (a_publicPath chunk); [exact I |]. now destruct (a_name chunk).
      * intros url w2 _. apply only_raises_bind; [| intros; exact I].
        unfold store_url. now destruct (CACHE (config self)).
    + intros chunk' w2 _. apply only_raises_bind; [apply IH |]. intros; exact I.
Qed.

(** X12: however get_bundle is called, it ends, and if it raises, the
    exception is one of: the [IOError], [UnicodeDecodeError] or
    [JSONDecodeError] of a read, the [AttributeError] of the missing cache
    (with [CACHE] on only), [RecursionError], [WebpackBundleLookupError], or
    the bad-status report of get_assets, whose message names the loader's
    configuration name and a status other than [done].  It never lets a
    [KeyError] through, never raises [WebpackError] or
    [WebpackLoaderTimeoutError], and never reaches its own report of an
    invalid stats file (line 210).  This is for a read that ends in one of
    the four ways of [read_result]: in particular a file that parses holds
    a manifest, that is, a JSON object with the key [status]. *)
Theorem get_bundle_raises_only (depth iters : nat) (self : WebpackLoader)
    (bundle_name : string) (w : World) :
  only_raises (raisable self) (get_bundle depth iters self bundle_name w).
Proof.
  pose proof (proj1 (get_assets_raise_error_raisable self depth) true false w) as Hg.
  destruct (get_assets depth self true false w) as [[m | e |] w1] eqn:E.
  - destruct depth as [| d]; [discriminate |].
    rewrite (get_bundle_after_fetch _ _ _ _ _ _ _ E).
    apply only_raises_handled; [| intros w'; exact I].
    destruct (m_chunks m ≫= _); [apply iter_chunks_raisable | exact I].
  - unfold get_bundle. rewrite (bind_Raise _ _ _ _ _ E). exact Hg.
  - destruct Hg.
Qed.

End LoaderFacts.

(** * More of the configuration *)

Section ConfigFacts.
Context {H : Host}.

Lemma DEFAULT_CONFIG_IGNORE : DEFAULT_CONFIG !! "IGNORE" = Some (PyList DEFAULT_IGNORE).
Proof. reflexivity. Qed.

Lemma winning_ignore_merged (cfg : gmap string pyval) (rxs : list Pattern) :
  winning_ignore (<["ignores" := PyPatterns rxs]> (cfg ∪ DEFAULT_CONFIG))
  = winning_ignore cfg.
Proof.
  unfold winning_ignore. rewrite lookup_insert_ne by discriminate.
  rewrite lookup_process_config_other, DEFAULT_CONFIG_IGNORE.
  now destruct (cfg !! "IGNORE").
Qed.

(** X13: process_config is idempotent: a configuration it has produced is
    returned unchanged when it is processed again. *)
Theorem process_config_idempotent (cfg merged : gmap string pyval) :
  process_config cfg = Return merged -> process_config merged = Return merged.
Proof.
  unfold process_config.
  destruct (compile_ignores (winning_ignore cfg)) as [rxs | e |] eqn:Ec; try discriminate.
  cbn [outcome_bind]. intros [= <-]. rewrite winning_ignore_merged, Ec.
  cbn [outcome_bind]. f_equal. apply map_eq. intros key.
  destruct (decide (key = "ignores")) as [-> | Hne].
  - now rewrite !lookup_insert_eq.
  - rewrite !lookup_insert_ne by congruence.
    rewrite lookup_process_config_other, lookup_insert_ne by congruence.
    rewrite lookup_process_config_other.
    destruct (cfg !! key); [reflexivity |]. now destruct (DEFAULT_CONFIG !! key).
Qed.

(** X14: an [ignores] entry in the override has no effect: the compiled
    matchers always come from the ignore list, so a caller cannot supply
    matchers of its own. *)
Theorem process_config_drops_ignores (cfg : gmap string pyval) (v : pyval) :
  process_config (<["ignores" := v]> cfg) = process_config cfg.
Proof.
  unfold process_config, winning_ignore. rewrite lookup_insert_ne by discriminate.
  destruct (compile_ignores (default (PyList DEFAULT_IGNORE) (cfg !! "IGNORE")))
    as [rxs | e |]; try reflexivity.
  cbn [outcome_bind]. f_equal. apply map_eq. intros key.
  destruct (decide (key = "ignores")) as [-> | Hne].
  - now rewrite !lookup_insert_eq.
  - rewrite !lookup_insert_ne by congruence.
    rewrite !lookup_process_config_other. now rewrite lookup_insert_ne by congruence.
Qed.

Lemma compile_all_first_failure (good : list string) bad rest rxs e :
  compile_all good = Return rxs -> re_compile bad = Raise e ->
  compile_all (good ++ bad :: rest) = Raise e.
Proof.
  revert rxs. induction good as [| p good IH]; intros rxs Eg Eb; cbn [app compile_all].
  - now rewrite Eb.
  - cbn [compile_all] in Eg. destruct (re_compile p); try discriminate.
    cbn [outcome_bind] in *. destruct (compile_all good) as [l | e' |] eqn:El;
      try discriminate.
    now rewrite (IH l eq_refl Eb).
Qed.

(** X15: the ignore patterns are compiled from left to right and the first
    one that [re.compile] refuses decides the outcome: process_config raises
    that [re.error], whatever comes after it in the list. *)
Theorem process_config_first_bad_pattern (cfg : gmap string pyval)
    (good rest : list string) (bad : string) (rxs : list Pattern) (e : exn) :
  cfg !! "IGNORE" = Some (PyList (good ++ bad :: rest)) ->
  compile_all good = Return rxs -> re_compile bad = Raise e ->
  process_config cfg = Raise e.
Proof.
  intros Ei Eg Eb. unfold process_config, winning_ignore. rewrite Ei. cbn.
  now rewrite (compile_all_first_failure good bad rest rxs e Eg Eb).
Qed.

(** ** LOADED_CONFIG and load_config *)

Lemma dict_get_app {V} key (d1 d2 : list (string * V)) :
  dict_get key (d1 ++ d2)
  = match dict_get key d1 with Some v => Some v | None => dict_get key d2 end.
Proof.
  induction d1 as [| [k v] d1 IH]; [reflexivity |]. cbn.
  now destruct (String.eqb k key).
Qed.

Lemma dict_get_None {V} key (d : list (string * V)) :
  dict_get key d = None <-> ~ In key (dict_keys d).
Proof.
  induction d as [| [k v] d IH]; cbn; [tauto |].
  destruct (String.eqb_spec k key) as [-> | Hne].
  - split; [discriminate | intros Hn; exfalso; apply Hn; now left].
  - rewrite IH. tauto.
Qed.

Lemma dict_set_fresh {V} key (v : V) (d : list (string * V)) :
  ~ In key (dict_keys d) -> dict_set key v d = (d ++ [(key, v)])%list.
Proof.
  induction d as [| [k x] d IH]; cbn; [reflexivity |]. intros Hn.
  destruct (String.eqb_spec k key) as [-> | Hne]; [exfalso; apply Hn; now left |].
  rewrite IH; [reflexivity | tauto].
Qed.

(** What the comprehension builds when every override can be processed. *)
Lemma process_entries_ok entries :
  forall acc loaded,
    NoDup (dict_keys acc ++ dict_keys entries) ->
    process_entries entries acc = Return loaded ->
    exists processed,
      loaded = (acc ++ processed)%list /\
      dict_keys processed = dict_keys entries /\
      forall key, dict_get key processed
                  = match dict_get key entries with
                    | Some val =>
                        match process_config val with
                        | Return c => Some c
                        | _ => None
                        end
                    | None => None
                    end.
Proof.
  induction entries as [| [n val] rest IH]; intros acc loaded Hnd E.
  - injection E as <-. exists []. rewrite app_nil_r. auto.
  - cbn [process_entries] in E.
    destruct (process_config val) as [c | e |] eqn:Ec; try discriminate.
    cbn [outcome_bind] in E.
    assert (Hfresh : ~ In n (dict_keys acc)).
    { cbn in Hnd. apply NoDup_app in Hnd as (_ & Hdis & _).
      intros Hin. apply (Hdis n); [now apply list_elem_of_In | left]. }
    rewrite (dict_set_fresh n c acc Hfresh) in E.
    destruct (IH (acc ++ [(n, c)])%list loaded) as (processed & -> & Hk & Hg).
    { unfold dict_keys in *. rewrite map_app. cbn. rewrite <- app_assoc. exact Hnd. }
    { exact E. }
    exists ((n, c) :: processed). rewrite <- app_assoc. split; [reflexivity |].
    split; [unfold dict_keys in *; cbn; now rewrite Hk |].
    intros key. cbn. destruct (String.eqb_spec n key) as [-> | Hne].
    + now rewrite Ec.
    + apply Hg.
Qed.

(** X16: when [settings.WEBPACK_LOADER] names its configurations once each
    and LOADED_CONFIG can be built, it holds the configurations in the order
    of the setting, load_config returns for each name of the setting what
    process_config makes of its override, and raises [KeyError] for every
    other name. *)
Theorem load_config_lookup (entries loaded : list (string * gmap string pyval))
    (name : string) :
  NoDup (dict_keys entries) ->
  LOADED_CONFIG (Some entries) = Return loaded ->
  dict_keys (get_all_configs loaded) = dict_keys entries /\
  load_config loaded name
  = match dict_get name entries with
    | Some val => process_config val
    | None => Raise (KeyError name)
    end.
Proof.
  intros Hnd E. unfold LOADED_CONFIG in E. cbn [default] in E.
  destruct (process_entries_ok entries [] loaded Hnd E) as (processed & -> & Hk & Hg).
  cbn [app]. split; [exact Hk |]. unfold load_config. rewrite Hg.
  destruct (dict_get name entries) as [val |] eqn:En; [| reflexivity].
  destruct (process_config val) as [c | e |] eqn:Ec; [reflexivity | exfalso..].
  - (* every override of the setting was processed *)
    assert (Hin : In name (dict_keys processed)).
    { rewrite Hk. destruct (In_dec string_dec name (dict_keys entries)) as [Hi | Hn]; [exact Hi |].
      apply dict_get_None in Hn. congruence. }
    assert (Hsome : dict_get name processed <> None).
    { intros Hnone. apply dict_get_None in Hnone. contradiction. }
    apply Hsome. rewrite Hg, En, Ec. reflexivity.
  - assert (Hin : In name (dict_keys processed)).
    { rewrite Hk. destruct (In_dec string_dec name (dict_keys entries)) as [Hi | Hn]; [exact Hi |].
      apply dict_get_None in Hn. congruence. }
    assert (Hsome : dict_get name processed <> None).
    { intros Hnone. apply dict_get_None in Hnone. contradiction. }
    apply Hsome. rewrite Hg, En, Ec. reflexivity.
Qed.

Lemma process_entries_first_failure before :
  forall acc name bad after e,
    Forall (fun entry => ends (process_config (snd entry)) = true /\
                         forall e', process_config (snd entry) <> Raise e') before ->
    process_config bad = Raise e ->
    process_entries (before ++ (name, bad) :: after)%list acc = Raise e.
Proof.
  induction before as [| [n val] before IH]; intros acc name bad after e Hok Eb;
    cbn [app process_entries].
  - now rewrite Eb.
  - inversion Hok as [| ? ? [Hends Hnr] Hrest]; subst. cbn [snd] in *.
    destruct (process_config val) as [c | e' |]; [| now destruct (Hnr e') | discriminate].
    cbn [outcome_bind]. now apply IH.
Qed.

(** X17: one override that cannot be processed takes every configuration
    with it: if the overrides before it are fine and process_config raises
    on it, building LOADED_CONFIG raises the same exception, and no
    configuration, however valid, can be loaded. *)
Theorem LOADED_CONFIG_first_failure
    (before after : list (string * gmap string pyval)) (name : string)
    (bad : gmap string pyval) (e : exn) :
  Forall (fun entry => exists c, process_config (snd entry) = Return c) before ->
  process_config bad = Raise e ->
  LOADED_CONFIG (Some (before ++ (name, bad) :: after)%list) = Raise e.
Proof.
  intros Hok Eb. unfold LOADED_CONFIG. cbn [default].
  apply process_entries_first_failure; [| exact Eb].
  eapply Forall_impl; [exact Hok |]. intros entry [c Ec]. rewrite Ec.
  split; [reflexivity | discriminate].
Qed.

(** X18: without a [WEBPACK_LOADER] setting there is one configuration,
    [DEFAULT], holding the defaults and the compiled default ignore
    patterns; an empty [WEBPACK_LOADER] gives no configuration at all, so
    that even [DEFAULT] cannot be loaded. *)
Theorem LOADED_CONFIG_fallback (rxs : list Pattern) :
  compile_all DEFAULT_IGNORE = Return rxs ->
  LOADED_CONFIG None
  = Return [("DEFAULT", <["ignores" := PyPatterns rxs]> DEFAULT_CONFIG)] /\
  LOADED_CONFIG (Some []) = Return [] /\
  load_config ([] : list (string * gmap string pyval)) "DEFAULT"
  = Raise (KeyError "DEFAULT").
Proof.
  intros Ec. split; [| split; reflexivity].
  unfold LOADED_CONFIG. cbn [default process_entries]. unfold process_config, winning_ignore.
  rewrite lookup_empty.
  change (compile_ignores (default (PyList DEFAULT_IGNORE) None))
    with (compile_all DEFAULT_IGNORE).
  rewrite Ec. cbn [outcome_bind dict_set].
  now rewrite (left_id_L ∅ (∪)).
Qed.

End ConfigFacts.

(** * The callers of the loader *)

Example ends_with_examples :
  ends_with ".js" "main.js" = true /\ ends_with ".js" "main.js.gz" = false /\
  ends_with ".js.gz" "main.js.gz" = true /\ ends_with ".css" "js" = false /\
  ends_with EmptyString "a" = true /\ ends_with "a.js" "a.js" = true.
Proof. repeat split. Qed.

Section CallerFacts.
Context {H : Host} {D : Django}.

(** ** The generator and its consumer *)

Lemma iter_chunks_yields_urls depth self chunk_names :
  forall w yielded w',
    iter_chunks depth self chunk_names w = (Return yielded, w') ->
    Forall (fun chunk => is_Some (a_url chunk)) yielded.
Proof.
  induction chunk_names as [| chunk_name rest IH]; intros w yielded w' E.
  - injection E as <- _. constructor.
  - cbn [iter_chunks] in E. unfold bind at 1 in E.
    destruct (get_chunk_from_name depth self chunk_name w) as [[c | e |] w1];
      try discriminate.
    unfold bind at 1 in E.
    match type of E with context [match ?step w1 with _ => _ end] =>
      destruct (step w1) as [[c' | e |] w2] end; try discriminate.
    unfold bind in E.
    destruct (iter_chunks depth self rest w2) as [[l | e |] w3] eqn:Er; try discriminate.
    injection E as <- _. specialize (IH _ _ _ Er).
    destruct (bool_decide (is_Some (a_url c'))) eqn:Eu; [| exact IH].
    constructor; [now apply bool_decide_eq_true in Eu | exact IH].
Qed.

(** Draining the generator gives what the consumer makes of the list the
    eager loop returns; when the consumer raises on a chunk, that is where
    the iteration ends. *)
Lemma iter_chunks_into_drain {B} (consume : WebpackBundleAsset -> outcome (option B))
    depth self chunk_names :
  forall w yielded w',
    iter_chunks depth self chunk_names w = (Return yielded, w') ->
    match drain consume yielded with
    | Return items =>
        iter_chunks_into consume depth self chunk_names w = (Return (Drained items), w')
    | Raise e =>
        fst (iter_chunks_into consume depth self chunk_names w) = Return (Broken e)
    | Unfinished =>
        fst (iter_chunks_into consume depth self chunk_names w) = Unfinished
    end.
Proof.
  induction chunk_names as [| chunk_name rest IH]; intros w yielded w' E.
  - injection E as <- <-. reflexivity.
  - cbn [iter_chunks] in E.
    destruct (get_chunk_from_name depth self chunk_name w) as [[c | e |] w1] eqn:Eg;
      [| rewrite (bind_Raise _ _ _ _ _ Eg) in E; discriminate
       | unfold bind at 1 in E; rewrite Eg in E; discriminate].
    rewrite (bind_Return _ _ _ _ _ Eg) in E.
    match type of E with bind ?step _ w1 = _ =>
      destruct (step w1) as [[c' | e |] w2] eqn:Es end;
      [| rewrite (bind_Raise _ _ _ _ _ Es) in E; discriminate
       | unfold bind at 1 in E; rewrite Es in E; discriminate].
    rewrite (bind_Return _ _ _ _ _ Es) in E.
    unfold bind in E.
    destruct (iter_chunks depth self rest w2) as [[l | e |] w3] eqn:Er; try discriminate.
    injection E as <- <-. specialize (IH _ _ _ Er).
    assert (Hstep : iter_chunks_into consume depth self (chunk_name :: rest) w
      = (if bool_decide (is_Some (a_url c')) then
           match consume c' with
           | Return item =>
               later <- iter_chunks_into consume depth self rest ;;
               ret (match later with
                    | Drained items =>
                        Drained (match item with Some b => b :: items | None => items end)
                    | Broken e => Broken e
                    end)
           | Raise e => ret (Broken e)
           | Unfinished => unfinished
           end
         else iter_chunks_into consume depth self rest) w2).
    { cbn [iter_chunks_into]. rewrite (bind_Return _ _ _ _ _ Eg).
      now rewrite (bind_Return _ _ _ _ _ Es). }
    rewrite Hstep. clear Hstep.
    destruct (bool_decide (is_Some (a_url c'))); [| exact IH].
    cbn [drain]. destruct (consume c') as [item | e |]; cbn [outcome_bind];
      [| reflexivity | reflexivity].
    unfold bind.
    destruct (drain consume l) as [items | e |]; cbn [outcome_bind].
    + now rewrite IH.
    + destruct (iter_chunks_into consume depth self rest w2) as [[d | e' |] w4];
        cbn in IH |- *; try discriminate. now injection IH as ->.
    + destruct (iter_chunks_into consume depth self rest w2) as [[d | e' |] w4];
        cbn in IH |- *; try discriminate. reflexivity.
Qed.

Lemma get_bundle_into_after_fetch {B} (consume : WebpackBundleAsset -> outcome (option B))
    depth iters self bundle_name w m w1 :
  get_assets (S depth) self true false w = (Return m, w1) ->
  get_bundle_into consume (S depth) iters self bundle_name w
  = (produced <-
       except_KeyError
         (match m_chunks m ≫= (.!! bundle_name) with
          | Some chunk_names => iter_chunks_into consume (S depth) self chunk_names
          | None => raise (KeyError bundle_name)
          end)
         (raise (lookup_error_bundle bundle_name)) ;;
     match produced with
     | Drained items => ret items
     | Broken e => raise e
     end) w1.
Proof.
  intros E. pose proof (get_assets_compiled_done _ _ _ _ _ _ E) as Ed.
  unfold get_bundle_into. rewrite (bind_Return _ _ _ _ _ E).
  erewrite bind_Return; [now rewrite Ed |].
  destruct (TIMEOUT (config self)) as [timeout |]; [| reflexivity].
  erewrite bind_Return by reflexivity.
  erewrite bind_Return by (apply poll_done; exact Ed). reflexivity.
Qed.

Lemma get_bundle_into_drain {B} (consume : WebpackBundleAsset -> outcome (option B))
    depth iters self bundle_name w yielded w' :
  get_bundle depth iters self bundle_name w = (Return yielded, w') ->
  Forall (fun chunk => is_Some (a_url chunk)) yielded /\
  match drain consume yielded with
  | Return items =>
      get_bundle_into consume depth iters self bundle_name w = (Return items, w')
  | Raise e => fst (get_bundle_into consume depth iters self bundle_name w) = Raise e
  | Unfinished => fst (get_bundle_into consume depth iters self bundle_name w) = Unfinished
  end.
Proof.
  intros E.
  destruct (get_assets depth self true false w) as [[m | e |] w1] eqn:Eg.
  2:{ unfold get_bundle in E. rewrite (bind_Raise _ _ _ _ _ Eg) in E. discriminate. }
  2:{ unfold get_bundle, bind in E. rewrite Eg in E. discriminate. }
  destruct depth as [| d]; [discriminate |].
  rewrite (get_bundle_after_fetch _ _ _ _ _ _ _ Eg) in E.
  rewrite (get_bundle_into_after_fetch consume _ _ _ _ _ _ _ Eg).
  unfold except_KeyError in E. unfold except_KeyError, bind.
  destruct (m_chunks m ≫= _) as [chunk_names |]; [| discriminate].
  destruct (iter_chunks (S d) self chunk_names w1) as [[l | e |] w2] eqn:Ei;
    [| destruct e; discriminate | discriminate].
  injection E as <- <-. split; [apply (iter_chunks_yields_urls _ _ _ _ _ _ Ei) |].
  pose proof (iter_chunks_into_drain consume _ _ _ _ _ _ Ei) as Hd.
  destruct (drain consume l) as [items | e |].
  - now rewrite Hd.
  - destruct (iter_chunks_into consume (S d) self chunk_names w1) as [[p | e' |] w3];
      cbn in Hd |- *; try discriminate. now injection Hd as ->.
  - destruct (iter_chunks_into consume (S d) self chunk_names w1) as [[p | e' |] w3];
      cbn in Hd |- *; try discriminate. reflexivity.
Qed.

(** When get_assets fails, no chunk reaches the consumer. *)
Lemma get_bundle_into_fetch_fails {B} (consume : WebpackBundleAsset -> outcome (option B))
    depth iters self bundle_name w e :
  fst (get_assets depth self true false w) = Raise e ->
  fst (get_bundle_into consume depth iters self bundle_name w) = Raise e.
Proof.
  intros E. unfold get_bundle_into. unfold bind at 1.
  destruct (get_assets depth self true false w) as [[m | e' |] w1]; cbn in E;
    try discriminate. now injection E as ->.
Qed.

Lemma drain_first_failure {B} (consume : WebpackBundleAsset -> outcome (option B))
    before chunk after e :
  Forall (fun c => exists item, consume c = Return item) before ->
  consume chunk = Raise e ->
  drain consume (before ++ chunk :: after)%list = Raise e.
Proof.
  intros Hb Ec. induction Hb as [| c l (item & Ei) _ IH]; cbn [drain app].
  - now rewrite Ec.
  - now rewrite Ei, IH.
Qed.

(** ** The extension filter and the tags *)

Lemma _get_bundle_run {B} (body : WebpackBundleAsset -> outcome (option B))
    depth iters loaded bundle_name extension config p self p1 :
  get_loader loaded config p = (Answer self, p1) ->
  _get_bundle body depth iters loaded bundle_name extension config p
  = run (get_bundle_into (filtered extension body) depth iters self bundle_name) p1.
Proof. intros E. unfold _get_bundle, ubind. now rewrite E. Qed.

Lemma keep_extension_named extension chunk :
  extension = None \/ is_Some (a_name chunk) ->
  keep_extension extension chunk = Return (has_extension extension chunk).
Proof.
  unfold keep_extension, has_extension. destruct extension as [ext |]; [| reflexivity].
  intros [[=] | [n ->]]. reflexivity.
Qed.

Lemma drain_get_files extension chunks :
  extension = None \/ Forall (fun c => is_Some (a_name c)) chunks ->
  drain (filtered extension (fun chunk => Return (Some chunk))) chunks
  = Return (List.filter (has_extension extension) chunks).
Proof.
  intros Hn. induction chunks as [| c l IH]; [reflexivity |].
  cbn [drain List.filter]. unfold filtered at 1.
  rewrite keep_extension_named, IH.
  - now destruct (has_extension extension c).
  - destruct Hn as [-> | Hn]; [now left | right; now inversion Hn].
  - destruct Hn as [-> | Hn]; [now left | right; now inversion Hn].
Qed.

Lemma tag_of_named attrs chunk :
  is_Some (a_name chunk) -> is_Some (a_url chunk) ->
  tag_of attrs chunk = Return (tag_for attrs chunk).
Proof.
  intros [n En] [u Eu]. unfold tag_of, tag_for. rewrite En, Eu.
  now destruct (is_script n), (is_style n).
Qed.

Lemma drain_get_as_tags extension attrs chunks :
  Forall (fun c => is_Some (a_name c)) chunks ->
  Forall (fun c => is_Some (a_url c)) chunks ->
  drain (filtered extension (tag_of attrs)) chunks
  = Return (omap (tag_for attrs) (List.filter (has_extension extension) chunks)).
Proof.
  intros Hn Hu. induction Hn as [| c l Hc _ IH]; [reflexivity |].
  inversion Hu as [| ? ? Huc Hul]; subst.
  cbn [drain List.filter]. unfold filtered at 1.
  rewrite keep_extension_named, IH by auto. cbn [outcome_bind].
  destruct (has_extension extension c); cbn [outcome_bind]; [| reflexivity].
  rewrite tag_of_named by auto. cbn [outcome_bind].
  change (omap (tag_for attrs) (c :: List.filter (has_extension extension) l))
    with (match tag_for attrs c with
          | Some b => b :: omap (tag_for attrs) (List.filter (has_extension extension) l)
          | None => omap (tag_for attrs) (List.filter (has_extension extension) l)
          end).
  reflexivity.
Qed.

Lemma filter_all {A} (l : list A) : List.filter (fun _ => true) l = l.
Proof. induction l as [| a l IH]; cbn; congruence. Qed.

(** X19 (utils.py, get_loader): the first call for a configuration that
    exists and whose class imports builds the loader from the configuration
    and stores it in LOADERS under the configuration's name; from then on
    get_loader returns the stored loader and changes nothing, whatever the
    configurations have become, and the loaders of other names are kept. *)
Theorem get_loader_memoizes loaded config_name cfg p :
  LOADERS p !! config_name = None ->
  dict_get config_name loaded = Some cfg ->
  import_string (LOADER_CLASS cfg) = Imported ->
  let loader := mkLoader config_name cfg in
  let p1 := mkProcess (<[config_name := loader]> (LOADERS p)) (world p) in
  get_loader loaded config_name p = (Answer loader, p1) /\
  (forall loaded' w,
     get_loader loaded' config_name (mkProcess (LOADERS p1) w)
     = (Answer loader, mkProcess (LOADERS p1) w)) /\
  (forall other, other <> config_name -> LOADERS p1 !! other = LOADERS p !! other).
Proof.
  intros Hnew Hcfg Himp loader p1. repeat split.
  - unfold get_loader, load_config. now rewrite Hnew, Hcfg, Himp.
  - intros loaded' w. unfold get_loader. cbn [LOADERS p1].
    now rewrite lookup_insert_eq.
  - intros other Ho. cbn [LOADERS p1]. now rewrite lookup_insert_ne.
Qed.

(** X20 (utils.py and the template tags): for a configuration name that has
    no loader yet and is not among the configurations, get_loader raises
    KeyError with that name, and so do get_files, get_as_tags, get_static,
    render_bundle and webpack_static; nothing is read and LOADERS is left as
    it was. *)
Theorem callers_unknown_config depth iters loaded bundle_name extension config attrs p :
  LOADERS p !! config = None ->
  dict_get config loaded = None ->
  get_loader loaded config p = (Raised (Thrown (KeyError config)), p) /\
  get_files depth iters loaded bundle_name extension config p
  = (Raised (Thrown (KeyError config)), p) /\
  get_as_tags depth iters loaded bundle_name extension config attrs p
  = (Raised (Thrown (KeyError config)), p) /\
  get_static depth loaded bundle_name config p
  = (Raised (Thrown (KeyError config)), p) /\
  render_bundle depth iters loaded bundle_name extension config attrs p
  = (Raised (Thrown (KeyError config)), p) /\
  webpack_static depth loaded bundle_name config p
  = (Raised (Thrown (KeyError config)), p).
Proof.
  intros Hnew Hcfg.
  assert (E : get_loader loaded config p = (Raised (Thrown (KeyError config)), p)).
  { unfold get_loader, load_config. now rewrite Hnew, Hcfg. }
  unfold webpack_static, render_bundle, get_static, get_as_tags, get_files,
    _get_bundle, ubind.
  now rewrite E.
Qed.

(** X21 (utils.py, _get_bundle and get_files): when get_bundle of the
    configuration's loader yields [chunks], get_files without an extension
    returns exactly these chunks; with an extension, and every chunk having
    a name, it returns, in order, the chunks whose name ends with a dot and
    the extension. *)
Theorem get_files_filters depth iters loaded bundle_name extension config
    p self p1 chunks w' :
  get_loader loaded config p = (Answer self, p1) ->
  get_bundle depth iters self bundle_name (world p1) = (Return chunks, w') ->
  extension = None \/ Forall (fun c => is_Some (a_name c)) chunks ->
  get_files depth iters loaded bundle_name extension config p
  = (Answer (List.filter (has_extension extension) chunks), mkProcess (LOADERS p1) w') /\
  (extension = None -> List.filter (has_extension extension) chunks = chunks).
Proof.
  intros El Eb Hn. split.
  - unfold get_files. rewrite (_get_bundle_run _ _ _ _ _ _ _ _ _ _ El).
    destruct (get_bundle_into_drain
                (filtered extension (fun chunk => Return (Some chunk))) _ _ _ _ _ _ _ Eb)
      as [_ Hd].
    rewrite drain_get_files in Hd by exact Hn.
    unfold run. now rewrite Hd.
  - intros ->. apply filter_all.
Qed.

(** X22 (utils.py, _get_bundle, get_files and get_as_tags): a chunk that
    get_bundle yields without the key 'name' makes get_files with an
    extension, and get_as_tags with or without one, raise KeyError 'name'
    when the iteration reaches it; the handler of get_bundle does not turn
    it into a lookup error. *)
Theorem callers_nameless_chunk depth iters loaded bundle_name config attrs
    p self p1 before chunk after w' :
  get_loader loaded config p = (Answer self, p1) ->
  get_bundle depth iters self bundle_name (world p1)
  = (Return (before ++ chunk :: after)%list, w') ->
  Forall (fun c => is_Some (a_name c)) before ->
  a_name chunk = None ->
  (forall ext,
     fst (get_files depth iters loaded bundle_name (Some ext) config p)
     = Raised (Thrown (KeyError "name"))) /\
  (forall extension,
     fst (get_as_tags depth iters loaded bundle_name extension config attrs p)
     = Raised (Thrown (KeyError "name"))).
Proof.
  intros El Eb Hn Ec.
  assert (Hraise : forall {B} (consume : WebpackBundleAsset -> outcome (option B)),
    drain consume (before ++ chunk :: after)%list = Raise (KeyError "name") ->
    fst (run (get_bundle_into consume depth iters self bundle_name) p1)
    = Raised (Thrown (KeyError "name"))).
  { intros B consume Ed.
    destruct (get_bundle_into_drain consume _ _ _ _ _ _ _ Eb) as [_ Hd].
    rewrite Ed in Hd. unfold run.
    destruct (get_bundle_into consume depth iters self bundle_name (world p1))
      as [[l | e |] w2]; cbn in Hd |- *; try discriminate. now injection Hd as ->. }
  destruct (get_bundle_into_drain (fun c => Return (Some c)) _ _ _ _ _ _ _ Eb)
    as [Hu _].
  apply Forall_app in Hu as [Hub _].
  split.
  - intros ext. unfold get_files. rewrite (_get_bundle_run _ _ _ _ _ _ _ _ _ _ El).
    apply Hraise, drain_first_failure.
    + eapply Forall_impl; [exact Hn |]. intros c Hc. unfold filtered.
      rewrite keep_extension_named by auto. cbn [outcome_bind].
      destruct (has_extension (Some ext) c); eauto.
    + unfold filtered, keep_extension. now rewrite Ec.
  - intros extension. unfold get_as_tags.
    rewrite (_get_bundle_run _ _ _ _ _ _ _ _ _ _ El).
    apply Hraise, drain_first_failure.
    + rewrite Forall_forall in Hn, Hub |- *. intros c Hc. unfold filtered.
      rewrite keep_extension_named by auto. cbn [outcome_bind].
      destruct (has_extension extension c); [| eauto].
      rewrite tag_of_named by auto. eauto.
    + unfold filtered, keep_extension, tag_of. rewrite Ec.
      now destruct extension.
Qed.

Lemma get_as_tags_drained depth iters loaded bundle_name extension config attrs
    p self p1 chunks w' :
  get_loader loaded config p = (Answer self, p1) ->
  get_bundle depth iters self bundle_name (world p1) = (Return chunks, w') ->
  Forall (fun c => is_Some (a_name c)) chunks ->
  Forall (fun c => is_Some (a_url c)) chunks /\
  get_as_tags depth iters loaded bundle_name extension config attrs p
  = (Answer (omap (tag_for attrs) (List.filter (has_extension extension) chunks)),
     mkProcess (LOADERS p1) w').
Proof.
  intros El Eb Hn.
  unfold get_as_tags. rewrite (_get_bundle_run _ _ _ _ _ _ _ _ _ _ El).
  destruct (get_bundle_into_drain (filtered extension (tag_of attrs))
              _ _ _ _ _ _ _ Eb) as [Hu Hd].
  split; [exact Hu |].
  rewrite drain_get_as_tags in Hd by auto.
  unfold run. now rewrite Hd.
Qed.

Lemma css_is_not_script n : ends_with ".css" n = true -> is_script n = false.
Proof.
  unfold is_script, ends_with.
  change (String.rev ".css") with "ssc.".
  change (String.rev ".js") with "sj.".
  change (String.rev ".js.gz") with "zg.sj.".
  destruct (String.rev n) as [| a [| b r]]; cbn [String.prefix]; try discriminate.
  - destruct (ascii_dec "s" a); [discriminate |]. now destruct (ascii_dec "z" a).
  - destruct (ascii_dec "s" a) as [<- |].
    + destruct (ascii_dec "z" "s"); [discriminate |].
      destruct (ascii_dec "s" b) as [<- |]; [| discriminate].
      now destruct (ascii_dec "j" "s").
    + discriminate.
Qed.

Lemma tags_of_extension attrs chunks :
  Forall (fun c => is_Some (a_url c)) chunks ->
  omap (tag_for attrs) (List.filter (has_extension (Some "js")) chunks)
  = map (fun c => script_tag (default EmptyString (a_url c)) attrs)
      (List.filter (has_extension (Some "js")) chunks) /\
  omap (tag_for attrs) (List.filter (has_extension (Some "css")) chunks)
  = map (fun c => link_tag (default EmptyString (a_url c)) attrs)
      (List.filter (has_extension (Some "css")) chunks).
Proof.
  induction 1 as [| c l [u Eu] _ [IHjs IHcss]]; [split; reflexivity |].
  split; cbn [List.filter].
  - destruct (has_extension (Some "js") c) eqn:Ek; [| exact IHjs].
    unfold has_extension in Ek. destruct (a_name c) as [n |] eqn:En; [| discriminate].
    change ("." +:+ "js") with ".js" in Ek.
    change (omap (tag_for attrs) (c :: List.filter (has_extension (Some "js")) l))
      with (match tag_for attrs c with
            | Some b => b :: omap (tag_for attrs) (List.filter (has_extension (Some "js")) l)
            | None => omap (tag_for attrs) (List.filter (has_extension (Some "js")) l)
            end).
    assert (Et : tag_for attrs c = Some (script_tag u attrs)).
    { unfold tag_for, is_script. now rewrite En, Eu, Ek. }
    rewrite Et, IHjs. cbn [map]. now rewrite Eu.
  - destruct (has_extension (Some "css") c) eqn:Ek; [| exact IHcss].
    unfold has_extension in Ek. destruct (a_name c) as [n |] eqn:En; [| discriminate].
    change ("." +:+ "css") with ".css" in Ek.
    change (omap (tag_for attrs) (c :: List.filter (has_extension (Some "css")) l))
      with (match tag_for attrs c with
            | Some b => b :: omap (tag_for attrs) (List.filter (has_extension (Some "css")) l)
            | None => omap (tag_for attrs) (List.filter (has_extension (Some "css")) l)
            end).
    assert (Et : tag_for attrs c = Some (link_tag u attrs)).
    { unfold tag_for. rewrite En, Eu, (css_is_not_script n Ek).
      unfold is_style. now rewrite Ek. }
    rewrite Et, IHcss. cbn [map]. now rewrite Eu.
Qed.

Lemma get_assets_unchanged depth self m w :
  Unchanged self m w -> is_done (status m) = true ->
  exists w1, get_assets (S depth) self true false w = (Return m, w1).
Proof.
  intros [Hd Hc] Ed. destruct (CACHE (config self)) eqn:Ec.
  - destruct (Hc eq_refl) as (cache & Ea & [Emiss | Ehit]).
    + assert (Ef : fetch_assets self false w
                   = (Return m, set_class_assets (Some (<[name self := m]> cache))
                                  (count_read w))).
      { unfold fetch_assets. rewrite Ec.
        rewrite (bind_Return _ _ w cache w)
          by (unfold global_cache; now rewrite Ea).
        rewrite Emiss.
        unfold bind, load_assets, cache_store, cache_fetch.
        cbn [negb orb bool_decide]. cbn beta iota.
        change (negb (bool_decide (is_Some (@None WebpackBundleContents))) || false)
          with true. cbv beta iota.
        rewrite (Hd (nreads w)) by lia. cbn. rewrite Ea. cbn.
        now rewrite lookup_insert_eq. }
      eexists. cbn [get_assets]. rewrite (bind_Return _ _ _ _ _ Ef).
      now rewrite Ed.
    + exists w. apply (get_assets_hit _ _ _ _ cache); auto.
  - exists (count_read w). apply get_assets_uncached; auto.
Qed.

(** X23 (utils.py, get_as_tags; templatetags, render_bundle): when
    get_bundle yields [chunks], all with a name, get_as_tags produces, in
    the order of the chunks that pass the extension filter, a script tag for
    a name ending in .js or .js.gz, a link tag for a name ending in .css or
    .css.gz, and nothing for any other chunk; render_bundle is these tags
    joined by the escaped newline. *)
Theorem get_as_tags_render depth iters loaded bundle_name extension config attrs
    p self p1 chunks w' :
  get_loader loaded config p = (Answer self, p1) ->
  get_bundle depth iters self bundle_name (world p1) = (Return chunks, w') ->
  Forall (fun c => is_Some (a_name c)) chunks ->
  let tags := omap (tag_for attrs) (List.filter (has_extension extension) chunks) in
  let p' := mkProcess (LOADERS p1) w' in
  get_as_tags depth iters loaded bundle_name extension config attrs p = (Answer tags, p') /\
  render_bundle depth iters loaded bundle_name extension config attrs p
  = (Answer (join (escape (String (ascii_of_nat 10) EmptyString)) tags), p').
Proof.
  intros El Eb Hn tags p'.
  destruct (get_as_tags_drained depth iters loaded bundle_name extension config attrs
              _ _ _ _ _ El Eb Hn) as [_ E].
  split; [exact E |]. unfold render_bundle, ubind. now rewrite E.
Qed.

(** X24 (utils.py, get_as_tags): with the extension 'js' every chunk that
    passes the filter gets a script tag, and with 'css' every one gets a
    link tag: one tag for each chunk whose name ends with the extension, in
    order, carrying the chunk's URL. *)
Theorem get_as_tags_by_extension depth iters loaded bundle_name config attrs
    p self p1 chunks w' :
  get_loader loaded config p = (Answer self, p1) ->
  get_bundle depth iters self bundle_name (world p1) = (Return chunks, w') ->
  Forall (fun c => is_Some (a_name c)) chunks ->
  get_as_tags depth iters loaded bundle_name (Some "js") config attrs p
  = (Answer (map (fun c => script_tag (default EmptyString (a_url c)) attrs)
               (List.filter (has_extension (Some "js")) chunks)),
     mkProcess (LOADERS p1) w') /\
  get_as_tags depth iters loaded bundle_name (Some "css") config attrs p
  = (Answer (map (fun c => link_tag (default EmptyString (a_url c)) attrs)
               (List.filter (has_extension (Some "css")) chunks)),
     mkProcess (LOADERS p1) w').
Proof.
  intros El Eb Hn.
  destruct (get_as_tags_drained depth iters loaded bundle_name (Some "js") config attrs
              _ _ _ _ _ El Eb Hn) as [Hu Ejs].
  destruct (get_as_tags_drained depth iters loaded bundle_name (Some "css") config attrs
              _ _ _ _ _ El Eb Hn) as [_ Ecss].
  destruct (tags_of_extension attrs chunks Hu) as [Tjs Tcss].
  rewrite Ejs, Ecss, Tjs, Tcss. auto.
Qed.

(** X25 (utils.py, get_static; templatetags, webpack_static): when the
    stats file holds a manifest with status done, get_static returns the
    asset name prefixed by the manifest's publicPath, or by
    settings.STATIC_URL when the manifest has none, and webpack_static
    returns that string escaped. *)
Theorem get_static_prefix depth loaded asset_name config p self p1 m :
  get_loader loaded config p = (Answer self, p1) ->
  Unchanged self m (world p1) -> is_done (status m) = true ->
  let url := default STATIC_URL (m_publicPath m) +:+ asset_name in
  fst (get_static (S depth) loaded asset_name config p) = Answer url /\
  fst (webpack_static (S depth) loaded asset_name config p) = Answer (escape url).
Proof.
  intros El Hu Ed url.
  destruct (get_assets_unchanged depth self m _ Hu Ed) as (w1 & Eg).
  assert (E : get_static (S depth) loaded asset_name config p
              = (Answer url, mkProcess (LOADERS p1) w1)).
  { unfold get_static, ubind. rewrite El. unfold run. now rewrite Eg. }
  split; [now rewrite E |]. unfold webpack_static, ubind. now rewrite E.
Qed.

(** X26 (utils.py and the template tags): while the stats file holds a
    manifest whose status is not done, get_files, get_as_tags,
    render_bundle, get_static and webpack_static all end in RecursionError,
    whatever the status, the extension and the TIMEOUT are. *)
Theorem callers_not_compiled depth iters loaded bundle_name extension config attrs
    p self p1 m :
  get_loader loaded config p = (Answer self, p1) ->
  Serves self m (world p1) -> is_done (status m) = false ->
  fst (get_files depth iters loaded bundle_name extension config p)
  = Raised (Thrown RecursionError) /\
  fst (get_as_tags depth iters loaded bundle_name extension config attrs p)
  = Raised (Thrown RecursionError) /\
  fst (render_bundle depth iters loaded bundle_name extension config attrs p)
  = Raised (Thrown RecursionError) /\
  fst (get_static depth loaded bundle_name config p)
  = Raised (Thrown RecursionError) /\
  fst (webpack_static depth loaded bundle_name config p)
  = Raised (Thrown RecursionError).
Proof.
  intros El Hs Ed.
  destruct (get_assets_raise_error_stuck self m depth Ed _ Hs) as [Eg _].
  specialize (Eg false).
  assert (Hrun : forall {B} (consume : WebpackBundleAsset -> outcome (option B)),
    fst (run (get_bundle_into consume depth iters self bundle_name) p1)
    = Raised (Thrown RecursionError)).
  { intros B consume.
    pose proof (get_bundle_into_fetch_fails consume depth iters self bundle_name
                  _ _ Eg) as Ei.
    unfold run.
    destruct (get_bundle_into consume depth iters self bundle_name (world p1))
      as [[l | e |] w2]; cbn in Ei |- *; try discriminate. now injection Ei as ->. }
  assert (Etags : fst (get_as_tags depth iters loaded bundle_name extension config attrs p)
                  = Raised (Thrown RecursionError)).
  { unfold get_as_tags. rewrite (_get_bundle_run _ _ _ _ _ _ _ _ _ _ El). apply Hrun. }
  assert (Estatic : fst (get_static depth loaded bundle_name config p)
                    = Raised (Thrown RecursionError)).
  { unfold get_static, ubind. rewrite El. unfold run.
    destruct (get_assets depth self true false (world p1)) as [[a | e |] w2];
      cbn in Eg |- *; try discriminate. now injection Eg as ->. }
  repeat split.
  - unfold get_files. rewrite (_get_bundle_run _ _ _ _ _ _ _ _ _ _ El). apply Hrun.
  - exact Etags.
  - unfold render_bundle, ubind.
    destruct (get_as_tags depth iters loaded bundle_name extension config attrs p)
      as [[tags | t |] p2]; cbn in Etags |- *; try discriminate.
    now injection Etags as ->.
  - exact Estatic.
  - unfold webpack_static, ubind.
    destruct (get_static depth loaded bundle_name config p)
      as [[url | t |] p2]; cbn in Estatic |- *; try discriminate.
    now injection Estatic as ->.
Qed.

End CallerFacts.

(** * The system check *)

Section CheckFacts.
Context {H : Host} {D : Django}.

Lemma importable_no_raise entry : importable_or_not entry -> import_raises entry = None.
Proof.
  intros (path & Ep & Hi). unfold import_raises. rewrite Ep.
  now destruct (import_string path).
Qed.

Lemma check_loaders_ok configs :
  forall errors,
    Forall importable_or_not configs ->
    check_loaders configs errors = ((errors ++ omap import_failure configs)%list, None).
Proof.
  induction configs as [| [n config] rest IH]; intros errors Hok; cbn [check_loaders].
  - change (omap import_failure []) with (@nil CheckMessage). now rewrite app_nil_r.
  - inversion Hok as [| ? ? (path & Ep & Hi) Hrest]; subst. cbn [snd] in Ep.
    change (omap import_failure ((n, config) :: rest))
      with (match import_failure (n, config) with
            | Some b => b :: omap import_failure rest
            | None => omap import_failure rest
            end).
    unfold import_failure. cbn [snd]. rewrite Ep.
    destruct (import_string path); [| | contradiction].
    + now apply IH.
    + rewrite IH by exact Hrest. now rewrite <- app_assoc.
Qed.

Lemma check_loaders_leaves before entry after e :
  forall errors,
    Forall importable_or_not before ->
    import_raises entry = Some e ->
    check_loaders (before ++ entry :: after)%list errors
    = ((errors ++ omap import_failure before)%list, Some e).
Proof.
  induction before as [| [n config] rest IH]; intros errors Hok Er; cbn [check_loaders app].
  - change (omap import_failure []) with (@nil CheckMessage). rewrite app_nil_r.
    destruct entry as [n config]. unfold import_raises in Er. cbn [snd] in Er.
    destruct (config !! "LOADER_CLASS") as [v |]; [| now injection Er as <-].
    destruct v; try now injection Er as <-.
    destruct (import_string s); try discriminate. now injection Er as <-.
  - inversion Hok as [| ? ? (path & Ep & Hi) Hrest]; subst. cbn [snd] in Ep.
    change (omap import_failure ((n, config) :: rest))
      with (match import_failure (n, config) with
            | Some b => b :: omap import_failure rest
            | None => omap import_failure rest
            end).
    unfold import_failure. cbn [snd]. rewrite Ep.
    destruct (import_string path); [| | contradiction].
    + now apply IH.
    + rewrite IH by assumption. now rewrite <- app_assoc.
Qed.

Lemma omap_nil_iff {A B} (f : A -> option B) (l : list A) :
  omap f l = [] <-> Forall (fun a => f a = None) l.
Proof.
  induction l as [| a l IH].
  - split; [constructor | reflexivity].
  - change (omap f (a :: l))
      with (match f a with Some b => b :: omap f l | None => omap f l end).
    destruct (f a) eqn:Ea.
    + split; [discriminate |]. intros Hall. inversion Hall; congruence.
    + rewrite IH. split; [now constructor |]. intros Hall. now inversion Hall.
Qed.

(** X27 (apps.py, webpack_valid_config_check): when the configurations load
    and every LOADER_CLASS is a string whose import works or raises
    ImportError, the check returns error E002 if there is no configuration
    named DEFAULT, followed by one error E003, naming the class, for each
    configuration whose class cannot be imported, in the order of the
    configurations; it returns no error exactly when DEFAULT exists and
    every class imports. *)
Theorem check_reports_configurations setting configs :
  LOADED_CONFIG setting = Return configs ->
  Forall importable_or_not configs ->
  webpack_valid_config_check setting
  = Return (default_errors configs ++ omap import_failure configs)%list /\
  (webpack_valid_config_check setting = Return [] <->
   is_Some (dict_get "DEFAULT" configs) /\
   Forall (fun entry => import_failure entry = None) configs).
Proof.
  intros El Hok.
  assert (E : webpack_valid_config_check setting
              = Return (default_errors configs ++ omap import_failure configs)%list).
  { unfold webpack_valid_config_check, try_body, get_all_configs. rewrite El.
    cbn [outcome_bind].
    fold (default_errors configs). now rewrite check_loaders_ok. }
  split; [exact E |]. rewrite E, <- omap_nil_iff. unfold default_errors.
  destruct (dict_get "DEFAULT" configs) as [c |].
  - cbn [app]. split.
    + intros [= ->]. split; [eauto | reflexivity].
    + now intros [_ ->].
  - split; [discriminate |]. intros [[c [=]] _].
Qed.

(** X28 (apps.py, webpack_valid_config_check): when process_config raises a
    TypeError or a re.error on one override of the setting (the ones before
    it being fine), the check returns exactly one error, E001, whose hint
    is 'Got exception: ' followed by the exception's text; a missing DEFAULT
    or a class that cannot be imported is not reported then. *)
Theorem check_reports_bad_override before name bad after e text :
  Forall (fun entry => exists c, process_config (snd entry) = Return c) before ->
  process_config bad = Raise e ->
  caught_by_check e = Some text ->
  webpack_valid_config_check (Some (before ++ (name, bad) :: after)%list)
  = Return [make_error ("Got exception: " +:+ text) "E001"].
Proof.
  intros Hok Eb Ec.
  assert (El : LOADED_CONFIG (Some (before ++ (name, bad) :: after)%list) = Raise e).
  { unfold LOADED_CONFIG. cbn [default].
    apply process_entries_first_failure; [| exact Eb].
    eapply Forall_impl; [exact Hok |]. intros entry [c Hc]. rewrite Hc.
    split; [reflexivity | discriminate]. }
  unfold webpack_valid_config_check, try_body. rewrite El. cbn [outcome_bind snd fst].
  now rewrite Ec.
Qed.

(** X29 (apps.py, webpack_valid_config_check): an exception other than
    ImportError raised for a configuration's class ends the loop, and the
    configurations after it are not looked at: if it is a TypeError, a
    ValueError or a re.error the check returns the errors found up to there
    followed by E001, otherwise the check itself raises it; a LOADER_CLASS
    that is not a string makes the check raise AttributeError. *)
Theorem check_stops_at_exception setting configs before entry after e :
  LOADED_CONFIG setting = Return configs ->
  configs = (before ++ entry :: after)%list ->
  Forall importable_or_not before ->
  import_raises entry = Some e ->
  webpack_valid_config_check setting
  = match caught_by_check e with
    | Some text =>
        Return (default_errors configs ++ omap import_failure before ++
                [make_error ("Got exception: " +:+ text) "E001"])%list
    | None => Raise e
    end /\
  (forall v, snd entry !! "LOADER_CLASS" = Some v ->
     (forall path, v <> PyStr path) ->
     webpack_valid_config_check setting = Raise (no_rsplit v)).
Proof.
  intros El Ecfg Hok Er.
  assert (E : webpack_valid_config_check setting
    = match caught_by_check e with
      | Some text =>
          Return (default_errors configs ++ omap import_failure before ++
                  [make_error ("Got exception: " +:+ text) "E001"])%list
      | None => Raise e
      end).
  { unfold webpack_valid_config_check, try_body, get_all_configs. rewrite El.
    cbn [outcome_bind]. fold (default_errors configs).
    assert (Ec : check_loaders configs (default_errors configs)
                 = ((default_errors configs ++ omap import_failure before)%list, Some e)).
    { rewrite Ecfg at 1. now apply check_loaders_leaves. }
    rewrite Ec. cbn [snd fst].
    destruct (caught_by_check e); [| reflexivity]. now rewrite <- app_assoc. }
  split; [exact E |]. intros v Ev Hv. rewrite E.
  unfold import_raises in Er. rewrite Ev in Er.
  destruct v; try (injection Er as <-; reflexivity).
  now destruct (Hv s).
Qed.

End CheckFacts.

(** * The scenarios of the further properties *)

Lemma get_bundle_unknown_bundle_witness :
  fst (get_bundle 1 0 (example_loader true None [] []) "vendor"
         (process_start (constant_disk manifest_main)))
  = Raise (WebpackBundleLookupError "Cannot resolve bundle vendor.").
Proof.
  refine (get_bundle_unknown_bundle 0 0 (example_loader true None [] []) manifest_main
            "vendor" (process_start (constant_disk manifest_main)) _ _ _).
  - reflexivity.
  - split; [intros n _; reflexivity | discriminate].
  - reflexivity.
Defined.

Lemma get_bundle_missing_asset_witness :
  fst (get_bundle 1 0 (example_loader true None [] []) "main"
         (process_start (constant_disk manifest_ghost)))
  = Raise (WebpackBundleLookupError "The asset name 'ghost.js' could not be found.").
Proof.
  refine (get_bundle_missing_asset 0 0 (example_loader true None [] []) manifest_ghost
            "main" "ghost.js" ["a.js"] [] (process_start (constant_disk manifest_ghost))
            _ _ _ _ _).
  - reflexivity.
  - split; [intros n _; reflexivity | discriminate].
  - reflexivity.
  - reflexivity.
  - reflexivity.
Defined.

Lemma get_bundle_nameless_chunk_witness :
  fst (get_bundle 1 0 (example_loader true None [] []) "main"
         (process_start (constant_disk manifest_bare)))
  = Raise (WebpackBundleLookupError "Cannot resolve bundle main.").
Proof.
  refine (get_bundle_nameless_chunk 0 0 (example_loader true None [] []) manifest_bare
            "main" "x" ["a.js"] [] (mkAsset None None None None None)
            (process_start (constant_disk manifest_bare)) _ _ _ _ _ _ _ _ _).
  - reflexivity.
  - split; [intros n _; reflexivity | discriminate].
  - reflexivity.
  - reflexivity.
  - reflexivity.
  - reflexivity.
  - reflexivity.
  - reflexivity.
  - reflexivity.
Defined.

Lemma get_bundle_uncached_reads_witness :
  nreads (snd (get_bundle 1 0 (example_loader true None [] []) "main"
                 (process_start (constant_disk manifest_main))))
  = 3%nat.
Proof.
  refine (get_bundle_uncached_reads 0 0 (example_loader true None [] []) manifest_main
            "main" ["a.js"; "b.css"]
            [set_url "/static/webpack_bundles/a.js" (asset_named "a.js");
             set_url "/static/webpack_bundles/b.css" (asset_named "b.css")]
            (process_start (constant_disk manifest_main)) _ _ _ _ _).
  - reflexivity.
  - reflexivity.
  - intros n _. reflexivity.
  - reflexivity.
  - reflexivity.
Defined.

Lemma get_bundle_cached_reads_nothing_witness :
  nreads (snd (get_bundle 1 0 (example_loader false None [] []) "main"
                 (cache_world {[ "DEFAULT" := manifest_main ]} missing_disk)))
  = 0%nat.
Proof.
  refine (get_bundle_cached_reads_nothing 0 0 (example_loader false None [] [])
            manifest_main {[ "DEFAULT" := manifest_main ]} "main"
            (cache_world {[ "DEFAULT" := manifest_main ]} missing_disk) _ _ _ _).
  - reflexivity.
  - reflexivity.
  - reflexivity.
  - reflexivity.
Defined.

Lemma get_assets_failed_load_keeps_cache_witness :
  let self := example_loader false None [] [] in
  let w := cache_world {[ "DEFAULT" := manifest_main ]} missing_disk in
  exists e,
    fst (load_assets self w) = Raise e /\
    get_assets 1 self true true w = (Raise e, count_read w) /\
    class_assets (snd (get_assets 1 self true true w))
    = Some {[ "DEFAULT" := manifest_main ]}.
Proof.
  refine (get_assets_failed_load_keeps_cache 0 (example_loader false None [] [])
            true true (cache_world {[ "DEFAULT" := manifest_main ]} missing_disk)
            {[ "DEFAULT" := manifest_main ]} _ _ _ _).
  - reflexivity.
  - reflexivity.
  - right. reflexivity.
  - intros m. discriminate.
Defined.

Lemma loader_keeps_other_entries_witness :
  let self := example_loader false None [] [] in
  let w := cache_world {[ "ADMIN" := manifest_compile ]} (constant_disk manifest_main) in
  entry_of (snd (get_assets 1 self true false w)) "ADMIN" = entry_of w "ADMIN" /\
  entry_of (snd (get_bundle 1 0 self "main" w)) "ADMIN" = entry_of w "ADMIN".
Proof.
  refine (loader_keeps_other_entries 1 0 (example_loader false None [] []) true false
            "main" "ADMIN"
            (cache_world {[ "ADMIN" := manifest_compile ]} (constant_disk manifest_main)) _).
  discriminate.
Defined.

Lemma loader_bypasses_cache_witness :
  let self := example_loader true None [] [] in
  let w := cache_world {[ "DEFAULT" := manifest_compile ]} (constant_disk manifest_main) in
  class_assets (snd (get_assets 1 self true false w)) = class_assets w /\
  class_assets (snd (get_bundle 1 0 self "main" w)) = class_assets w.
Proof.
  refine (loader_bypasses_cache 1 0 (example_loader true None [] []) true false "main"
            (cache_world {[ "DEFAULT" := manifest_compile ]} (constant_disk manifest_main))
            _).
  reflexivity.
Defined.

Lemma get_assets_returns_done_only_witness :
  let self := example_loader true None [] [] in
  let w := process_start (constant_disk manifest_main) in
  status manifest_main = "done" /\
  fetch_assets self false w = (Return manifest_main, count_read w).
Proof.
  refine (get_assets_returns_done_only 1 (example_loader true None [] []) false
            (process_start (constant_disk manifest_main))
            (count_read (process_start (constant_disk manifest_main))) manifest_main _).
  reflexivity.
Defined.

Lemma loader_unassigned_cache_witness :
  let self := example_loader false None [] [] in
  let w := process_start (constant_disk manifest_main) in
  get_assets 1 self true false w
  = (Raise (AttributeError "type object 'WebpackLoader' has no attribute '_assets'"), w) /\
  get_bundle 1 0 self "main" w
  = (Raise (AttributeError "type object 'WebpackLoader' has no attribute '_assets'"), w).
Proof.
  refine (loader_unassigned_cache 0 0 (example_loader false None [] []) true false "main"
            (process_start (constant_disk manifest_main)) _ _).
  - reflexivity.
  - reflexivity.
Defined.

Lemma process_config_idempotent_witness :
  let merged : gmap string (@pyval (example_host true)) :=
    <["ignores" := @PyPatterns (example_host true) [rx_js]]>
      ({[ "IGNORE" := PyList [".*\.js$"] ]} ∪ DEFAULT_CONFIG) in
  process_config merged = Return merged.
Proof.
  refine (@process_config_idempotent (example_host true)
            {[ "IGNORE" := PyList [".*\.js$"] ]}
            (<["ignores" := @PyPatterns (example_host true) [rx_js]]>
               ({[ "IGNORE" := PyList [".*\.js$"] ]} ∪ DEFAULT_CONFIG)) _).
  reflexivity.
Defined.

Lemma process_config_first_bad_pattern_witness :
  @process_config (example_host true) {[ "IGNORE" := PyList [".+\.map"; "*"; ".*\.js$"] ]}
  = Raise (ReError "nothing to repeat at position 0").
Proof.
  refine (@process_config_first_bad_pattern (example_host true)
            {[ "IGNORE" := PyList [".+\.map"; "*"; ".*\.js$"] ]}
            [".+\.map"] [".*\.js$"] "*"
            [mkRx [(RxAny, RxPlus); (RxChar ".", RxOne); (RxChar "m", RxOne);
                   (RxChar "a", RxOne); (RxChar "p", RxOne)] false]
            (ReError "nothing to repeat at position 0") _ _ _).
  - reflexivity.
  - reflexivity.
  - reflexivity.
Defined.

Lemma load_config_lookup_witness :
  let entries : list (string * gmap string (@pyval (example_host true))) :=
    [("DEFAULT", ∅); ("ADMIN", {[ "CACHE" := PyBool true ]})] in
  let loaded :=
    match LOADED_CONFIG (Some entries) with Return loaded => loaded | _ => [] end in
  dict_keys (get_all_configs loaded) = ["DEFAULT"; "ADMIN"] /\
  load_config loaded "OTHER" = Raise (KeyError "OTHER").
Proof.
  refine (@load_config_lookup (example_host true)
            [("DEFAULT", ∅); ("ADMIN", {[ "CACHE" := PyBool true ]})]
            (match @LOADED_CONFIG (example_host true)
                     (Some [("DEFAULT", ∅); ("ADMIN", {[ "CACHE" := PyBool true ]})])
             with Return loaded => loaded | _ => [] end)
            "OTHER" _ _).
  - apply (bool_decide_unpack _). reflexivity.
  - reflexivity.
Defined.

Lemma LOADED_CONFIG_first_failure_witness :
  @LOADED_CONFIG (example_host true)
    (Some [("DEFAULT", ∅); ("ADMIN", {[ "IGNORE" := PyList ["*"] ]});
           ("SHOP", ∅)])
  = Raise (ReError "nothing to repeat at position 0").
Proof.
  refine (@LOADED_CONFIG_first_failure (example_host true)
            [("DEFAULT", ∅)] [("SHOP", ∅)] "ADMIN" {[ "IGNORE" := PyList ["*"] ]}
            (ReError "nothing to repeat at position 0") _ _).
  - constructor; [| constructor]. eexists. reflexivity.
  - reflexivity.
Defined.

Lemma LOADED_CONFIG_fallback_witness :
  @LOADED_CONFIG (example_host true) None
  = Return [("DEFAULT", <["ignores" := @PyPatterns (example_host true) default_rxs]>
                          DEFAULT_CONFIG)] /\
  @LOADED_CONFIG (example_host true) (Some []) = Return [] /\
  load_config ([] : list (string * gmap string (@pyval (example_host true)))) "DEFAULT"
  = Raise (KeyError "DEFAULT").
Proof.
  refine (@LOADED_CONFIG_fallback (example_host true) default_rxs _).
  reflexivity.
Defined.

Lemma get_loader_memoizes_witness :
  let loader := example_loader true None DEFAULT_IGNORE default_rxs in
  let p := example_process manifest_main in
  let p1 := @mkProcess (example_host true) (<["DEFAULT" := loader]> ∅) (world p) in
  @get_loader (example_host true) example_django example_loaded "DEFAULT" p
  = (Answer loader, p1) /\
  (forall loaded' w,
     @get_loader (example_host true) example_django loaded' "DEFAULT"
       (mkProcess (LOADERS p1) w)
     = (Answer loader, mkProcess (LOADERS p1) w)) /\
  (forall other, other <> "DEFAULT" -> LOADERS p1 !! other = LOADERS p !! other).
Proof.
  refine (@get_loader_memoizes (example_host true) example_django example_loaded
            "DEFAULT" (example_config true None DEFAULT_IGNORE default_rxs)
            (example_process manifest_main) _ _ _).
  - reflexivity.
  - reflexivity.
  - reflexivity.
Defined.

Lemma callers_unknown_config_witness :
  let p := example_process manifest_main in
  @get_loader (example_host true) example_django example_loaded "ADMIN" p
  = (Raised (Thrown (KeyError "ADMIN")), p) /\
  @get_files (example_host true) example_django 1 0 example_loaded "main" None "ADMIN" p
  = (Raised (Thrown (KeyError "ADMIN")), p) /\
  @get_as_tags (example_host true) example_django 1 0 example_loaded "main" None "ADMIN"
    (Text EmptyString) p
  = (Raised (Thrown (KeyError "ADMIN")), p) /\
  @get_static (example_host true) example_django 1 example_loaded "main" "ADMIN" p
  = (Raised (Thrown (KeyError "ADMIN")), p) /\
  @render_bundle (example_host true) example_django 1 0 example_loaded "main" None "ADMIN"
    (Text EmptyString) p
  = (Raised (Thrown (KeyError "ADMIN")), p) /\
  @webpack_static (example_host true) example_django 1 example_loaded "main" "ADMIN" p
  = (Raised (Thrown (KeyError "ADMIN")), p).
Proof.
  refine (@callers_unknown_config (example_host true) example_django 1 0 example_loaded
            "main" None "ADMIN" (Text EmptyString) (example_process manifest_main) _ _).
  - reflexivity.
  - reflexivity.
Defined.

Lemma get_files_filters_witness :
  fst (@get_files (example_host true) example_django 1 0 example_loaded "main"
         (Some "css") "DEFAULT" (example_process manifest_main))
  = Answer [set_url "/static/webpack_bundles/b.css" (asset_named "b.css")].
Proof.
  pose (self := example_loader true None DEFAULT_IGNORE default_rxs).
  pose (p1 := @mkProcess (example_host true) {[ "DEFAULT" := self ]}
                (process_start (constant_disk manifest_main))).
  refine (f_equal fst (proj1 (@get_files_filters (example_host true) example_django 1 0
            example_loaded "main" (Some "css") "DEFAULT" (example_process manifest_main)
            self p1
            [set_url "/static/webpack_bundles/a.js" (asset_named "a.js");
             set_url "/static/webpack_bundles/b.css" (asset_named "b.css")]
            (snd (get_bundle 1 0 self "main" (world p1))) _ _ _))).
  - reflexivity.
  - reflexivity.
  - right. repeat constructor; eexists; reflexivity.
Defined.

Lemma callers_nameless_chunk_witness :
  let p := example_process manifest_cdn in
  (forall ext,
     fst (@get_files (example_host true) example_django 1 0 example_loaded "main"
            (Some ext) "DEFAULT" p)
     = Raised (Thrown (KeyError "name"))) /\
  (forall extension,
     fst (@get_as_tags (example_host true) example_django 1 0 example_loaded "main"
            extension "DEFAULT" (Text EmptyString) p)
     = Raised (Thrown (KeyError "name"))).
Proof.
  pose (self := example_loader true None DEFAULT_IGNORE default_rxs).
  pose (p1 := @mkProcess (example_host true) {[ "DEFAULT" := self ]}
                (process_start (constant_disk manifest_cdn))).
  refine (@callers_nameless_chunk (example_host true) example_django 1 0
            example_loaded "main" "DEFAULT" (Text EmptyString)
            (example_process manifest_cdn) self p1
            [set_url "/static/webpack_bundles/a.js" (asset_named "a.js")]
            (mkAsset None (Some "https://cdn.example/x.js") None None
               (Some "https://cdn.example/x.js"))
            []
            (snd (get_bundle 1 0 self "main" (world p1))) _ _ _ _).
  - reflexivity.
  - reflexivity.
  - repeat constructor; eexists; reflexivity.
  - reflexivity.
Defined.

Lemma get_as_tags_render_witness :
  fst (@render_bundle (example_host true) example_django 1 0 example_loaded "main" None
         "DEFAULT" (Text "async") (example_process manifest_main))
  = Answer (@script_tag example_django "/static/webpack_bundles/a.js" (Text "async") +:+
            String (ascii_of_nat 10) EmptyString +:+
            @link_tag example_django "/static/webpack_bundles/b.css" (Text "async")).
Proof.
  pose (self := example_loader true None DEFAULT_IGNORE default_rxs).
  pose (p1 := @mkProcess (example_host true) {[ "DEFAULT" := self ]}
                (process_start (constant_disk manifest_main))).
  refine (f_equal fst (proj2 (@get_as_tags_render (example_host true) example_django 1 0
            example_loaded "main" None "DEFAULT" (Text "async")
            (example_process manifest_main) self p1
            [set_url "/static/webpack_bundles/a.js" (asset_named "a.js");
             set_url "/static/webpack_bundles/b.css" (asset_named "b.css")]
            (snd (get_bundle 1 0 self "main" (world p1))) _ _ _))).
  - reflexivity.
  - reflexivity.
  - repeat constructor; eexists; reflexivity.
Defined.

Lemma get_as_tags_by_extension_witness :
  let p := example_process manifest_main in
  fst (@get_as_tags (example_host true) example_django 1 0 example_loaded "main"
         (Some "js") "DEFAULT" (Safe "defer") p)
  = Answer [@script_tag example_django "/static/webpack_bundles/a.js" (Safe "defer")] /\
  fst (@get_as_tags (example_host true) example_django 1 0 example_loaded "main"
         (Some "css") "DEFAULT" (Safe "defer") p)
  = Answer [@link_tag example_django "/static/webpack_bundles/b.css" (Safe "defer")].
Proof.
  pose (self := example_loader true None DEFAULT_IGNORE default_rxs).
  pose (p1 := @mkProcess (example_host true) {[ "DEFAULT" := self ]}
                (process_start (constant_disk manifest_main))).
  refine ((fun both => conj (f_equal fst (proj1 both)) (f_equal fst (proj2 both)))
          (@get_as_tags_by_extension (example_host true) example_django 1 0
            example_loaded "main" "DEFAULT" (Safe "defer")
            (example_process manifest_main) self p1
            [set_url "/static/webpack_bundles/a.js" (asset_named "a.js");
             set_url "/static/webpack_bundles/b.css" (asset_named "b.css")]
            (snd (get_bundle 1 0 self "main" (world p1))) _ _ _)).
  - reflexivity.
  - reflexivity.
  - repeat constructor; eexists; reflexivity.
Defined.

Lemma get_static_prefix_witness :
  let p := example_process manifest_cdn in
  fst (@get_static (example_host true) example_django 1 example_loaded "img/logo.png"
         "DEFAULT" p)
  = Answer "https://cdn.example/img/logo.png" /\
  fst (@webpack_static (example_host true) example_django 1 example_loaded "img/logo.png"
         "DEFAULT" p)
  = Answer "https://cdn.example/img/logo.png".
Proof.
  pose (self := example_loader true None DEFAULT_IGNORE default_rxs).
  pose (p1 := @mkProcess (example_host true) {[ "DEFAULT" := self ]}
                (process_start (constant_disk manifest_cdn))).
  refine (@get_static_prefix (example_host true) example_django 0 example_loaded
            "img/logo.png" "DEFAULT" (example_process manifest_cdn) self p1
            manifest_cdn _ _ _).
  - reflexivity.
  - split; [intros n _; reflexivity | discriminate].
  - reflexivity.
Defined.

Lemma callers_not_compiled_witness :
  let p := example_process manifest_compile in
  fst (@get_files (example_host true) example_django 50 0 example_loaded "main" None
         "DEFAULT" p)
  = Raised (Thrown RecursionError) /\
  fst (@get_as_tags (example_host true) example_django 50 0 example_loaded "main" None
         "DEFAULT" (Text EmptyString) p)
  = Raised (Thrown RecursionError) /\
  fst (@render_bundle (example_host true) example_django 50 0 example_loaded "main" None
         "DEFAULT" (Text EmptyString) p)
  = Raised (Thrown RecursionError) /\
  fst (@get_static (example_host true) example_django 50 example_loaded "main" "DEFAULT" p)
  = Raised (Thrown RecursionError) /\
  fst (@webpack_static (example_host true) example_django 50 example_loaded "main"
         "DEFAULT" p)
  = Raised (Thrown RecursionError).
Proof.
  pose (self := example_loader true None DEFAULT_IGNORE default_rxs).
  pose (p1 := @mkProcess (example_host true) {[ "DEFAULT" := self ]}
                (process_start (constant_disk manifest_compile))).
  refine (@callers_not_compiled (example_host true) example_django 50 0 example_loaded
            "main" None "DEFAULT" (Text EmptyString) (example_process manifest_compile)
            self p1 manifest_compile _ _ _).
  - reflexivity.
  - split; [intros n _; reflexivity | discriminate].
  - reflexivity.
Defined.

Lemma check_reports_configurations_witness :
  @webpack_valid_config_check (example_host true) strict_django
    (Some [("ADMIN", {[ "LOADER_CLASS" := PyStr "shop.Loader" ]}); ("SHOP", ∅)])
  = Return [@missing_default; @cannot_import "shop.Loader"].
Proof.
  refine (proj1 (@check_reports_configurations (example_host true) strict_django
            (Some [("ADMIN", {[ "LOADER_CLASS" := PyStr "shop.Loader" ]}); ("SHOP", ∅)])
            (match @LOADED_CONFIG (example_host true)
                     (Some [("ADMIN", {[ "LOADER_CLASS" := PyStr "shop.Loader" ]});
                            ("SHOP", ∅)])
             with Return loaded => loaded | _ => [] end) _ _)).
  - reflexivity.
  - repeat constructor; eexists; (split; [reflexivity | exact I]).
Defined.

Lemma check_reports_bad_override_witness :
  @webpack_valid_config_check (example_host true) strict_django
    (Some [("DEFAULT", ∅);
           ("ADMIN", <["LOADER_CLASS" := PyStr "shop.Loader"]>
                       {[ "IGNORE" := PyList ["*"] ]})])
  = Return [make_error "Got exception: nothing to repeat at position 0" "E001"].
Proof.
  refine (@check_reports_bad_override (example_host true) strict_django
            [("DEFAULT", ∅)] "ADMIN"
            (<["LOADER_CLASS" := PyStr "shop.Loader"]> {[ "IGNORE" := PyList ["*"] ]})
            [] (ReError "nothing to repeat at position 0")
            "nothing to repeat at position 0" _ _ _).
  - constructor; [| constructor]. eexists. reflexivity.
  - reflexivity.
  - reflexivity.
Defined.

Lemma check_stops_at_exception_witness :
  @webpack_valid_config_check (example_host true) strict_django
    (Some [("DEFAULT", {[ "LOADER_CLASS" := PyInt 5 ]}); ("SHOP", ∅)])
  = Raise (AttributeError "'int' object has no attribute 'rsplit'").
Proof.
  pose (configs :=
    match @LOADED_CONFIG (example_host true)
            (Some [("DEFAULT", {[ "LOADER_CLASS" := PyInt 5 ]}); ("SHOP", ∅)])
    with Return loaded => loaded | _ => [] end).
  refine (proj2 (@check_stops_at_exception (example_host true) strict_django
            (Some [("DEFAULT", {[ "LOADER_CLASS" := PyInt 5 ]}); ("SHOP", ∅)])
            configs [] (default (EmptyString, ∅) (head configs)) (tail configs)
            (@no_rsplit (example_host true) (PyInt 5)) _ _ _ _)
          (PyInt 5) _ _).
  - reflexivity.
  - reflexivity.
  - constructor.
  - reflexivity.
  - reflexivity.
  - discriminate.
Defined.
